(** * remote-temperature: client poll loop and server write path

    A shallow embedding of
      - remotetemperature/client/__init__.py  (module [Client])
      - remotetemperature/server/__init__.py  (module [Server])
    together with the parts of the Python runtime both rely on
    (module [Py]): exceptions and their class hierarchy, [try]/[except],
    IEEE-754 comparison of floats, f-strings.

    Temperatures, timestamps and bounds are Python floats.  They are
    modelled by [spec_float], the Standard Library's specification of
    IEEE-754 values, and compared with [SFltb]: Python's [<] and [>] on
    floats are the IEEE comparisons, so every comparison with a NaN is
    false. *)

From Stdlib Require Import ZArith List Bool Lia Ascii String.
From Stdlib Require Import Floats.SpecFloat.
From Stdlib Require DecimalString DecimalPos DecimalZ.
From stdpp Require Import base gmap strings list.
Import ListNotations.

Local Open Scope Z_scope.

(* ===================================================================== *)
(** * Python runtime                                                      *)
(* ===================================================================== *)

Module Py.

(** ** Exceptions

    Only the classes that the two programs, the XML-RPC client, the
    socket layer and sqlite3 can raise on the modelled paths. *)
Inductive exc_class :=
  | BaseException | Exception
  | ValueError | RuntimeError | LookupError | KeyError | OverflowError
  | OSError | ConnectionError
  | ConnectionRefusedError | ConnectionResetError
  | ConnectionAbortedError | BrokenPipeError
  | TimeoutError        (* socket.timeout is this class (an OSError) *)
  | gaierror            (* socket.gaierror, name resolution *)
  | XmlRpcError         (* xmlrpc.client.Error *)
  | Fault | ProtocolError | ResponseError
  | SqliteError         (* sqlite3.Error *)
  | InterfaceError | DatabaseError
  | OperationalError | IntegrityError | ProgrammingError
  | W1ThermSensorError  (* w1thermsensor: class W1ThermSensorError(RuntimeError) *)
  | SanityCheckError    (* client: class SanityCheckError(ValueError) *)
  | DBError.            (* server: class DBError(RuntimeError) *)

Global Instance exc_class_eq_dec : EqDecision exc_class.
Proof. solve_decision. Defined.

(** The direct base class of each class. *)
Definition base (c : exc_class) : option exc_class :=
  match c with
  | BaseException => None
  | Exception => Some BaseException
  | ValueError | RuntimeError | LookupError | OSError
  | XmlRpcError | SqliteError => Some Exception
  | OverflowError => Some Exception      (* through ArithmeticError *)
  | KeyError => Some LookupError
  | ConnectionError | TimeoutError | gaierror => Some OSError
  | ConnectionRefusedError | ConnectionResetError
  | ConnectionAbortedError | BrokenPipeError => Some ConnectionError
  | Fault | ProtocolError | ResponseError => Some XmlRpcError
  | InterfaceError | DatabaseError => Some SqliteError
  | OperationalError | IntegrityError | ProgrammingError => Some DatabaseError
  | W1ThermSensorError | DBError => Some RuntimeError
  | SanityCheckError => Some ValueError
  end.

(** [c] and its bases, nearest first; the hierarchy is five deep. *)
Fixpoint bases_upto (fuel : nat) (c : exc_class) : list exc_class :=
  match fuel with
  | O => [c]
  | S n => c :: match base c with
                | Some b => bases_upto n b
                | None => []
                end
  end.

Definition mro (c : exc_class) : list exc_class := bases_upto 6 c.

Definition issubclass (c d : exc_class) : bool :=
  existsb (fun b => bool_decide (b = d)) (mro c).

(** ** f-strings

    A formatted string is kept as its sequence of literal pieces and
    formatted values; [render] turns it into text once the formatting
    of numbers is fixed. *)
Inductive piece :=
  | Lit (s : string)          (* literal text *)
  | FStr (s : string)         (* {s} for a str *)
  | FFloat (x : spec_float)   (* {x} for a float *)
  | FInt (z : Z).             (* {z} for an int *)

Definition fstring := list piece.

Section Render.
Variable str_float : spec_float -> string.
Variable str_int : Z -> string.

Definition render_piece (p : piece) : string :=
  match p with
  | Lit s => s
  | FStr s => s
  | FFloat x => str_float x
  | FInt z => str_int z
  end.

Fixpoint render (f : fstring) : string :=
  match f with
  | [] => EmptyString
  | p :: f' => render_piece p +:+ render f'
  end.
End Render.

(** [needle] occurs in [hay]. *)
Definition includes (needle hay : string) : Prop :=
  exists pre post, hay = pre +:+ needle +:+ post.

(** Whatever the formatting of numbers, the text of [m] shows [p]. *)
Definition mentions (p : piece) (m : fstring) : Prop :=
  forall str_float str_int,
    includes (render_piece str_float str_int p) (render str_float str_int m).

(** An exception object: its class, [str(e)], and the numeric code and
    text that [Fault] ([faultCode], [faultString]) and [ProtocolError]
    ([errcode], [errmsg]) carry. *)
Record exn := mk_exn {
  cls : exc_class;
  msg : fstring;
  code : Z;
  text : string
}.

Definition raise_msg (c : exc_class) (m : fstring) : exn :=
  {| cls := c; msg := m; code := 0; text := EmptyString |}.

Definition isinstance (e : exn) (c : exc_class) : bool := issubclass (cls e) c.

(** ** Computations with a state and exceptions *)
Inductive result (A : Type) :=
  | Ok (a : A)
  | Raise (e : exn).
Arguments Ok {A} a.
Arguments Raise {A} e.

Definition M (S A : Type) : Type := S -> S * result A.

Definition ret {S A} (a : A) : M S A := fun s => (s, Ok a).
Definition raise {S A} (e : exn) : M S A := fun s => (s, Raise e).
Definition bind {S A B} (m : M S A) (k : A -> M S B) : M S B :=
  fun s => match m s with
           | (s', Ok a) => k a s'
           | (s', Raise e) => (s', Raise e)
           end.
Definition lift {S A} (r : result A) : M S A := fun s => (s, r).
Definition modify {S} (f : S -> S) : M S unit := fun s => (f s, Ok tt).
Definition gets {S A} (f : S -> A) : M S A := fun s => (s, Ok (f s)).

(** One [except (C1, C2, ...) as e: body] clause. *)
Definition clause (S A : Type) : Type := list exc_class * (exn -> M S A).

Definition matches {S A} (e : exn) (h : clause S A) : bool :=
  existsb (isinstance e) (fst h).

(** [try: body  except ...:] the first clause one of whose classes the
    exception is an instance of handles it; with no such clause the
    exception propagates.  What the body did before raising stays. *)
Definition try_except {S A} (body : M S A) (handlers : list (clause S A)) : M S A :=
  fun s => match body s with
           | (s', Ok a) => (s', Ok a)
           | (s', Raise e) =>
               match find (matches e) handlers with
               | Some h => snd h e s'
               | None => (s', Raise e)
               end
           end.

(** ** Floats *)
Definition is_nan (x : spec_float) : bool :=
  match x with S754_nan => true | _ => false end.

(** [x < y], [x > y], [x >= y], [x <= y] on floats. *)
Definition flt (x y : spec_float) : bool := SFltb x y.
Definition fgt (x y : spec_float) : bool := SFltb y x.
Definition fge (x y : spec_float) : bool := SFleb y x.
Definition fle (x y : spec_float) : bool := SFleb x y.

(** The binary64 float [m * 2^e], for literals. *)
Definition float_lit (m e : Z) : spec_float := binary_normalize 53 1024 m e false.

End Py.

Export Py.

Declare Scope py_scope.
Delimit Scope py_scope with py.
Notation "'let!' x ':=' m 'in' k" := (bind m (fun x => k))
  (at level 10, x name, m at level 100, k at level 200) : py_scope.

Local Open Scope py_scope.

(* ===================================================================== *)
(** * remotetemperature/client/__init__.py                                *)
(* ===================================================================== *)

Module Client.

(** The four arguments of the remote [record_temperature] call. *)
Record RpcRequest := {
  req_device_id : string;
  req_sensor_id : string;
  req_timestamp : spec_float;
  req_temperature : spec_float
}.

Inductive level := DEBUG | INFO | ERROR.

(** What the client process does to the outside, in order. *)
Inductive Event :=
  | EvLog (lvl : level) (m : fstring)   (* self._logger.<lvl>(m) *)
  | EvEnumerate                         (* W1ThermSensor.get_available_sensors() *)
  | EvRead (sensor_id : string)         (* sensor.get_temperature() *)
  | EvRpc (r : RpcRequest)              (* self._rpc_proxy.record_temperature(...) *)
  | EvSleep (seconds : spec_float).     (* time.sleep(seconds) *)

(** A sensor as one poll cycle sees it: its id and what
    [get_temperature()] does when called. *)
Record Sensor := {
  id : string;
  get_temperature : result spec_float
}.

(** The rest of the outside world during the processing of one sensor:
    the clock, and what the RPC proxy does with a request. *)
Record Env := {
  now : spec_float;
  record_temperature : RpcRequest -> result Z
}.

(** The attributes of [RemoteTemperatureClient] set by [__init__], and
    the events of the process so far. *)
Record RemoteTemperatureClient := {
  _device_id : string;
  _period : spec_float;
  _sanity_check_low : option spec_float;
  _sanity_check_high : option spec_float;
  _quit : bool;
  trace : list Event
}.

Definition Self := RemoteTemperatureClient.

Record Args := {
  device_id : string;
  period : spec_float;
  sanity_check_low : option spec_float;
  sanity_check_high : option spec_float
}.

Definition emit (ev : Event) : M Self unit :=
  modify (fun self =>
    {| _device_id := _device_id self;
       _period := _period self;
       _sanity_check_low := _sanity_check_low self;
       _sanity_check_high := _sanity_check_high self;
       _quit := _quit self;
       trace := trace self ++ [ev] |}).

Definition set_quit (b : bool) : M Self unit :=
  modify (fun self =>
    {| _device_id := _device_id self;
       _period := _period self;
       _sanity_check_low := _sanity_check_low self;
       _sanity_check_high := _sanity_check_high self;
       _quit := b;
       trace := trace self |}).

Definition logger (lvl : level) (m : fstring) : M Self unit := emit (EvLog lvl m).

(** [__init__], without the logger set-up and the construction of the
    proxy object. *)
Definition __init__ (args : Args) : Self :=
  {| _device_id := device_id args;
     _period := period args;
     _sanity_check_low := sanity_check_low args;
     _sanity_check_high := sanity_check_high args;
     _quit := false;
     trace := [EvLog INFO [Lit "remote-temperature-client starting"]] |}.

(** [bound is not None and test(bound)] *)
Definition is_not_None_and {A} (bound : option A) (test : A -> bool) : bool :=
  match bound with
  | Some b => test b
  | None => false
  end.

(** [{bound}] in an f-string. *)
Definition fmt_bound (bound : option spec_float) : piece :=
  match bound with
  | Some b => FFloat b
  | None => Lit "None"
  end.

Definition below_low_message (sensor_id : string) (temperature : spec_float)
    (low : option spec_float) : fstring :=
  [Lit "Temerature reading ("; FFloat temperature; Lit "C)for sensor "; FStr sensor_id;
   Lit " failed sanity check; temperature is below low threshold of";
   Lit " "; fmt_bound low; Lit "C"].

Definition above_high_message (sensor_id : string) (temperature : spec_float)
    (high : option spec_float) : fstring :=
  [Lit "Temerature reading ("; FFloat temperature; Lit "C)for sensor "; FStr sensor_id;
   Lit " failed sanity check; temperature is above high threshold of";
   Lit " "; fmt_bound high; Lit "C"].

Definition _check_temperature_sanity (sensor_id : string) (temperature : spec_float)
    : M Self unit :=
  let! low := gets _sanity_check_low in
  let! _ :=
    if is_not_None_and low (fun low => flt temperature low)
    then raise (raise_msg SanityCheckError (below_low_message sensor_id temperature low))
    else ret tt in
  let! high := gets _sanity_check_high in
  if is_not_None_and high (fun high => fgt temperature high)
  then raise (raise_msg SanityCheckError (above_high_message sensor_id temperature high))
  else ret tt.

(** The [try] block of [_read_and_record_temperature]. *)
Definition read_and_record_body (sensor : Sensor) (env : Env) : M Self unit :=
  let! temperature := (let! _ := emit (EvRead (id sensor)) in lift (get_temperature sensor)) in
  let timestamp := now env in
  let! _ := _check_temperature_sanity (id sensor) temperature in
  let! device := gets _device_id in
  let! _ := logger DEBUG
    [Lit "Read temperature "; FFloat temperature; Lit "C";
     Lit " from sensor "; FStr (id sensor);
     Lit " on device "; FStr device;
     Lit " at timestamp "; FFloat timestamp] in
  let request :=
    {| req_device_id := device;
       req_sensor_id := id sensor;
       req_timestamp := timestamp;
       req_temperature := temperature |} in
  let! result := (let! _ := emit (EvRpc request) in lift (record_temperature env request)) in
  if negb (result =? 0)
  then logger ERROR [Lit "Received error status "; FInt result; Lit " from remote server"]
  else ret tt.

(** Its four [except] clauses, in order. *)
Definition except_clauses (sensor : Sensor) : list (clause Self unit) :=
  [ ([W1ThermSensorError; SanityCheckError],
     fun e => logger ERROR ([Lit "Failed to read from sensor "; FStr (id sensor); Lit ": "] ++ msg e));
    ([Fault],
     fun e => logger ERROR [Lit "RPC error ("; FInt (code e); Lit "): "; FStr (text e)]);
    ([ProtocolError],
     fun e => logger ERROR [Lit "Protocol error ("; FInt (code e); Lit "): "; FStr (text e)]);
    ([ConnectionError],
     fun e => logger ERROR ([Lit "Connection error: "] ++ msg e)) ].

Definition _read_and_record_temperature (sensor : Sensor) (env : Env) : M Self unit :=
  try_except (read_and_record_body sensor env) (except_clauses sensor).

(** The request that [_read_and_record_temperature] sends for a reading. *)
Definition request_for (self : Self) (sensor : Sensor) (env : Env)
    (temperature : spec_float) : RpcRequest :=
  {| req_device_id := _device_id self;
     req_sensor_id := id sensor;
     req_timestamp := now env;
     req_temperature := temperature |}.

(** The exceptions that one of the four [except] clauses of
    [_read_and_record_temperature] is for. *)
Definition caught (e : exn) : bool :=
  existsb (isinstance e)
    [W1ThermSensorError; SanityCheckError; Fault; ProtocolError; ConnectionError].

(** [quit], the body of the SIGINT and SIGTERM handler. *)
Definition quit : M Self unit :=
  let! _ := logger INFO [Lit "Received quit request"] in
  set_quit true.

(** The [for sensor in ...: self._read_and_record_temperature(sensor)]
    loop over the sensors of one cycle: an exception that leaves
    [_read_and_record_temperature] leaves the loop. *)
Fixpoint for_sensors (sensors : list (Sensor * Env)) : M Self unit :=
  match sensors with
  | [] => ret tt
  | (sensor, env) :: rest =>
      let! _ := _read_and_record_temperature sensor env in
      for_sensors rest
  end.

(** The same client with more events behind it. *)
Definition after (self : Self) (events : list Event) : Self :=
  {| _device_id := _device_id self;
     _period := _period self;
     _sanity_check_low := _sanity_check_low self;
     _sanity_check_high := _sanity_check_high self;
     _quit := _quit self;
     trace := trace self ++ events |}.

(** ** [time.sleep]

    CPython (3.11) turns the length into a count of nanoseconds, a
    signed 64-bit integer: NaN is refused with [ValueError], a length
    whose product with 1e9 lies beyond 2^63 on either side with
    [OverflowError], and a negative count with [ValueError], in that
    order; a product of exactly 2^63 becomes, in the conversion to 64
    bits, a negative count.  A length that passes goes to the platform,
    which sleeps and returns, or fails (a deadline its clock cannot
    hold: [OSError] or [OverflowError], for lengths of the order of
    2^31 seconds and more): that is [platform], the outside's part. *)
Definition nanoseconds (secs : spec_float) : spec_float :=
  SFmul 53 1024 secs (float_lit 1000000000 0).

Definition beyond_64_bits (secs : spec_float) : bool :=
  flt (float_lit 1 63) (nanoseconds secs) || flt (nanoseconds secs) (float_lit (-1) 63).

Definition negative_count (secs : spec_float) : bool :=
  flt secs (float_lit 0 0) || SFeqb (nanoseconds secs) (float_lit 1 63).

Definition time_sleep (platform : result unit) (secs : spec_float) : result unit :=
  if is_nan secs
  then Raise (raise_msg ValueError [Lit "Invalid value NaN (not a number)"])
  else if beyond_64_bits secs
  then Raise (raise_msg OverflowError [Lit "timestamp too large to convert to C _PyTime_t"])
  else if negative_count secs
  then Raise (raise_msg ValueError [Lit "sleep length must be non-negative"])
  else platform.

(** The lengths that CPython passes on to the platform. *)
Definition sleep_length (secs : spec_float) : bool :=
  negb (is_nan secs) && negb (beyond_64_bits secs) && negb (negative_count secs).

(** [time.sleep(self._period)] *)
Definition sleep (platform : result unit) : M Self unit :=
  let! secs := gets _period in
  let! _ := emit (EvSleep secs) in
  lift (time_sleep platform secs).

(** ** [run_forever] as a machine

    The loop does not end by itself, and the signal handler runs
    between two of its steps, so it is given as a transition function
    on control points.  [sensors_at n] is what the [n]-th call of
    [get_available_sensors()] returns (it does return: the one of the
    test suite's module always does), with the world each sensor is
    then processed in, and [os_sleep n] is what the platform does with
    the sleep of that cycle.  The handler only logs a line and sets
    [_quit]: a signal that arrives while a sensor is processed, or
    during the sleep, is one that arrives before the step that
    follows. *)
Inductive Pc :=
  | AtWhile                                 (* about to test [not self._quit] *)
  | AtFor                                   (* about to call [get_available_sensors()] *)
  | InFor (rest : list (Sensor * Env))      (* in the [for], these sensors left *)
  | Returned                                (* [run_forever] has returned *)
  | Raised (e : exn).                       (* an exception has left [run_forever] *)

Record Config := {
  pc : Pc;
  self : Self;
  cycle : nat    (* calls of get_available_sensors() so far *)
}.

Definition following (c : Config) (p : Pc) (r : Self * result unit) : Config :=
  match r with
  | (self', Ok _) => {| pc := p; self := self'; cycle := cycle c |}
  | (self', Raise e) => {| pc := Raised e; self := self'; cycle := cycle c |}
  end.

Section Run.
Variable sensors_at : nat -> list (Sensor * Env).
Variable os_sleep : nat -> result unit.

(** One step of the loop. *)
Definition step (c : Config) : Config :=
  match pc c with
  | AtWhile =>
      if negb (_quit (self c))
      then {| pc := AtFor; self := self c; cycle := cycle c |}
      else following c Returned (logger INFO [Lit "quitting"] (self c))
  | AtFor =>
      {| pc := InFor (sensors_at (cycle c));
         self := fst (emit EvEnumerate (self c));
         cycle := S (cycle c) |}
  | InFor ((sensor, env) :: rest) =>
      following c (InFor rest) (_read_and_record_temperature sensor env (self c))
  | InFor [] =>
      following c AtWhile (sleep (os_sleep (pred (cycle c))) (self c))
  | Returned | Raised _ => c
  end.

(** The handler of SIGINT and SIGTERM runs [client.quit()] and
    control goes back to where it was. *)
Definition signal (c : Config) : Config :=
  {| pc := pc c; self := fst (quit (self c)); cycle := cycle c |}.

Inductive Action := Step | Signal.

#[global] Instance Action_eq_dec : EqDecision Action.
Proof. solve_decision. Defined.

Definition act (a : Action) (c : Config) : Config :=
  match a with
  | Step => step c
  | Signal => signal c
  end.

(** The process under a schedule of loop steps and signals. *)
Definition exec (schedule : list Action) (c : Config) : Config :=
  fold_left (fun c a => act a c) schedule c.

(** The sensors of the cycle under way that are still to be processed
    (those to come, when the loop test has been passed and the sensors
    are not yet enumerated), and bounds on what is left of
    [run_forever] once [_quit] is set: loop steps, sleeps and
    enumerations. *)
Definition in_flight (c : Config) : list (Sensor * Env) :=
  match pc c with
  | AtFor => sensors_at (cycle c)
  | InFor rest => rest
  | _ => []
  end.

Definition steps_left (c : Config) : nat :=
  match pc c with
  | AtWhile => 1
  | AtFor => length (sensors_at (cycle c)) + 3
  | InFor rest => length rest + 2
  | Returned | Raised _ => 0
  end.

(** The cycle whose sleep is still to come. *)
Definition sleeping_cycle (c : Config) : nat :=
  match pc c with
  | AtFor => cycle c
  | _ => pred (cycle c)
  end.
End Run.


(** The defaults of [parse_args]: device "unknown", a period of 60.0
    seconds, bounds -15.0 and 100.0. *)
Definition default_args : Args :=
  {| device_id := "unknown";
     period := float_lit 60 0;
     sanity_check_low := Some (float_lit (-15) 0);
     sanity_check_high := Some (float_lit 100 0) |}.

Definition with_bounds (low high : option spec_float) : Args :=
  {| device_id := device_id default_args;
     period := period default_args;
     sanity_check_low := low;
     sanity_check_high := high |}.

(** Sensors and surroundings for examples: a sensor that reads [t], one
    whose read fails as the sensor of the test suite does, a server that
    answers [status], and one that cannot be reached in time. *)
Definition reading (name : string) (t : spec_float) : Sensor :=
  {| id := name; get_temperature := Ok t |}.

Definition broken (name : string) : Sensor :=
  {| id := name;
     get_temperature := Raise (raise_msg W1ThermSensorError [Lit "Error reading temperature"]) |}.

Definition answering (status : Z) : Env :=
  {| now := float_lit 1000 0; record_temperature := fun _ => Ok status |}.

Definition timed_out : exn :=
  {| cls := TimeoutError; msg := [Lit "[Errno 110] Connection timed out"];
     code := 110; text := "Connection timed out" |}.

Definition unreachable : Env :=
  {| now := float_lit 1000 0; record_temperature := fun _ => Raise timed_out |}.

(** [client.run_forever()] right after [RemoteTemperatureClient(args)]. *)
Definition start (args : Args) : Config :=
  {| pc := AtWhile; self := __init__ args; cycle := O |}.

Definition terminated (c : Config) : bool :=
  match pc c with
  | Returned | Raised _ => true
  | _ => false
  end.

(** The RPC calls, sleeps and sensor reads in a trace. *)
Definition rpc_calls (t : list Event) : list RpcRequest :=
  omap (fun ev => match ev with EvRpc r => Some r | _ => None end) t.

Definition sleeps (t : list Event) : list spec_float :=
  omap (fun ev => match ev with EvSleep s => Some s | _ => None end) t.

Definition reads (t : list Event) : list string :=
  omap (fun ev => match ev with EvRead s => Some s | _ => None end) t.

(** The sanity condition as the specification words it. *)
Definition within_bounds (low high : option spec_float) (t : spec_float) : bool :=
  match low with Some l => fge t l | None => true end
  && match high with Some h => fle t h | None => true end.

(** The sanity condition as the code tests it. *)
Definition not_outside (low high : option spec_float) (t : spec_float) : bool :=
  negb (is_not_None_and low (fun l => flt t l))
  && negb (is_not_None_and high (fun h => fgt t h)).

(** What the [except] clauses do with an exception of the [try] block. *)
Definition handle (sensor : Sensor) (e : exn) : M Self unit :=
  fun s => match find (matches e) (except_clauses sensor) with
           | Some h => snd h e s
           | None => (s, Raise e)
           end.

(** The requests that processing [sensor] sends: at most one. *)
Definition transmitted (self : Self) (sensor : Sensor) (env : Env) : list RpcRequest :=
  match get_temperature sensor with
  | Ok t =>
      if not_outside (_sanity_check_low self) (_sanity_check_high self) t
      then [request_for self sensor env t]
      else []
  | Raise _ => []
  end.

(** How processing [sensor] ends. *)
Definition outcome (self : Self) (sensor : Sensor) (env : Env) : result unit :=
  match get_temperature sensor with
  | Ok t =>
      if not_outside (_sanity_check_low self) (_sanity_check_high self) t
      then match record_temperature env (request_for self sensor env t) with
           | Ok _ => Ok tt
           | Raise e => if caught e then Ok tt else Raise e
           end
      else Ok tt
  | Raise e => if caught e then Ok tt else Raise e
  end.

(** A request whose reading neither test of the sanity check rejects. *)
Definition sane (self : Self) (r : RpcRequest) : Prop :=
  not_outside (_sanity_check_low self) (_sanity_check_high self) (req_temperature r) = true.

Definition ends_well (self : Self) (se : Sensor * Env) : bool :=
  match outcome self (fst se) (snd se) with
  | Ok _ => true
  | Raise _ => false
  end.

Definition sleeps_left (p : Pc) : nat :=
  match p with
  | AtFor | InFor _ => 1
  | _ => 0
  end.

Definition enumerations_left (p : Pc) : nat :=
  match p with
  | AtFor => 1
  | _ => 0
  end.

Definition not_raised (p : Pc) : bool :=
  match p with
  | Raised _ => false
  | _ => true
  end.

Definition count_steps (schedule : list Action) : nat :=
  length (filter (fun a => a = Step) schedule).

Definition is_nan_bound (bound : option spec_float) : bool :=
  is_not_None_and bound is_nan.

End Client.

(* ===================================================================== *)
(** * sqlite3, as far as the server uses it                               *)
(* ===================================================================== *)

(** A connection of Python's sqlite3 module in its default transaction
    mode.  [execute] of an INSERT first opens a transaction when none
    is open, then binds its values; [commit] issues COMMIT only when
    one is open; a failing call raises and nothing in the module rolls
    back.  In SQLite a
    statement that fails changes nothing; a COMMIT that fails with
    SQLITE_BUSY leaves the transaction open, with its rows, to be
    committed later; other failures (disk full, I/O error) roll the
    transaction back.  The failures themselves come from outside and
    are an argument of each call. *)
Module Sqlite.

(** A value of a column: what XML-RPC delivers and SQLite stores. *)
Inductive Value :=
  | VStr (s : string)
  | VFloat (x : spec_float)
  | VInt (z : Z)
  | VNone.

(** A table: the names of its columns, declared without types or
    constraints as the server's CREATE TABLE declares them, so that a
    value is stored as it was bound; and its rows. *)
Record Table := {
  columns : list string;
  rows : list (list Value)     (* in rowid order *)
}.

(** The tables of a database file, in creation order. *)
Definition Database := list (string * Table).

(** The database files by name: their committed content. *)
Abbreviation Disk := (gmap string Database).

(** A connection: the file it is on and its open transaction, if any,
    with the rows inserted in it and not yet committed. *)
Record Connection := {
  database_file : string;
  in_transaction : bool;
  pending : list (string * list Value)
}.

(** What the engine does to a call, besides what the statement itself
    asks for.  A failing call raises the given exception; SQLite then
    either leaves the open transaction as it is (SQLITE_BUSY: the call
    can be tried again) or has rolled it back (SQLITE_FULL,
    SQLITE_IOERR, ...). *)
Inductive Fault :=
  | NoFault
  | FailKeep (e : exn)
  | FailRollback (e : exn).

Inductive Stmt :=
  | CreateTable (if_not_exists : bool) (name : string) (cols : list string)
  | InsertValues (name : string) (values : list Value).

Definition St : Type := Disk * Connection.

Definition operational_error (m : fstring) : exn := raise_msg OperationalError m.

(** Binding a Python value to a parameter.  An int must fit SQLite's
    INTEGER, 64 bits signed: for any other int the module raises
    [OverflowError], which is no [sqlite3.Error].  A str, a float and
    [None] are always bound. *)
Definition sqlite_int (z : Z) : bool := (- 2 ^ 63 <=? z) && (z <? 2 ^ 63).

Definition binds (v : Value) : bool :=
  match v with
  | VInt z => sqlite_int z
  | _ => true
  end.

Definition too_large : exn :=
  raise_msg OverflowError [Lit "Python int too large to convert to SQLite INTEGER"].

(** What SQLite stores for a bound value: the value, except that it
    has no NaN and stores NULL for one. *)
Definition stored (v : Value) : Value :=
  match v with
  | VFloat x => if is_nan x then VNone else VFloat x
  | _ => v
  end.

(** The connection after the module has issued BEGIN, if it had to. *)
Definition begun (c : Connection) : Connection :=
  {| database_file := database_file c; in_transaction := true; pending := pending c |}.

Definition content (d : Disk) (file : string) : Database :=
  match d !! file with
  | Some db => db
  | None => []
  end.

Definition find_table (db : Database) (name : string) : option Table :=
  match find (fun nt => bool_decide (fst nt = name)) db with
  | Some nt => Some (snd nt)
  | None => None
  end.

(** Append [row] to every table of that name (there is one). *)
Definition append_row (name : string) (row : list Value) (db : Database) : Database :=
  map (fun nt =>
         if bool_decide (fst nt = name)
         then (fst nt, {| columns := columns (snd nt); rows := rows (snd nt) ++ [row] |})
         else nt) db.

Definition apply_pending (p : list (string * list Value)) (db : Database) : Database :=
  fold_left (fun db nr => append_row (fst nr) (snd nr) db) p db.

Definition rollback (c : Connection) : Connection :=
  {| database_file := database_file c; in_transaction := false; pending := [] |}.

(** [sqlite3.connect(name)] with [mode=rwc]: the file is created, empty,
    when there is none. *)
Definition connect (name : string) (fault : option exn) : M Disk Connection :=
  match fault with
  | Some e => raise e
  | None =>
      let! _ := modify (fun d : Disk =>
                          match d !! name with
                          | Some _ => d
                          | None => <[name := []]> d
                          end) in
      ret {| database_file := name; in_transaction := false; pending := [] |}
  end.

(** [connection.execute(stmt)].  A statement is first checked against
    the schema; then the engine may fail.  CREATE TABLE runs outside
    transactions and is durable when it returns.  INSERT opens a
    transaction when none is open, binds its values, which fails for
    an int that is too large and leaves the transaction open, and adds
    its row, as stored, to the transaction. *)
Definition execute (stmt : Stmt) (fault : Fault) : M St unit :=
  fun '(d, c) =>
    let db := content d (database_file c) in
    match stmt with
    | CreateTable if_not_exists name cols =>
        match find_table db name, if_not_exists with
        | Some _, false =>
            ((d, c), Raise (operational_error [Lit "table "; FStr name; Lit " already exists"]))
        | existing, _ =>
            match fault with
            | NoFault =>
                match existing with
                | Some _ => ((d, c), Ok tt)
                | None =>
                    ((<[database_file c := db ++ [(name, {| columns := cols; rows := [] |})]]> d, c),
                     Ok tt)
                end
            | FailKeep e => ((d, c), Raise e)
            | FailRollback e => ((d, rollback c), Raise e)
            end
        end
    | InsertValues name values =>
        match find_table db name with
        | None => ((d, c), Raise (operational_error [Lit "no such table: "; FStr name]))
        | Some t =>
            if negb (length (columns t) =? length values)%nat
            then ((d, c), Raise (operational_error
                   [Lit "table "; FStr name; Lit " has "; FInt (Z.of_nat (length (columns t)));
                    Lit " columns but "; FInt (Z.of_nat (length values)); Lit " values were supplied"]))
            else if negb (forallb binds values)
            then ((d, begun c), Raise too_large)
            else
              match fault with
              | NoFault =>
                  ((d, {| database_file := database_file c;
                          in_transaction := true;
                          pending := pending c ++ [(name, map stored values)] |}), Ok tt)
              | FailKeep e => ((d, c), Raise e)
              | FailRollback e => ((d, rollback c), Raise e)
              end
        end
    end.

(** [connection.commit()]: nothing to do outside a transaction;
    otherwise the rows of the transaction reach the file, unless the
    engine fails. *)
Definition commit (fault : Fault) : M St unit :=
  fun '(d, c) =>
    if negb (in_transaction c) then ((d, c), Ok tt)
    else
      match fault with
      | NoFault =>
          ((<[database_file c := apply_pending (pending c) (content d (database_file c))]> d,
            rollback c), Ok tt)
      | FailKeep e => ((d, c), Raise e)
      | FailRollback e => ((d, rollback c), Raise e)
      end.

Definition count_tables (db : Database) (name : string) : nat :=
  length (List.filter (fun nt => bool_decide (fst nt = name)) db).

Definition rows_of (t : option Table) : list (list Value) :=
  match t with
  | Some t => rows t
  | None => []
  end.

(** The rows for table [name] among the rows of a transaction. *)
Definition rows_for (name : string) (p : list (string * list Value)) : list (list Value) :=
  map snd (List.filter (fun nr => bool_decide (fst nr = name)) p).

(** The rows of a table that a reader of the file sees. *)
Definition stored_rows (d : Disk) (file name : string) : list (list Value) :=
  rows_of (find_table (content d file) name).

Definition raises_only_sqlite_errors (f : Fault) : bool :=
  match f with
  | NoFault => true
  | FailKeep e | FailRollback e => isinstance e SqliteError
  end.

End Sqlite.

(* ===================================================================== *)
(** * remotetemperature/server/__init__.py                                *)
(* ===================================================================== *)

Module Server.
Import Sqlite.

Inductive level := DEBUG | INFO | ERROR.

(** The server process: the database files, the connection of its
    [DBClient], and what it has logged. *)
Record State := {
  disk : Disk;
  _connection : Connection;
  log : list (level * fstring)
}.

Definition on_connection {A} (m : M St A) : M State A :=
  fun s =>
    match m (disk s, _connection s) with
    | ((d, c), r) => ({| disk := d; _connection := c; log := log s |}, r)
    end.

Definition logger (lvl : level) (m : fstring) : M State unit :=
  modify (fun s => {| disk := disk s; _connection := _connection s;
                      log := log s ++ [(lvl, m)] |}).

Definition uri (database : string) : string :=
  "file:" +:+ database +:+ "?mode=rwc".

Definition temperatures_columns : list string :=
  ["device_id"; "sensor_id"; "time"; "temperature"]%string.

(** The engine's part in [DBClient.__init__]. *)
Record OpenFaults := {
  on_connect : option exn;
  on_create : Fault;
  on_first_commit : Fault
}.

Definition no_open_faults : OpenFaults :=
  {| on_connect := None; on_create := NoFault; on_first_commit := NoFault |}.

(** [DBClient.__init__(host, port, database)]: the new connection, or
    [DBError].  The source does not use [host] and [port]. *)
Definition __init__ (database : string) (f : OpenFaults) : M Disk Connection :=
  try_except
    (let! c := connect (uri database) (on_connect f) in
     fun d =>
       match (let! _ := execute (CreateTable true "temperatures" temperatures_columns) (on_create f) in
              commit (on_first_commit f)) (d, c) with
       | ((d', c'), Ok _) => (d', Ok c')
       | ((d', c'), Raise e) => (d', Raise e)
       end)
    [ ([SqliteError], fun e => raise (raise_msg DBError (msg e))) ].

(** [fields[key]] *)
Definition getitem (fields : gmap string Value) (key : string) : M State Value :=
  match fields !! key with
  | Some v => ret v
  | None => raise (raise_msg KeyError [FStr key])
  end.

(** The engine's part in one [DBClient.write]. *)
Record WriteFaults := {
  on_insert : Fault;
  on_commit : Fault
}.

Definition no_write_faults : WriteFaults :=
  {| on_insert := NoFault; on_commit := NoFault |}.

Definition write (fields : gmap string Value) (f : WriteFaults) : M State unit :=
  try_except
    (let! device_id := getitem fields "device_id" in
     let! sensor_id := getitem fields "sensor_id" in
     let! time := getitem fields "time" in
     let! temperature := getitem fields "temperature" in
     let! _ := on_connection
       (execute (InsertValues "temperatures" [device_id; sensor_id; time; temperature])
                (on_insert f)) in
     on_connection (commit (on_commit f)))
    [ ([SqliteError], fun e => raise (raise_msg DBError (msg e))) ].

Definition fmt_value (v : Value) : piece :=
  match v with
  | VStr s => FStr s
  | VFloat x => FFloat x
  | VInt z => FInt z
  | VNone => Lit "None"
  end.

(** The dictionary [{"device_id": ..., "sensor_id": ..., "time": ...,
    "temperature": ...}]. *)
Definition fields_of (device_id sensor_id read_time temperature : Value) : gmap string Value :=
  <["device_id" := device_id]>
    (<["sensor_id" := sensor_id]>
       (<["time" := read_time]>
          (<["temperature" := temperature]> ∅))).

Definition received_message (device_id sensor_id read_time temperature : Value) : fstring :=
  [Lit "Received temperature ("; fmt_value temperature; Lit ")";
   Lit " from sensor "; fmt_value sensor_id;
   Lit " on device "; fmt_value device_id;
   Lit " read at time "; fmt_value read_time].

(** [TemperatureRecorder.record_temperature] *)
Definition record_temperature (device_id sensor_id read_time temperature : Value)
    (f : WriteFaults) : M State Z :=
  let! _ := logger DEBUG (received_message device_id sensor_id read_time temperature) in
  try_except
    (let! _ := write (fields_of device_id sensor_id read_time temperature) f in
     ret 0)
    [ ([DBError],
       fun e => let! _ := logger ERROR ([Lit "Database write failed: "] ++ msg e) in
                ret 1) ].

(** What [except sqlite3.Error as e: raise DBError(str(e))] makes of an
    exception. *)
Definition wrap (e : exn) : exn :=
  if isinstance e SqliteError then raise_msg DBError (msg e) else e.

Definition with_connection (s : State) (c : Connection) : State :=
  {| disk := disk s; _connection := c; log := log s |}.

(** The connection after a successful INSERT of [row]. *)
Definition inserted (c : Connection) (row : list Value) : Connection :=
  {| database_file := database_file c;
     in_transaction := true;
     pending := pending c ++ [("temperatures"%string, row)] |}.

(** The state after a successful COMMIT on connection [c]. *)
Definition committed (s : State) (c : Connection) : State :=
  {| disk := <[database_file c :=
                 apply_pending (pending c) (content (disk s) (database_file c))]> (disk s);
     _connection := rollback c;
     log := log s |}.

Definition logged (s : State) (lvl : level) (m : fstring) : State :=
  {| disk := disk s; _connection := _connection s; log := log s ++ [(lvl, m)] |}.

(** A record as the four arguments of [record_temperature]. *)
Record Record_ := {
  r_device_id : Value;
  r_sensor_id : Value;
  r_time : Value;
  r_temperature : Value
}.

Definition row_of (r : Record_) : list Value :=
  [r_device_id r; r_sensor_id r; r_time r; r_temperature r].

(** Whether sqlite3 can bind the four values of a record, and the row
    that SQLite stores for it. *)
Definition bindable (r : Record_) : bool := forallb binds (row_of r).

Definition stored_row (r : Record_) : list Value := map stored (row_of r).

Definition record (r : Record_) (f : WriteFaults) : M State Z :=
  record_temperature (r_device_id r) (r_sensor_id r) (r_time r) (r_temperature r) f.

(** The server after [RemoteTemperatureServer(args)] with
    [args.database = database], when [DBClient(...)] does not fail. *)
Definition serving (database : string) (f : OpenFaults) (d : Disk) : option State :=
  match __init__ database f d with
  | (d', Ok c) =>
      Some {| disk := d'; _connection := c;
              log := [(INFO, [Lit "remote-temperature-server starting"])] |}
  | (_, Raise _) => None
  end.

(** A run of calls, each with its engine faults: the status codes
    returned and the state reached.  An exception leaving
    [record_temperature] becomes a fault response of the RPC server,
    here [None]. *)
Fixpoint serve (calls : list (Record_ * WriteFaults)) (s : State) : list (option Z) * State :=
  match calls with
  | [] => ([], s)
  | (r, f) :: rest =>
      match record r f s with
      | (s', Ok status) => let '(out, s'') := serve rest s' in (Some status :: out, s'')
      | (s', Raise _) => let '(out, s'') := serve rest s' in (None :: out, s'')
      end
  end.

(** No transaction is open, and [temperatures] is there with four
    columns and the rows [rws]. *)
Definition settled (s : State) (rws : list (list Value)) : Prop :=
  in_transaction (_connection s) = false /\
  pending (_connection s) = [] /\
  exists t,
    find_table (content (disk s) (database_file (_connection s))) "temperatures" = Some t /\
    length (columns t) = 4%nat /\
    rows t = rws.

(** For examples: the failure of a COMMIT that finds the file locked
    (SQLITE_BUSY), a record, and a server started on no files at all. *)
Definition database_is_locked : exn :=
  raise_msg OperationalError [Lit "database is locked"].

Definition commit_busy : WriteFaults :=
  {| on_insert := NoFault; on_commit := FailKeep database_is_locked |}.

Definition reading_of (temperature : Z) : Record_ :=
  {| r_device_id := VStr "dev1"; r_sensor_id := VStr "s1";
     r_time := VFloat (float_lit 1000 0); r_temperature := VInt temperature |}.

Definition new_server : State :=
  {| disk := fst (__init__ "/var/temperatures" no_open_faults ∅);
     _connection := {| database_file := uri "/var/temperatures";
                       in_transaction := false; pending := [] |};
     log := [(INFO, [Lit "remote-temperature-server starting"])] |}.

(** The rows of [temperatures] in the file of the server's connection. *)
Definition table_rows (s : State) : list (list Value) :=
  stored_rows (disk s) (database_file (_connection s)) "temperatures".

End Server.


(* ===================================================================== *)
(** * What the client's log shows                                         *)
(* ===================================================================== *)

Module Observe.

(** The messages logged at level ERROR in a trace. *)
Definition error_lines (t : list Client.Event) : list fstring :=
  omap (fun ev => match ev with
                  | Client.EvLog Client.ERROR m => Some m
                  | _ => None
                  end) t.

End Observe.

(* ===================================================================== *)
(** * More of the server's write path                                     *)
(* ===================================================================== *)

Module Fields.

(** The keys that [DBClient.write] reads, in the order it reads them. *)
Definition keys : list string := ["device_id"; "sensor_id"; "time"; "temperature"]%string.

(** The first of them that a dictionary lacks. *)
Definition first_missing (fields : gmap string Sqlite.Value) : option string :=
  find (fun k => bool_decide (fields !! k = None)) keys.

(** How many calls of a run answered 0. *)
Definition successes (out : list (option Z)) : nat :=
  length (List.filter (fun o => bool_decide (o = Some 0)) out).

(** Rows on their way into [temperatures]. *)
Definition for_temperatures (rws : list (list Sqlite.Value)) : list (string * list Sqlite.Value) :=
  map (fun row => ("temperatures"%string, row)) rws.

End Fields.

(* ===================================================================== *)
(** * test/w1thermsensor/__init__.py: the sensor of the test suite        *)
(* ===================================================================== *)

Module FakeW1.

(** A [FakeSensor]: its id, the temperatures read from the file at
    [FAKE_SENSOR_PATH] when it was made, and how many it has given. *)
Record FakeSensor := {
  id : string;
  _temps : list Z;
  _current : nat
}.

(** The one sensor of the module ([W1ThermSensor._sensor]) and whether
    the file it was made from is still there. *)
Record World := {
  _sensor : FakeSensor;
  temps_file : bool
}.

(** The world once the module is loaded, the file holding [temps]. *)
Definition loaded (temps : list Z) : World :=
  {| _sensor := {| id := "fakesensor"; _temps := temps; _current := 0 |};
     temps_file := true |}.

(** [FakeSensor.get_temperature] *)
Definition get_temperature : M World Z :=
  fun w =>
    let sensor := _sensor w in
    if bool_decide (_current sensor < length (_temps sensor))%nat
    then match _temps sensor !! _current sensor with
         | Some temp =>
             ({| _sensor := {| id := id sensor; _temps := _temps sensor;
                               _current := _current sensor + 1 |};
                 temps_file := temps_file w |}, Ok temp)
         | None =>   (* IndexError; the test above excludes it *)
             (w, Raise (raise_msg LookupError [Lit "list index out of range"]))
         end
    else
      (* self._temps_path.unlink(missing_ok=True) *)
      ({| _sensor := sensor; temps_file := false |},
       Raise (raise_msg W1ThermSensorError [Lit "Error reading temperature"])).

(** [W1ThermSensor.get_available_sensors]: always the same one sensor. *)
Definition get_available_sensors (w : World) : list FakeSensor := [_sensor w].

(** The world after [n] calls of [get_temperature], from [w]. *)
Fixpoint after_reads (n : nat) (w : World) : World :=
  match n with
  | O => w
  | S m => after_reads m (fst (get_temperature w))
  end.

End FakeW1.

(* ===================================================================== *)
(** * test/test_remote_temperature.py: client, fake sensor and server     *)
(* ===================================================================== *)

Module EndToEnd.

(** The ints that XML-RPC carries: for any other, the client's
    marshaller raises [OverflowError] before anything is sent. *)
Definition MAXINT : Z := 2 ^ 31 - 1.
Definition MININT : Z := - 2 ^ 31.

Definition xmlrpc_int (z : Z) : bool := (MININT <=? z) && (z <=? MAXINT).

(** A str on the wire, its characters being those below U+0100.  The
    marshaller escapes [&], [<] and [>] and writes every other
    character as it is.  The server's parser takes a tab, a line feed,
    a carriage return and the characters from the space on; any other
    makes the document not well-formed.  It hands on the text with
    every carriage return, alone or before a line feed, turned into a
    line feed. *)
Definition xml_char (c : ascii) : bool :=
  let n := nat_of_ascii c in
  (32 <=? n)%nat || (n =? 9)%nat || (n =? 10)%nat || (n =? 13)%nat.

Fixpoint well_formed (s : string) : bool :=
  match s with
  | EmptyString => true
  | String c rest => xml_char c && well_formed rest
  end.

Definition LF : ascii := ascii_of_nat 10.
Definition CR : ascii := ascii_of_nat 13.

Fixpoint parsed (s : string) : string :=
  match s with
  | EmptyString => EmptyString
  | String c rest =>
      if Ascii.eqb c CR
      then match rest with
           | String c' rest' =>
               if Ascii.eqb c' LF then String LF (parsed rest') else String LF (parsed rest)
           | EmptyString => String LF EmptyString
           end
      else String c (parsed rest)
  end.

(** The strs that arrive as they were sent. *)
Fixpoint plain (s : string) : bool :=
  match s with
  | EmptyString => true
  | String c rest => xml_char c && negb (Ascii.eqb c CR) && plain rest
  end.

(** The four arguments as the server's method gets them, the
    temperature arriving as [temperature]: XML-RPC carries a float as
    a float and an int as an int. *)
Definition marshal (temperature : Sqlite.Value) (r : Client.RpcRequest) : Server.Record_ :=
  {| Server.r_device_id := Sqlite.VStr (parsed (Client.req_device_id r));
     Server.r_sensor_id := Sqlite.VStr (parsed (Client.req_sensor_id r));
     Server.r_time := Sqlite.VFloat (Client.req_timestamp r);
     Server.r_temperature := temperature |}.

(** The temperatures of the fake sensor are Python ints.  The client
    compares them with its bounds and formats them by value, which for
    the ints of XML-RPC is the value of a float. *)
Definition float_of_int (z : Z) : spec_float := float_lit z 0.

(** The parser's complaint about a request that is not well-formed. *)
Definition not_well_formed : exn :=
  raise_msg Exception [Lit "not well-formed (invalid token)"].

Section System.
Variable temps : list Z.                         (* the temperatures in the file *)
Variable clock : nat -> spec_float.              (* [datetime.now()] in the [n]-th cycle *)
Variable args : Client.Args.                     (* the client's arguments *)
Variable s0 : Server.State.                      (* the server, started *)
Variable faults_at : nat -> Server.WriteFaults.  (* the engine during the [n]-th cycle *)
Variable os_sleep : nat -> result unit.          (* the platform's sleep in the [n]-th cycle *)
Variable fault_string : exn -> string.           (* class and text of an exception, as the
                                                    server's dispatcher formats them *)
Variable repr : string -> string.                (* [repr] of a str *)

(** The fake sensor as the [n]-th cycle finds it: it has been read once
    in each cycle before. *)
Definition sensor_at (n : nat) : Client.Sensor :=
  {| Client.id := FakeW1.id (FakeW1._sensor (FakeW1.after_reads n (FakeW1.loaded temps)));
     Client.get_temperature :=
       match snd (FakeW1.get_temperature (FakeW1.after_reads n (FakeW1.loaded temps))) with
       | Ok temp => Ok (float_of_int temp)
       | Raise e => Raise e
       end |}.

(** The fault with which the server's dispatcher answers when an
    exception leaves the parsing of the request or the method:
    [Fault(1, "%s:%s" % (type, value))]. *)
Definition fault_for (e : exn) : exn :=
  {| cls := Fault;
     msg := [Lit "<Fault "; FInt 1; Lit ": "; FStr (repr (fault_string e)); Lit ">"];
     code := 1;
     text := fault_string e |}.

(** The request of the [n]-th cycle on its way.  Its temperature is
    the int read in that cycle (a cycle in which the sensor has nothing
    left makes no request): the marshaller refuses an int that XML-RPC
    does not carry, and the server's parser a str that is not
    well-formed. *)
Definition wire (n : nat) (r : Client.RpcRequest) : result Server.Record_ :=
  match temps !! n with
  | Some temp =>
      if negb (xmlrpc_int temp)
      then Raise (raise_msg OverflowError [Lit "int exceeds XML-RPC limits"])
      else if negb (well_formed (Client.req_device_id r) && well_formed (Client.req_sensor_id r))
      then Raise (fault_for not_well_formed)
      else Ok (marshal (Sqlite.VInt temp) r)
  | None =>
      if negb (well_formed (Client.req_device_id r) && well_formed (Client.req_sensor_id r))
      then Raise (fault_for not_well_formed)
      else Ok (marshal (Sqlite.VFloat (Client.req_temperature r)) r)
  end.

(** The proxy during the [n]-th cycle, the server being in state [s]:
    the call runs [record_temperature] there; an exception leaving the
    method reaches the client as a fault with code 1. *)
Definition proxy_at (n : nat) (s : Server.State) : Client.Env :=
  {| Client.now := clock n;
     Client.record_temperature :=
       fun request =>
         match wire n request with
         | Raise e => Raise e
         | Ok received =>
             match snd (Server.record received (faults_at n) s) with
             | Ok status => Ok status
             | Raise e => Raise (fault_for e)
             end
         end |}.

(** The server when the [n]-th cycle begins: it has served the requests
    of the cycles before. *)
Fixpoint server_at (n : nat) : Server.State :=
  match n with
  | O => s0
  | S m =>
      match Client.transmitted (Client.__init__ args) (sensor_at m) (proxy_at m (server_at m)) with
      | request :: _ =>
          match wire m request with
          | Ok received => fst (Server.record received (faults_at m) (server_at m))
          | Raise _ => server_at m
          end
      | [] => server_at m
      end
  end.

(** What [get_available_sensors()] gives the client in the [n]-th cycle. *)
Definition sensors_at (n : nat) : list (Client.Sensor * Client.Env) :=
  [(sensor_at n, proxy_at n (server_at n))].

(** The request for the temperature [temp] read in the [i]-th cycle,
    and the row it becomes. *)
Definition request_of (i : nat) (temp : Z) : Client.RpcRequest :=
  {| Client.req_device_id := Client.device_id args;
     Client.req_sensor_id := "fakesensor";
     Client.req_timestamp := clock i;
     Client.req_temperature := float_of_int temp |}.

Definition row_for (i : nat) (temp : Z) : list Sqlite.Value :=
  [Sqlite.VStr (Client.device_id args); Sqlite.VStr "fakesensor";
   Sqlite.stored (Sqlite.VFloat (clock i)); Sqlite.VInt temp].

(** The client after [k] whole cycles: the loop test, the enumeration,
    the one sensor and the sleep, [k] times. *)
Definition client_after (k : nat) : Client.Config :=
  Client.exec sensors_at os_sleep (repeat Client.Step (4 * k)) (Client.start args).

End System.

(** The temperature column (the fourth), row by row in the order of
    insertion. *)
Definition select_temperature (rws : list (list Sqlite.Value)) : list (option Sqlite.Value) :=
  map (fun row => row !! 3%nat) rws.

End EndToEnd.

(* ===================================================================== *)
(** * The file of temperatures between the test and the fake sensor       *)
(* ===================================================================== *)


Module PyStr.

(** [s.split(sep)] for a separator of one character: the pieces between
    its occurrences, empty ones included; never an empty list. *)
Fixpoint split (sep : ascii) (s : string) : list string :=
  match s with
  | EmptyString => [EmptyString]
  | String c rest =>
      if Ascii.eqb c sep
      then EmptyString :: split sep rest
      else match split sep rest with
           | piece :: pieces => String c piece :: pieces
           | [] => [String c EmptyString]
           end
  end.

(** [sep.join(parts)] *)
Fixpoint join (sep : ascii) (parts : list string) : string :=
  match parts with
  | [] => EmptyString
  | [part] => part
  | part :: rest => part +:+ String sep (join sep rest)
  end.

(** [sep in s] *)
Fixpoint contains (sep : ascii) (s : string) : bool :=
  match s with
  | EmptyString => false
  | String c rest => Ascii.eqb c sep || contains sep rest
  end.

(** [str(z)] for an int: its decimal digits, after a minus sign when
    it is negative. *)
Definition str (z : Z) : string := DecimalString.NilZero.string_of_int (Z.to_int z).

(** CPython converts between int and str up to this many digits
    ([sys.int_info.default_max_str_digits]); [str] and [int] raise
    [ValueError] beyond it, so [str] above is [str(z)] for the ints
    within the limit. *)
Definition max_str_digits : Z := 4300.

Definition within_str_limit (z : Z) : bool := Z.abs z <? 10 ^ max_str_digits.

(** [list(map(f, xs))] for an [f] that may raise: the first exception
    ends it. *)
Fixpoint list_map {A B} (f : A -> result B) (xs : list A) : result (list B) :=
  match xs with
  | [] => Ok []
  | x :: rest =>
      match f x with
      | Raise e => Raise e
      | Ok y => match list_map f rest with
                | Raise e => Raise e
                | Ok ys => Ok (y :: ys)
                end
      end
  end.

(** A reader of the decimal numerals that [str] writes.  Python's [int]
    reads these alike (and more besides). *)
Definition int_of_decimal (s : string) : result Z :=
  match DecimalString.NilZero.int_of_string s with
  | Some d => Ok (Z.of_int d)
  | None => Raise (raise_msg ValueError [Lit "invalid literal for int() with base 10: "; FStr s])
  end.

End PyStr.

Module FakeFile.

(** test_remote_temperature.py: the text written to the file,
    [";".join(map(str, fake_temps))]. *)
Definition written (fake_temps : list Z) : string :=
  PyStr.join ";" (map PyStr.str fake_temps).

(** [FakeSensor.__init__]: [list(map(int, text.split(";")))], with
    Python's [int] as [int]. *)
Definition read_temps (int : string -> result Z) (text : string) : result (list Z) :=
  PyStr.list_map int (PyStr.split ";" text).

(** The module once loaded, [W1ThermSensor._sensor = FakeSensor()],
    the file holding [text]. *)
Definition load (int : string -> result Z) (text : string) : result FakeW1.World :=
  match read_temps int text with
  | Ok temps => Ok (FakeW1.loaded temps)
  | Raise e => Raise e
  end.

End FakeFile.

(* ===================================================================== *)
(** * The server's start-up                                               *)
(* ===================================================================== *)

Module Startup.
Import Sqlite.

(** What [RemoteTemperatureServer.__init__] reads of [args], the
    logger's options apart. *)
Record Args := {
  address : string;
  port : Z;
  database : string
}.

(** The server object under construction and the files around it:
    the attributes are [None] until they are assigned. *)
Record RemoteTemperatureServer := {
  files : Disk;
  log : list (Server.level * fstring);
  _database : option Connection;
  _rpc_server : option (string * Z);     (* the address the socket is bound to *)
  registered : bool                      (* register_instance(TemperatureRecorder(...)) done *)
}.

Definition Self := RemoteTemperatureServer.

(** The outside's part: the engine's in [DBClient(...)], and what
    [SimpleXMLRPCServer((address, port))] raises, if anything (the
    address in use, a name that does not resolve, ...). *)
Record Faults := {
  on_open : Server.OpenFaults;
  on_bind : option exn
}.

Definition before (d : Disk) : Self :=
  {| files := d; log := []; _database := None; _rpc_server := None; registered := false |}.

Definition logger (lvl : Server.level) (m : fstring) : M Self unit :=
  modify (fun s => {| files := files s; log := log s ++ [(lvl, m)];
                      _database := _database s; _rpc_server := _rpc_server s;
                      registered := registered s |}).

(** [DBClient(host="localhost", port=8086, database=...)] *)
Definition DBClient (database : string) (f : Server.OpenFaults) : M Self Connection :=
  fun s =>
    match Server.__init__ database f (files s) with
    | (d, r) => ({| files := d; log := log s; _database := _database s;
                    _rpc_server := _rpc_server s; registered := registered s |}, r)
    end.

Definition SimpleXMLRPCServer (addr : string * Z) (fault : option exn) : M Self (string * Z) :=
  match fault with
  | Some e => raise e
  | None => ret addr
  end.

Definition set_database (c : Connection) : M Self unit :=
  modify (fun s => {| files := files s; log := log s; _database := Some c;
                      _rpc_server := _rpc_server s; registered := registered s |}).

Definition set_rpc_server (srv : string * Z) : M Self unit :=
  modify (fun s => {| files := files s; log := log s; _database := _database s;
                      _rpc_server := Some srv; registered := registered s |}).

Definition register_instance : M Self unit :=
  modify (fun s => {| files := files s; log := log s; _database := _database s;
                      _rpc_server := _rpc_server s; registered := true |}).

(** [RemoteTemperatureServer.__init__], after [self._init_logger(args)]. *)
Definition __init__ (args : Args) (f : Faults) : M Self unit :=
  let! _ := logger Server.INFO [Lit "remote-temperature-server starting"] in
  try_except
    (let! c := DBClient (database args) (on_open f) in
     let! _ := set_database c in
     let! srv := SimpleXMLRPCServer (address args, port args) (on_bind f) in
     let! _ := set_rpc_server srv in
     register_instance)
    [ ([Exception],
       fun e => let! _ := logger Server.ERROR ([Lit "Failed to initialize server: "] ++ msg e) in
                raise e) ].

(** The error records of a log. *)
Definition errors (l : list (Server.level * fstring)) : list fstring :=
  omap (fun r => match r with (Server.ERROR, m) => Some m | _ => None end) l.

End Startup.

(* ===================================================================== *)
(** * test/test_remote_temperature.py: waiting for the daemons            *)
(* ===================================================================== *)

Module TestSupport.

(** What a helper has done so far: how often it has looked at the file
    system, and the sleeps it has taken. *)
Record Waited := {
  looks : nat;
  slept : list spec_float
}.

Definition nothing_yet : Waited := {| looks := 0; slept := [] |}.

(** The float [0.1]. *)
Definition tenth : spec_float := float_lit 3602879701896397 (-55).

(** [time.sleep(0.1)] *)
Definition sleep : M Waited unit :=
  modify (fun w => {| looks := looks w; slept := slept w ++ [tenth] |}).

(** One look at the file system: the answer of the outside to the
    [k]-th look is [outside k]. *)
Definition look {A} (outside : nat -> A) : M Waited A :=
  fun w => ({| looks := looks w + 1; slept := slept w |}, Ok (outside (looks w))).

Definition attempts : nat := 100.       (* range(0, 100) *)

Section Removal.
Variable path : string.
Variable path_exists : nat -> bool.     (* path.exists(), look by look *)

(** The [for] loop of [wait_for_file_removal], [n] attempts left. *)
Fixpoint removal_loop (n : nat) : M Waited unit :=
  match n with
  | O => ret tt
  | S m =>
      let! there := look path_exists in
      if negb there then ret tt                      (* break *)
      else let! _ := sleep in removal_loop m
  end.

Definition wait_for_file_removal : M Waited unit :=
  let! _ := removal_loop attempts in
  let! there := look path_exists in
  if there
  then raise (raise_msg RuntimeError
                [Lit "Timeout waiting for file "; FStr path; Lit " to be removed"])
  else ret tt.

End Removal.

(** What [pid_file_path.read_text()] does. *)
Inductive Read :=
  | NotFound                 (* raises FileNotFoundError *)
  | Text (s : string)
  | Failed (e : exn).        (* raises an exception that is no FileNotFoundError *)

Section Pid.
Variable int : string -> result Z.
Variable pid_file_path : string.
Variable read_text : nat -> Read.       (* read_text(), look by look *)

(** The [for] loop of [get_daemon_pid], [n] attempts left: [Some pid]
    for [return pid], [None] when the loop runs out. *)
Fixpoint pid_loop (n : nat) : M Waited (option Z) :=
  match n with
  | O => ret None
  | S m =>
      let! r := look read_text in
      match r with
      | Text s =>
          match int s with
          | Ok pid => ret (Some pid)
          | Raise e => raise e
          end
      | Failed e => raise e
      | NotFound => let! _ := sleep in pid_loop m
      end
  end.

Definition get_daemon_pid : M Waited Z :=
  let! r := pid_loop attempts in
  match r with
  | Some pid => ret pid
  | None => raise (raise_msg RuntimeError
                     [Lit "Timeout waiting for PID file "; FStr pid_file_path;
                      Lit " to be created"])
  end.

End Pid.

End TestSupport.


(* ===================================================================== *)
(** * Properties                                                          *)
(* ===================================================================== *)

(** ** Floats: the order of IEEE comparison *)

Section FloatOrder.

Local Ltac by_cases :=
  repeat match goal with
         | H : context [Z.compare ?a ?b] |- _ => destruct (Z.compare_spec a b)
         | |- context [Z.compare ?a ?b] => destruct (Z.compare_spec a b)
         | H : context [Pos.compare ?a ?b] |- _ => destruct (Pos.compare_spec a b)
         | |- context [Pos.compare ?a ?b] => destruct (Pos.compare_spec a b)
         end;
  simpl in *; try discriminate; try reflexivity; try lia.

Local Ltac unfold_cmp :=
  unfold flt, fgt, fge, fle, SFltb, SFleb, SFcompare in *;
  change (Pos.compare_cont Eq) with Pos.compare in *.

Lemma flt_nan_l y : flt S754_nan y = false.
Proof. reflexivity. Qed.

Lemma flt_nan_r x : flt x S754_nan = false.
Proof. destruct x; reflexivity. Qed.

Lemma fge_nan_r x : fge x S754_nan = false.
Proof. reflexivity. Qed.

(** Without NaN the order is total: [x < y] is the negation of [x >= y]. *)
Lemma flt_negb_fge x y :
  is_nan x = false -> is_nan y = false -> flt x y = negb (fge x y).
Proof.
  intros Hx Hy.
  destruct x as [[]|[]| |[] mx ex], y as [[]|[]| |[] my ey];
    try discriminate; try reflexivity; unfold_cmp; by_cases.
Qed.

Lemma fgt_negb_fle x y :
  is_nan x = false -> is_nan y = false -> fgt x y = negb (fle x y).
Proof.
  intros Hx Hy. unfold fgt, fle.
  change (SFltb y x) with (flt y x). change (SFleb x y) with (fge y x).
  apply flt_negb_fge; assumption.
Qed.

(** [h < l], [t] a number and not [t < l]: then [h < t]. *)
Lemma flt_le_trans h l t :
  is_nan t = false -> flt h l = true -> flt t l = false -> flt h t = true.
Proof.
  intros Ht Hhl Htl.
  destruct t as [[]|[]| |[] mt et], l as [[]|[]| |[] ml el], h as [[]|[]| |[] mh eh];
    try discriminate; try reflexivity; unfold_cmp; by_cases.
Qed.

End FloatOrder.

(** ** f-strings: a formatted value shows in the text *)

Lemma append_assoc (a b c : string) : (a +:+ b) +:+ c = a +:+ (b +:+ c).
Proof.
  induction a as [|ch a IH]; [reflexivity|].
  change (String ch ((a +:+ b) +:+ c) = String ch (a +:+ (b +:+ c))).
  now rewrite IH.
Qed.

Lemma In_mentions (p : piece) (m : fstring) : In p m -> mentions p m.
Proof.
  intros Hin sf si. induction m as [|q m IH]; [destruct Hin|].
  destruct Hin as [->|Hin].
  - exists EmptyString, (render sf si m). reflexivity.
  - destruct (IH Hin) as (pre & post & E).
    exists (render_piece sf si q +:+ pre), post.
    cbn [render]. rewrite E. symmetry. apply append_assoc.
Qed.

(** ** The sanity check *)

Section SanityCheck.
Import Client.

Variable self : Self.
Variable sensor_id : string.
Variable temperature : spec_float.

Let low := _sanity_check_low self.
Let high := _sanity_check_high self.

(** The check does what its two tests say, and leaves [self] alone. *)
Lemma check_temperature_sanity_eq :
  _check_temperature_sanity sensor_id temperature self =
  (self,
   if is_not_None_and low (fun l => flt temperature l)
   then Raise (raise_msg SanityCheckError (below_low_message sensor_id temperature low))
   else if is_not_None_and high (fun h => fgt temperature h)
   then Raise (raise_msg SanityCheckError (above_high_message sensor_id temperature high))
   else Ok tt).
Proof.
  unfold _check_temperature_sanity, bind, gets, raise, ret, low, high.
  destruct (is_not_None_and (_sanity_check_low self) _); [reflexivity|].
  destruct (is_not_None_and (_sanity_check_high self) _); reflexivity.
Qed.

Lemma check_passes_iff :
  snd (_check_temperature_sanity sensor_id temperature self) = Ok tt <->
  not_outside low high temperature = true.
Proof.
  rewrite check_temperature_sanity_eq. unfold not_outside. simpl.
  destruct (is_not_None_and low _); simpl; [split; discriminate|].
  destruct (is_not_None_and high _); simpl; split; (discriminate || reflexivity).
Qed.

(** On numbers the two wordings of the condition agree. *)
Lemma not_outside_within_bounds :
  is_nan temperature = false -> is_nan_bound low = false -> is_nan_bound high = false ->
  not_outside low high temperature = within_bounds low high temperature.
Proof.
  intros Ht Hl Hh. unfold not_outside, within_bounds.
  destruct low as [l|], high as [h|]; simpl in *;
    rewrite ?flt_negb_fge, ?fgt_negb_fle, ?negb_involutive by assumption;
    reflexivity.
Qed.

End SanityCheck.

(** C1, as the code has it.  [_check_temperature_sanity] never changes
    [self]; it succeeds exactly when neither of its two tests fires,
    which for a temperature and bounds that are numbers (not NaN) is the
    condition (low absent or t >= low) and (high absent or t <= high);
    and when it fails it raises a [SanityCheckError] whose text shows
    the sensor id, the measured value and the bound that was violated. *)
Theorem check_temperature_sanity_spec
    (self : Client.Self) (sensor_id : string) (t : spec_float) :
  let low := Client._sanity_check_low self in
  let high := Client._sanity_check_high self in
  let r := Client._check_temperature_sanity sensor_id t self in
  fst r = self /\
  (snd r = Ok tt <-> Client.not_outside low high t = true) /\
  (is_nan t = false -> Client.is_nan_bound low = false -> Client.is_nan_bound high = false ->
   (snd r = Ok tt <-> Client.within_bounds low high t = true)) /\
  (snd r <> Ok tt ->
   exists e, snd r = Raise e /\ cls e = SanityCheckError /\
     mentions (FStr sensor_id) (msg e) /\ mentions (FFloat t) (msg e) /\
     ((exists l, low = Some l /\ flt t l = true /\ mentions (FFloat l) (msg e)) \/
      (exists h, high = Some h /\ fgt t h = true /\ mentions (FFloat h) (msg e)))).
Proof.
  intros low high r. subst r.
  split; [now rewrite check_temperature_sanity_eq|].
  split; [apply check_passes_iff|].
  split.
  - intros Ht Hl Hh. rewrite check_passes_iff.
    subst low high. now rewrite (not_outside_within_bounds self t Ht Hl Hh).
  - rewrite check_temperature_sanity_eq. fold low high. simpl.
    destruct low as [l|] eqn:El; simpl.
    + destruct (flt t l) eqn:Elt.
      * intros _. eexists. split; [reflexivity|]. simpl.
        repeat split; try (apply In_mentions; simpl; tauto).
        left. exists l. repeat split; try assumption.
        apply In_mentions; simpl; tauto.
      * destruct high as [h|] eqn:Eh; simpl; [|congruence].
        destruct (fgt t h) eqn:Egt; [|congruence].
        intros _. eexists. split; [reflexivity|]. simpl.
        repeat split; try (apply In_mentions; simpl; tauto).
        right. exists h. repeat split; try assumption.
        apply In_mentions; simpl; tauto.
    + destruct high as [h|] eqn:Eh; simpl; [|congruence].
      destruct (fgt t h) eqn:Egt; [|congruence].
      intros _. eexists. split; [reflexivity|]. simpl.
      repeat split; try (apply In_mentions; simpl; tauto).
      right. exists h. repeat split; try assumption.
      apply In_mentions; simpl; tauto.
Qed.

(** With the default bounds, 20.0 passes the check and is within them. *)
Lemma check_temperature_sanity_spec_witness :
  snd (Client._check_temperature_sanity "28-01" (float_lit 20 0)
         (Client.__init__ Client.default_args)) = Ok tt <->
  Client.within_bounds (Some (float_lit (-15) 0)) (Some (float_lit 100 0)) (float_lit 20 0) = true.
Proof.
  apply (check_temperature_sanity_spec (Client.__init__ Client.default_args) "28-01" (float_lit 20 0));
    reflexivity.
Defined.

(** C1 as worded fails on NaN: with [--sanity-check-low nan] the test
    [20.0 < nan] is false, the check passes, and [20.0 >= nan] is false
    too. *)
Lemma check_temperature_sanity_nan_bound :
  snd (Client._check_temperature_sanity "28-01" (float_lit 20 0)
         (Client.__init__ (Client.with_bounds (Some S754_nan) None))) = Ok tt /\
  Client.within_bounds (Some S754_nan) None (float_lit 20 0) = false.
Proof. split; reflexivity. Qed.

(** C10, as the code has it.  [__init__] stores the two bounds as given,
    whatever their order.  With both bounds present and low > high,
    the check rejects every temperature that is a number (not NaN), and
    for a temperature below the low bound the error is the one of the
    low bound, which is tested first. *)
Theorem inverted_bounds_reject
    (self : Client.Self) (sensor_id : string) (t l h : spec_float) :
  Client._sanity_check_low self = Some l ->
  Client._sanity_check_high self = Some h ->
  fgt l h = true ->
  (forall args,
     Client._sanity_check_low (Client.__init__ args) = Client.sanity_check_low args /\
     Client._sanity_check_high (Client.__init__ args) = Client.sanity_check_high args) /\
  (is_nan t = false ->
   exists e, snd (Client._check_temperature_sanity sensor_id t self) = Raise e /\
             cls e = SanityCheckError) /\
  (flt t l = true ->
   snd (Client._check_temperature_sanity sensor_id t self) =
   Raise (raise_msg SanityCheckError (Client.below_low_message sensor_id t (Some l)))).
Proof.
  intros Hl Hh Hlh.
  split; [intros args; split; reflexivity|].
  rewrite check_temperature_sanity_eq, Hl, Hh. simpl.
  split.
  - intros Ht. destruct (flt t l) eqn:Elt; [eexists; split; reflexivity|].
    assert (Hgt : fgt t h = true) by (apply (flt_le_trans h l t); assumption).
    rewrite Hgt. eexists; split; reflexivity.
  - intros ->. reflexivity.
Qed.

(** Bounds 10.0 and 0.0: the reading 5.0 is rejected, as is -1.0, the
    latter for the low bound. *)
Lemma inverted_bounds_reject_witness :
  (exists e, snd (Client._check_temperature_sanity "28-01" (float_lit 5 0)
                    (Client.__init__ (Client.with_bounds (Some (float_lit 10 0))
                                                         (Some (float_lit 0 0))))) = Raise e /\
             cls e = SanityCheckError).
Proof.
  apply (inverted_bounds_reject
           (Client.__init__ (Client.with_bounds (Some (float_lit 10 0)) (Some (float_lit 0 0))))
           "28-01" (float_lit 5 0) (float_lit 10 0) (float_lit 0 0));
    reflexivity.
Defined.

(** C10 as worded fails on NaN: with bounds 10.0 and 0.0 a NaN reading
    passes the check, since both [nan < 10.0] and [nan > 0.0] are false. *)
Lemma inverted_bounds_accept_nan :
  fgt (float_lit 10 0) (float_lit 0 0) = true /\
  snd (Client._check_temperature_sanity "28-01" S754_nan
         (Client.__init__ (Client.with_bounds (Some (float_lit 10 0))
                                              (Some (float_lit 0 0))))) = Ok tt.
Proof. split; reflexivity. Qed.

(** ** Processing one sensor *)

Section ReadAndRecord.
Import Client.

Lemma after_after self a b : after (after self a) b = after self (a ++ b).
Proof. unfold after; simpl. now rewrite app_assoc. Qed.

Lemma after_nil self : after self [] = self.
Proof. destruct self; unfold after; simpl. now rewrite app_nil_r. Qed.

Lemma emit_after ev self : emit ev self = (after self [ev], Ok tt).
Proof. reflexivity. Qed.

(** [time.sleep(self._period)]: the call, and what comes of it. *)
Lemma sleep_eq platform self :
  sleep platform self = (after self [EvSleep (_period self)], time_sleep platform (_period self)).
Proof. reflexivity. Qed.

Lemma time_sleep_length platform secs :
  sleep_length secs = true -> time_sleep platform secs = platform.
Proof.
  unfold sleep_length, time_sleep. intros H.
  apply andb_prop in H as [H H3]. apply andb_prop in H as [H1 H2].
  apply negb_true_iff in H1, H2, H3. now rewrite H1, H2, H3.
Qed.

Lemma time_sleep_refused platform secs :
  sleep_length secs = false -> exists e, time_sleep platform secs = Raise e.
Proof.
  unfold sleep_length, time_sleep. intros H.
  destruct (is_nan secs); [eexists; reflexivity|].
  destruct (beyond_64_bits secs); [eexists; reflexivity|].
  destruct (negative_count secs); [eexists; reflexivity | discriminate].
Qed.

Lemma try_except_clauses sensor (body : M Self unit) s :
  try_except body (except_clauses sensor) s =
  match body s with
  | (s', Ok a) => (s', Ok a)
  | (s', Raise e) => handle sensor e s'
  end.
Proof. reflexivity. Qed.

(** A caught exception is logged and that is all; any other goes on. *)
Lemma handle_eq sensor e s :
  exists m, handle sensor e s =
            if caught e then (after s [EvLog ERROR m], Ok tt) else (s, Raise e).
Proof.
  unfold handle, caught, except_clauses, matches.
  cbn [find existsb fst snd].
  destruct (isinstance e W1ThermSensorError), (isinstance e SanityCheckError),
    (isinstance e Fault), (isinstance e ProtocolError), (isinstance e ConnectionError);
    cbn [orb find snd fst]; unfold logger; rewrite ?emit_after;
    first [eexists; reflexivity | exists []; reflexivity].
Qed.

Variable sensor : Sensor.
Variable env : Env.
Variable self : Self.

(** The [try] block, case by case. *)
Lemma read_and_record_body_eq :
  exists m evs,
    (evs = [] \/ exists m', evs = [EvLog ERROR m']) /\
    read_and_record_body sensor env self =
    match get_temperature sensor with
    | Raise e => (after self [EvRead (id sensor)], Raise e)
    | Ok t =>
        if is_not_None_and (_sanity_check_low self) (fun l => flt t l)
        then (after self [EvRead (id sensor)],
              Raise (raise_msg SanityCheckError
                       (below_low_message (id sensor) t (_sanity_check_low self))))
        else if is_not_None_and (_sanity_check_high self) (fun h => fgt t h)
        then (after self [EvRead (id sensor)],
              Raise (raise_msg SanityCheckError
                       (above_high_message (id sensor) t (_sanity_check_high self))))
        else
          let sent := [EvRead (id sensor); EvLog DEBUG m;
                       EvRpc (request_for self sensor env t)] in
          match record_temperature env (request_for self sensor env t) with
          | Raise e => (after self sent, Raise e)
          | Ok _ => (after self (sent ++ evs), Ok tt)
          end
    end.
Proof.
  unfold read_and_record_body. unfold bind at 1 2. rewrite emit_after. unfold lift at 1.
  destruct (get_temperature sensor) as [t|e]; [|exists [], []; split; [left|]; reflexivity].
  unfold bind at 1. rewrite check_temperature_sanity_eq.
  cbn [_sanity_check_low _sanity_check_high after].
  destruct (is_not_None_and (_sanity_check_low self) _);
    [exists [], []; split; [left|]; reflexivity|].
  destruct (is_not_None_and (_sanity_check_high self) _);
    [exists [], []; split; [left|]; reflexivity|].
  unfold bind, gets, logger, lift. rewrite !emit_after, !after_after.
  cbn [app _device_id after]. fold (request_for self sensor env t).
  destruct (record_temperature env (request_for self sensor env t)) as [z|e].
  - destruct (negb (z =? 0)).
    + rewrite emit_after, after_after. eexists. eexists.
      split; [right; eexists|]; reflexivity.
    + eexists. exists []. split; [left|]; reflexivity.
  - eexists. exists []. split; [left|]; reflexivity.
Qed.

(** Processing one sensor: the events it adds, among them one sensor
    read, no sleep and the requests of [transmitted]; and how it ends. *)
Lemma read_and_record_run :
  exists evs,
    _read_and_record_temperature sensor env self = (after self evs, outcome self sensor env) /\
    rpc_calls evs = transmitted self sensor env /\
    reads evs = [id sensor] /\
    sleeps evs = [].
Proof.
  unfold _read_and_record_temperature. rewrite try_except_clauses.
  destruct read_and_record_body_eq as (m & evs & Hevs & ->).
  unfold outcome, transmitted, not_outside.
  destruct (get_temperature sensor) as [t|e].
  - destruct (is_not_None_and (_sanity_check_low self) _); cbn [negb andb].
    { match goal with |- context [handle sensor ?e ?s] =>
        destruct (handle_eq sensor e s) as (m' & ->) end.
      cbn iota. rewrite after_after. eexists. repeat split. }
    destruct (is_not_None_and (_sanity_check_high self) _); cbn [negb andb].
    { match goal with |- context [handle sensor ?e ?s] =>
        destruct (handle_eq sensor e s) as (m' & ->) end.
      cbn iota. rewrite after_after. eexists. repeat split. }
    destruct (record_temperature env (request_for self sensor env t)) as [z|e].
    + eexists. split; [reflexivity|].
      destruct Hevs as [->|(m' & ->)]; repeat split.
    + match goal with |- context [handle sensor e ?s] =>
        destruct (handle_eq sensor e s) as (m' & ->) end.
      destruct (caught e).
      * rewrite after_after. eexists. repeat split.
      * eexists. repeat split.
  - destruct (handle_eq sensor e (after self [EvRead (id sensor)])) as (m' & ->).
    destruct (caught e).
    + rewrite after_after. eexists. repeat split.
    + eexists. repeat split.
Qed.

End ReadAndRecord.

(** ** The loop over the sensors of one cycle *)

Section Cycle.
Import Client.

Lemma outcome_after self evs sensor env :
  outcome (after self evs) sensor env = outcome self sensor env.
Proof. reflexivity. Qed.

Lemma transmitted_after self evs sensor env :
  transmitted (after self evs) sensor env = transmitted self sensor env.
Proof. reflexivity. Qed.

Lemma rpc_calls_app a b : rpc_calls (a ++ b) = rpc_calls a ++ rpc_calls b.
Proof. apply omap_app. Qed.

Lemma reads_app a b : reads (a ++ b) = reads a ++ reads b.
Proof. apply omap_app. Qed.

Lemma sleeps_app a b : sleeps (a ++ b) = sleeps a ++ sleeps b.
Proof. apply omap_app. Qed.

(** While no exception leaves the processing of a sensor, the loop goes
    through them all: every one is read, and the requests sent are those
    of [transmitted], in order. *)
Lemma for_sensors_well (l : list (Sensor * Env)) :
  forall self,
    forallb (ends_well self) l = true ->
    exists evs,
      for_sensors l self = (after self evs, Ok tt) /\
      rpc_calls evs = flat_map (fun se => transmitted self (fst se) (snd se)) l /\
      reads evs = map (fun se => id (fst se)) l /\
      sleeps evs = [].
Proof.
  induction l as [|[sensor env] l IH]; intros self Hl.
  - exists []. rewrite after_nil. repeat split.
  - cbn [forallb] in Hl. apply andb_prop in Hl as [Hhd Hl].
    unfold ends_well in Hhd. cbn [fst snd] in Hhd.
    destruct (read_and_record_run sensor env self) as (evs1 & Hrun & Hrpc & Hreads & Hsleeps).
    destruct (outcome self sensor env) eqn:Eout; [|discriminate].
    destruct (IH (after self evs1) Hl) as (evs2 & Hrun2 & Hrpc2 & Hreads2 & Hsleeps2).
    exists (evs1 ++ evs2).
    cbn [for_sensors]. unfold bind. rewrite Hrun, Hrun2, after_after.
    rewrite rpc_calls_app, reads_app, sleeps_app, Hrpc, Hrpc2, Hreads, Hreads2, Hsleeps, Hsleeps2.
    repeat split.
Qed.

(** Whatever happens, the loop adds events only: no sleep, at most one
    request per sensor, each one among those of [transmitted]. *)
Lemma for_sensors_any (l : list (Sensor * Env)) :
  forall self,
    exists evs,
      fst (for_sensors l self) = after self evs /\
      sleeps evs = [] /\
      (length (rpc_calls evs) <= length l)%nat /\
      (forall r, In r (rpc_calls evs) ->
                 exists se, In se l /\ In r (transmitted self (fst se) (snd se))).
Proof.
  induction l as [|[sensor env] l IH]; intros self.
  - exists []. rewrite after_nil. repeat split; [simpl; lia | intros r []].
  - destruct (read_and_record_run sensor env self) as (evs1 & Hrun & Hrpc & _ & Hsleeps).
    assert (Hlen1 : (length (rpc_calls evs1) <= 1)%nat).
    { rewrite Hrpc. unfold transmitted.
      destruct (get_temperature sensor); [destruct (not_outside _ _ _)|]; simpl; lia. }
    cbn [for_sensors]. unfold bind. rewrite Hrun.
    destruct (outcome self sensor env).
    + destruct (IH (after self evs1)) as (evs2 & Hrun2 & Hsleeps2 & Hlen2 & Hin2).
      exists (evs1 ++ evs2). rewrite Hrun2, after_after.
      rewrite sleeps_app, rpc_calls_app, Hsleeps, Hsleeps2, length_app.
      repeat split; [simpl; lia|].
      intros r Hr. apply in_app_or in Hr as [Hr|Hr].
      * exists (sensor, env). split; [left; reflexivity | cbn [fst snd]; now rewrite <- Hrpc].
      * destruct (Hin2 r Hr) as (se & Hse & Hr'). exists se. split; [now right | exact Hr'].
    + exists evs1. repeat split; [assumption | simpl; lia |].
      intros r Hr. exists (sensor, env). split; [left; reflexivity | cbn [fst snd]; now rewrite <- Hrpc].
Qed.

Lemma for_sensors_app (l1 l2 : list (Sensor * Env)) self :
  for_sensors (l1 ++ l2) self =
  match for_sensors l1 self with
  | (self', Ok _) => for_sensors l2 self'
  | (self', Raise e) => (self', Raise e)
  end.
Proof.
  revert self. induction l1 as [|[sensor env] l1 IH]; intros self; [reflexivity|].
  cbn [app for_sensors]. unfold bind.
  destruct (_read_and_record_temperature sensor env self) as [self' [[]|e]];
    [apply IH | reflexivity].
Qed.

End Cycle.

(** ** [run_forever]: the steps of one cycle *)

Section Machine.
Import Client.

Variable sensors_at : nat -> list (Sensor * Env).
Variable os_sleep : nat -> result unit.

Lemma exec_cons a schedule c :
  exec sensors_at os_sleep (a :: schedule) c = exec sensors_at os_sleep schedule (act sensors_at os_sleep a c).
Proof. reflexivity. Qed.

Lemma exec_app s1 s2 c :
  exec sensors_at os_sleep (s1 ++ s2) c = exec sensors_at os_sleep s2 (exec sensors_at os_sleep s1 c).
Proof. unfold exec. apply fold_left_app. Qed.

Lemma steps_terminated n c :
  terminated c = true -> exec sensors_at os_sleep (repeat Step n) c = c.
Proof.
  intros Hc. induction n as [|n IH]; [reflexivity|].
  cbn [repeat]. rewrite exec_cons. cbn [act].
  replace (step sensors_at os_sleep c) with c; [exact IH|].
  unfold step. unfold terminated in Hc. destruct (pc c) as [| |[|[]]| |]; try discriminate; reflexivity.
Qed.

(** The steps of the [for] loop do what [for_sensors] does. *)
Lemma steps_for_sensors (l : list (Sensor * Env)) :
  forall c, pc c = InFor l ->
            exec sensors_at os_sleep (repeat Step (length l)) c =
            following c (InFor []) (for_sensors l (self c)).
Proof.
  induction l as [|[sensor env] l IH]; intros c Hpc.
  - destruct c as [p s n]. cbn in *. now subst p.
  - cbn [length repeat]. rewrite exec_cons. cbn [act]. unfold step at 1. rewrite Hpc.
    cbn [for_sensors]. unfold bind.
    destruct (_read_and_record_temperature sensor env (self c)) as [self' [[]|e]];
      cbn [following].
    + rewrite IH by reflexivity. cbn [self cycle].
      destruct (for_sensors l self') as [self'' [[]|e]]; reflexivity.
    + now rewrite steps_terminated.
Qed.

End Machine.

(** C9.  In a cycle of [run_forever] whose sensors include A and B, in
    either order, where reading A raises [W1ThermSensorError] and B
    reads a temperature that passes the sanity check: B is read in that
    cycle and its reading is sent.  The other sensors ahead of B are
    any that do not let an exception out of their processing. *)
Theorem sensor_failure_is_isolated
    (sensors_at : nat -> list (Client.Sensor * Client.Env))
    (os_sleep : nat -> result unit) (c : Client.Config)
    (pre mid post : list (Client.Sensor * Client.Env))
    (A B : Client.Sensor) (envA envB : Client.Env) (e : exn) (t : spec_float) :
  Client.pc c = Client.AtWhile ->
  Client._quit (Client.self c) = false ->
  sensors_at (Client.cycle c) = pre ++ (A, envA) :: mid ++ (B, envB) :: post \/
  sensors_at (Client.cycle c) = pre ++ (B, envB) :: mid ++ (A, envA) :: post ->
  Client.get_temperature A = Raise e ->
  isinstance e W1ThermSensorError = true ->
  Client.get_temperature B = Ok t ->
  Client.not_outside (Client._sanity_check_low (Client.self c))
                     (Client._sanity_check_high (Client.self c)) t = true ->
  forallb (Client.ends_well (Client.self c)) pre = true ->
  forallb (Client.ends_well (Client.self c)) mid = true ->
  let steps := repeat Client.Step (S (S (length (sensors_at (Client.cycle c))))) in
  exists evs,
    Client.self (Client.exec sensors_at os_sleep steps c) = Client.after (Client.self c) evs /\
    In (Client.id B) (Client.reads evs) /\
    In (Client.request_for (Client.self c) B envB t) (Client.rpc_calls evs).
Proof.
  intros Hpc Hquit Hl HA He HB Ht Hpre Hmid steps. subst steps.
  assert (HAwell : Client.ends_well (Client.self c) (A, envA) = true).
  { unfold Client.ends_well, Client.outcome. cbn [fst snd]. rewrite HA.
    replace (Client.caught e) with true; [reflexivity|].
    unfold Client.caught. cbn [existsb]. now rewrite He. }
  assert (Hgo : exists prefix rest,
             sensors_at (Client.cycle c) = prefix ++ (B, envB) :: rest /\
             forallb (Client.ends_well (Client.self c)) prefix = true).
  { destruct Hl as [Hl|Hl].
    - exists (pre ++ (A, envA) :: mid), post. split.
      + rewrite Hl, <- app_assoc. reflexivity.
      + rewrite forallb_app. cbn [forallb]. now rewrite Hpre, HAwell, Hmid.
    - exists pre, (mid ++ (A, envA) :: post). split; assumption. }
  destruct Hgo as (prefix & rest & Hsplit & Hprefix).
  cbn [repeat]. rewrite !exec_cons. cbn [Client.act]. unfold Client.step at 2.
  rewrite Hpc, Hquit. cbn [negb]. unfold Client.step at 1. cbn [Client.pc].
  rewrite steps_for_sensors by reflexivity. cbn [Client.self Client.cycle].
  rewrite Hsplit, for_sensors_app. rewrite emit_after.  cbn [fst].
  destruct (for_sensors_well prefix (Client.after (Client.self c) [Client.EvEnumerate]) Hprefix)
    as (evs0 & -> & _).
  rewrite after_after.
  cbn [Client.for_sensors]. unfold bind.
  destruct (read_and_record_run B envB (Client.after (Client.self c) ([Client.EvEnumerate] ++ evs0)))
    as (evsB & -> & HrpcB & HreadsB & _).
  rewrite after_after.
  assert (HinB : In (Client.request_for (Client.self c) B envB t) (Client.rpc_calls evsB)).
  { rewrite HrpcB. unfold Client.transmitted. rewrite HB. cbn [Client.after Client._sanity_check_low Client._sanity_check_high].
    rewrite Ht. left. reflexivity. }
  assert (Hfinal : forall evs2,
             In (Client.id B) (Client.reads ((([Client.EvEnumerate] ++ evs0) ++ evsB) ++ evs2)) /\
             In (Client.request_for (Client.self c) B envB t)
                (Client.rpc_calls ((([Client.EvEnumerate] ++ evs0) ++ evsB) ++ evs2))).
  { intros evs2. rewrite !reads_app, !rpc_calls_app, HreadsB.
    split; apply in_or_app; left; apply in_or_app; right; [simpl; auto | exact HinB]. }
  destruct (Client.outcome _ B envB) as [[]|e'].
  - destruct (for_sensors_any rest (Client.after (Client.self c) (([Client.EvEnumerate] ++ evs0) ++ evsB)))
      as (evs2 & Hrun2 & _).
    destruct (Client.for_sensors rest _) as [self2 [[]|e2]]; cbn [fst] in Hrun2; subst self2;
      cbn [Client.following Client.self]; rewrite after_after; eexists;
      (split; [reflexivity | apply Hfinal]).
  - cbn [Client.following Client.self]. exists ((([Client.EvEnumerate] ++ evs0) ++ evsB) ++ []).
    split; [now rewrite app_nil_r | apply Hfinal].
Qed.

Lemma sensor_failure_is_isolated_witness :
  exists evs,
    Client.self (Client.exec
                   (fun _ => [(Client.broken "A", Client.answering 0);
                              (Client.reading "B" (float_lit 22 0), Client.answering 0)])
                   (fun _ => Ok tt)
                   (repeat Client.Step 4) (Client.start Client.default_args)) =
    Client.after (Client.self (Client.start Client.default_args)) evs /\
    In "B" (Client.reads evs) /\
    In (Client.request_for (Client.self (Client.start Client.default_args))
          (Client.reading "B" (float_lit 22 0)) (Client.answering 0) (float_lit 22 0))
       (Client.rpc_calls evs).
Proof.
  apply (sensor_failure_is_isolated
           (fun _ => [(Client.broken "A", Client.answering 0);
                      (Client.reading "B" (float_lit 22 0), Client.answering 0)])
           (fun _ => Ok tt)
           (Client.start Client.default_args) [] [] []
           (Client.broken "A") (Client.reading "B" (float_lit 22 0))
           (Client.answering 0) (Client.answering 0)
           (raise_msg W1ThermSensorError [Lit "Error reading temperature"]) (float_lit 22 0));
    try reflexivity.
  left; reflexivity.
Defined.

(** ** What [run_forever] sends *)

Section Transmission.
Import Client.

Variable sensors_at : nat -> list (Sensor * Env).
Variable os_sleep : nat -> result unit.

Lemma transmitted_sane self sensor env r :
  In r (transmitted self sensor env) -> sane self r.
Proof.
  unfold transmitted, sane.
  destruct (get_temperature sensor) as [t|e]; [|intros []].
  destruct (not_outside _ _ t) eqn:E; [|intros []].
  intros [<-|[]]. exact E.
Qed.

(** A step of the loop adds events, and sends sane readings only. *)
Lemma step_sane c :
  exists evs,
    self (step sensors_at os_sleep c) = after (self c) evs /\
    forall r, In r (rpc_calls evs) -> sane (self c) r.
Proof.
  unfold step. destruct (pc c) as [| |[|[sensor env] rest]| |].
  - destruct (negb (_quit (self c))).
    + exists []. rewrite after_nil. split; [reflexivity | intros r []].
    + exists [EvLog INFO [Lit "quitting"]]. split; [reflexivity | intros r []].
  - exists [EvEnumerate]. split; [reflexivity | intros r []].
  - exists [EvSleep (_period (self c))]. rewrite sleep_eq. split; [|intros r []].
    destruct (time_sleep _ _); reflexivity.
  - destruct (read_and_record_run sensor env (self c)) as (evs & Hrun & Hrpc & _).
    exists evs. rewrite Hrun. split.
    + destruct (outcome (self c) sensor env); reflexivity.
    + intros r Hr. rewrite Hrpc in Hr. eapply transmitted_sane; eassumption.
  - exists []. rewrite after_nil. split; [reflexivity | intros r []].
  - exists []. rewrite after_nil. split; [reflexivity | intros r []].
Qed.

(** Under any schedule the bounds stay what they are and every request
    sent carries a sane reading. *)
Lemma exec_sane schedule :
  forall c,
    let c' := exec sensors_at os_sleep schedule c in
    _sanity_check_low (self c') = _sanity_check_low (self c) /\
    _sanity_check_high (self c') = _sanity_check_high (self c) /\
    exists evs,
      trace (self c') = trace (self c) ++ evs /\
      forall r, In r (rpc_calls evs) -> sane (self c) r.
Proof.
  induction schedule as [|a schedule IH]; intros c; cbn zeta.
  - repeat split. exists []. split; [now rewrite app_nil_r | intros r []].
  - rewrite exec_cons.
    destruct (IH (act sensors_at os_sleep a c)) as (Hlow & Hhigh & evs2 & Htrace & Hsane).
    assert (Hact : _sanity_check_low (self (act sensors_at os_sleep a c)) = _sanity_check_low (self c) /\
                   _sanity_check_high (self (act sensors_at os_sleep a c)) = _sanity_check_high (self c) /\
                   exists evs1, trace (self (act sensors_at os_sleep a c)) = trace (self c) ++ evs1 /\
                                forall r, In r (rpc_calls evs1) -> sane (self c) r).
    { destruct a; cbn [act].
      - destruct (step_sane c) as (evs1 & -> & H1). repeat split. exists evs1. split; [reflexivity|exact H1].
      - repeat split. eexists. split; [reflexivity|]. intros r []. }
    destruct Hact as (Hlow1 & Hhigh1 & evs1 & Htrace1 & Hsane1).
    rewrite Hlow, Hhigh, Hlow1, Hhigh1. repeat split.
    exists (evs1 ++ evs2). rewrite Htrace, Htrace1, app_assoc. split; [reflexivity|].
    intros r Hr. rewrite rpc_calls_app in Hr. apply in_app_or in Hr as [Hr|Hr].
    + now apply Hsane1.
    + unfold sane. rewrite <- Hlow1, <- Hhigh1. now apply Hsane.
Qed.

End Transmission.

(** C8, as the code has it.  Under every schedule of loop steps and
    signals, every request that [run_forever] has sent carries a
    temperature that neither test of the sanity check rejects: not
    (low present and t < low) and not (high present and t > high); when
    the temperature and the bounds are numbers (not NaN) that is
    (low absent or t >= low) and (high absent or t <= high).  And a
    reading whose sensor read fails, or whose sanity check fails, sends
    nothing. *)
Theorem only_sane_readings_are_transmitted
    (sensors_at : nat -> list (Client.Sensor * Client.Env))
    (os_sleep : nat -> result unit)
    (args : Client.Args) (schedule : list Client.Action) :
  let low := Client.sanity_check_low args in
  let high := Client.sanity_check_high args in
  let c := Client.exec sensors_at os_sleep schedule (Client.start args) in
  (forall r, In r (Client.rpc_calls (Client.trace (Client.self c))) ->
     Client.not_outside low high (Client.req_temperature r) = true /\
     (is_nan (Client.req_temperature r) = false ->
      Client.is_nan_bound low = false -> Client.is_nan_bound high = false ->
      Client.within_bounds low high (Client.req_temperature r) = true)) /\
  (forall self sensor env,
     let self' := fst (Client._read_and_record_temperature sensor env self) in
     (forall e, Client.get_temperature sensor = Raise e ->
                Client.rpc_calls (Client.trace self') = Client.rpc_calls (Client.trace self)) /\
     (forall t, Client.get_temperature sensor = Ok t ->
                snd (Client._check_temperature_sanity (Client.id sensor) t self) <> Ok tt ->
                Client.rpc_calls (Client.trace self') = Client.rpc_calls (Client.trace self))).
Proof.
  intros low high c. split.
  - intros r Hr.
    destruct (exec_sane sensors_at os_sleep schedule (Client.start args)) as (_ & _ & evs & Htrace & Hsane).
    fold c in Htrace. rewrite Htrace in Hr. rewrite rpc_calls_app in Hr.
    apply in_app_or in Hr as [[]|Hr].
    specialize (Hsane r Hr). unfold Client.sane in Hsane. cbn in Hsane.
    split; [exact Hsane|].
    intros Ht Hl Hh.
    pose proof (not_outside_within_bounds
                  (Client.__init__ args) (Client.req_temperature r) Ht Hl Hh) as Heq.
    cbn in Heq. fold low high in Heq. now rewrite <- Heq.
  - intros self sensor env self'. subst self'.
    destruct (read_and_record_run sensor env self) as (evs & -> & Hrpc & _).
    cbn [fst Client.after Client.trace]. rewrite rpc_calls_app, Hrpc.
    unfold Client.transmitted. split.
    + intros e ->. now rewrite app_nil_r.
    + intros t -> Hfail. rewrite check_passes_iff in Hfail.
      destruct (Client.not_outside _ _ t); [congruence | now rewrite app_nil_r].
Qed.

Lemma only_sane_readings_are_transmitted_witness :
  Client.within_bounds (Some (float_lit (-15) 0)) (Some (float_lit 100 0)) (float_lit 22 0) = true.
Proof.
  destruct (only_sane_readings_are_transmitted
              (fun _ => [(Client.reading "A" (float_lit 22 0), Client.answering 0)])
              (fun _ => Ok tt)
              Client.default_args [Client.Step; Client.Step; Client.Step]) as [H _].
  apply (H (Client.request_for (Client.__init__ Client.default_args)
              (Client.reading "A" (float_lit 22 0)) (Client.answering 0) (float_lit 22 0))).
  - vm_compute. left. reflexivity.
  - reflexivity.
  - reflexivity.
  - reflexivity.
Defined.

(** C8 as worded fails on NaN: started with [--sanity-check-low nan]
    and the default high bound, the client sends the reading 20.0,
    though [20.0 >= nan] does not hold. *)
Lemma nan_bound_reading_is_transmitted :
  Client.rpc_calls
    (Client.trace
       (fst (Client._read_and_record_temperature
               (Client.reading "A" (float_lit 20 0)) (Client.answering 0)
               (Client.__init__
                  (Client.with_bounds (Some S754_nan) (Some (float_lit 100 0))))))) =
  [ Client.request_for
      (Client.__init__ (Client.with_bounds (Some S754_nan) (Some (float_lit 100 0))))
      (Client.reading "A" (float_lit 20 0)) (Client.answering 0) (float_lit 20 0) ] /\
  Client.within_bounds (Some S754_nan) (Some (float_lit 100 0)) (float_lit 20 0) = false.
Proof. split; reflexivity. Qed.

(** ** Shutdown *)

Section Shutdown.
Import Client.

Variable sensors_at : nat -> list (Sensor * Env).
Variable os_sleep : nat -> result unit.

(** What the sleep still to come in the cycle under way will do. *)
Let sleep_outcome (c : Config) : result unit :=
  time_sleep (os_sleep (sleeping_cycle c)) (_period (self c)).

(** Nothing has been raised, and the sleep to come, if any, returns. *)
Let smooth (c : Config) : Prop :=
  not_raised (pc c) = true /\ (sleeps_left (pc c) = 1%nat -> sleep_outcome c = Ok tt).

(** The sleep to come raises [e], or [e] has been raised. *)
Let doomed (e : exn) (c : Config) : Prop :=
  pc c = Raised e \/ (sleeps_left (pc c) = 1%nat /\ sleep_outcome c = Raise e).

(** [quit] logs one line and sets the flag; nothing else changes. *)
Lemma quit_eq s :
  quit s = ({| _device_id := _device_id s;
               _period := _period s;
               _sanity_check_low := _sanity_check_low s;
               _sanity_check_high := _sanity_check_high s;
               _quit := true;
               trace := trace s ++ [EvLog INFO [Lit "Received quit request"]] |}, Ok tt).
Proof. reflexivity. Qed.

(** What one action does once the flag is set. *)
Lemma act_after_quit a c :
  _quit (self c) = true ->
  let c1 := act sensors_at os_sleep a c in
  _quit (self c1) = true /\
  (cycle c1 + enumerations_left (pc c1) = cycle c + enumerations_left (pc c))%nat /\
  (steps_left sensors_at c1 <=
   match a with
   | Step => pred (steps_left sensors_at c)
   | Signal => steps_left sensors_at c
   end)%nat /\
  (exists evs,
     trace (self c1) = trace (self c) ++ evs /\
     (length (sleeps evs) + sleeps_left (pc c1) <= sleeps_left (pc c))%nat /\
     (length (rpc_calls evs) + length (in_flight sensors_at c1) <=
      length (in_flight sensors_at c))%nat) /\
  (forallb (ends_well (self c)) (in_flight sensors_at c) = true ->
   forallb (ends_well (self c1)) (in_flight sensors_at c1) = true /\
   (smooth c -> smooth c1) /\
   (forall e, doomed e c -> doomed e c1)).
Proof.
  intros Hq. destruct a; cbn [act]; cbn zeta.
  - unfold step, smooth, doomed, sleep_outcome, steps_left, in_flight, sleeping_cycle.
    destruct (pc c) as [| |[|[sensor env] rest]| |] eqn:Hpc.
    + rewrite Hq. cbn [negb]. unfold logger. rewrite emit_after.
      cbn [following pc self cycle after _quit trace enumerations_left sleeps_left
           not_raised length forallb pred].
      split; [assumption|]. split; [reflexivity|]. split; [lia|]. split.
      { eexists. split; [reflexivity|]. cbn. lia. }
      intros _. split; [reflexivity|]. split.
      * intros _. split; [reflexivity | discriminate].
      * intros e [He | [He _]]; discriminate.
    + rewrite emit_after.
      cbn [fst pc self cycle after _quit trace enumerations_left sleeps_left
           not_raised pred].
      split; [assumption|]. split; [lia|]. split; [lia|]. split.
      { eexists. split; [reflexivity|]. cbn. lia. }
      intros Hwell. split; [exact Hwell|]. split.
      * intros [_ Hs]. split; [reflexivity|]. intros _. now apply Hs.
      * intros e [He | [_ He]]; [discriminate|]. right. split; [reflexivity | exact He].
    + rewrite sleep_eq.
      cbn [enumerations_left sleeps_left not_raised length forallb pred].
      destruct (time_sleep (os_sleep (pred (cycle c))) (_period (self c))) as [[]|e0] eqn:Hsl;
        cbn [following pc self cycle after _quit trace enumerations_left sleeps_left
             not_raised length forallb pred].
      * split; [assumption|]. split; [reflexivity|]. split; [lia|]. split.
        { eexists. split; [reflexivity|]. cbn. lia. }
        intros _. split; [reflexivity|]. split.
        -- intros _. split; [reflexivity | discriminate].
        -- intros e [He | [_ He]]; discriminate.
      * split; [assumption|]. split; [reflexivity|]. split; [lia|]. split.
        { eexists. split; [reflexivity|]. cbn. lia. }
        intros _. split; [reflexivity|]. split.
        -- intros [_ Hs]. specialize (Hs eq_refl). discriminate.
        -- intros e [He | [_ He]]; [discriminate|]. left. congruence.
    + destruct (read_and_record_run sensor env (self c)) as (evs & Hrun & Hrpc & _ & Hsl).
      assert (Hlen : (length (rpc_calls evs) <= 1)%nat).
      { rewrite Hrpc. unfold transmitted.
        destruct (get_temperature sensor); [destruct (not_outside _ _ _)|]; simpl; lia. }
      rewrite Hrun. unfold ends_well at 1. cbn [forallb fst snd].
      destruct (outcome (self c) sensor env) as [[]|e0];
        cbn [following pc self cycle after _quit trace enumerations_left sleeps_left
             not_raised length forallb pred andb].
      * split; [assumption|]. split; [reflexivity|]. split; [lia|]. split.
        { exists evs. rewrite Hsl. split; [reflexivity|]. cbn. lia. }
        intros Hwell. split; [exact Hwell|]. split.
        -- intros [_ Hs]. split; [reflexivity|]. intros _. now apply Hs.
        -- intros e [He | [_ He]]; [discriminate|]. right. split; [reflexivity | exact He].
      * split; [assumption|]. split; [reflexivity|]. split; [lia|]. split.
        { exists evs. rewrite Hsl. split; [reflexivity|]. cbn. lia. }
        discriminate.
    + rewrite Hpc. cbn [enumerations_left sleeps_left not_raised length forallb pred].
      split; [assumption|]. split; [reflexivity|]. split; [lia|]. split.
      { exists []. rewrite app_nil_r. split; [reflexivity|]. cbn. lia. }
      intros _. split; [reflexivity|]. split; [tauto|]. intros e He. exact He.
    + rewrite Hpc. cbn [enumerations_left sleeps_left not_raised length forallb pred].
      split; [assumption|]. split; [reflexivity|]. split; [lia|]. split.
      { exists []. rewrite app_nil_r. split; [reflexivity|]. cbn. lia. }
      intros _. split; [reflexivity|]. split; [tauto|]. intros e' He. exact He.
  - unfold signal. rewrite quit_eq.
    unfold smooth, doomed, sleep_outcome, steps_left, in_flight, sleeping_cycle.
    cbn [fst pc self cycle _quit trace _period].
    split; [reflexivity|]. split; [reflexivity|]. split; [lia|]. split.
    { eexists. split; [reflexivity|]. cbn. lia. }
    intros Hwell. split; [exact Hwell|]. split; [tauto|]. intros e He. exact He.
Qed.

Lemma count_steps_cons a schedule :
  count_steps (a :: schedule) =
  (match a with Step => 1 | Signal => 0 end + count_steps schedule)%nat.
Proof. destruct a; reflexivity. Qed.

(** The same along a whole schedule. *)
Lemma exec_after_quit schedule :
  forall c,
    _quit (self c) = true ->
    let c' := exec sensors_at os_sleep schedule c in
    _quit (self c') = true /\
    (cycle c' + enumerations_left (pc c') = cycle c + enumerations_left (pc c))%nat /\
    (steps_left sensors_at c' <= steps_left sensors_at c - count_steps schedule)%nat /\
    (exists evs,
       trace (self c') = trace (self c) ++ evs /\
       (length (sleeps evs) + sleeps_left (pc c') <= sleeps_left (pc c))%nat /\
       (length (rpc_calls evs) + length (in_flight sensors_at c') <=
        length (in_flight sensors_at c))%nat) /\
    (forallb (ends_well (self c)) (in_flight sensors_at c) = true ->
     (smooth c -> smooth c') /\
     (forall e, doomed e c -> doomed e c')).
Proof.
  induction schedule as [|a schedule IH]; intros c Hq; cbn zeta.
  - cbn [exec fold_left]. change (count_steps []) with 0%nat.
    split; [assumption|]. split; [reflexivity|]. split; [lia|]. split.
    + exists []. rewrite app_nil_r. split; [reflexivity|]. cbn. lia.
    + intros _. split; [tauto | intros e He; exact He].
  - rewrite exec_cons, count_steps_cons.
    destruct (act_after_quit a c Hq) as (Hq1 & Hcy1 & Hst1 & (evs1 & Htr1 & Hsl1 & Hrp1) & Hw1).
    destruct (IH _ Hq1) as (Hq2 & Hcy2 & Hst2 & (evs2 & Htr2 & Hsl2 & Hrp2) & Hw2).
    split; [exact Hq2|]. split; [lia|].
    split; [destruct a; lia|]. split.
    + exists (evs1 ++ evs2). rewrite Htr2, Htr1, app_assoc.
      rewrite sleeps_app, rpc_calls_app, !length_app.
      split; [reflexivity|]. lia.
    + intros Hw. destruct (Hw1 Hw) as (Hw' & Hs1 & Hd1).
      destruct (Hw2 Hw') as (Hs2 & Hd2). split.
      * intros Hs. apply Hs2, Hs1, Hs.
      * intros e He. apply Hd2, Hd1, He.
Qed.

(** What that comes to for the end of [run_forever]. *)
Lemma exec_after_quit_end schedule c :
  _quit (self c) = true ->
  (steps_left sensors_at c <= count_steps schedule)%nat ->
  let c' := exec sensors_at os_sleep schedule c in
  terminated c' = true /\
  (forallb (ends_well (self c)) (in_flight sensors_at c) = true ->
   (not_raised (pc c) = true ->
    (sleeps_left (pc c) = 1%nat -> sleep_outcome c = Ok tt) -> pc c' = Returned) /\
   (forall e, sleeps_left (pc c) = 1%nat -> sleep_outcome c = Raise e -> pc c' = Raised e)).
Proof.
  intros Hq Hsteps c'.
  destruct (exec_after_quit schedule c Hq) as (_ & _ & Hst & _ & Hw). fold c' in Hst, Hw.
  assert (H0 : steps_left sensors_at c' = 0%nat) by lia.
  assert (Hterm : terminated c' = true).
  { unfold terminated. unfold steps_left in H0. destruct (pc c'); (reflexivity || lia). }
  split; [exact Hterm|]. intros Hwell. destruct (Hw Hwell) as (Hs & Hd). split.
  - intros Hnr Hsl. destruct (Hs (conj Hnr Hsl)) as [Hnr' _].
    unfold terminated in Hterm. destruct (pc c'); try discriminate; reflexivity.
  - intros e H1 He. destruct (Hd e (or_intror (conj H1 He))) as [Hr | [H1' _]]; [exact Hr|].
    unfold terminated in Hterm. destruct (pc c'); discriminate.
Qed.

End Shutdown.

(** C7, as the code has it.  The shutdown request is a signal: it runs
    [quit], which logs a line and sets [_quit], and a second request
    changes nothing but the log.  From then on, under every schedule
    of loop steps and further signals: no cycle begins after the one
    under way (the sensors are enumerated once more only when the
    request came between the loop test and the enumeration); at most
    one sleep is called; the requests sent are at most one for each
    sensor left in the cycle under way; and once the loop has made the
    steps left in that cycle, the sleep and the loop test,
    [run_forever] is over, after which nothing more is sent.  When no
    exception leaves the processing of the sensors left, it is over by
    returning if the sleep of the cycle under way returns, and by the
    exception of [time.sleep] if that is raised, which it is for every
    period that is NaN, negative or too large. *)
Theorem run_forever_shutdown
    (sensors_at : nat -> list (Client.Sensor * Client.Env))
    (os_sleep : nat -> result unit)
    (c : Client.Config) (schedule : list Client.Action) :
  let requested := Client.signal c in
  let c' := Client.exec sensors_at os_sleep schedule requested in
  let sleep_outcome :=
    Client.time_sleep (os_sleep (Client.sleeping_cycle c)) (Client._period (Client.self c)) in
  (Client.pc requested = Client.pc c /\
   Client._quit (Client.self requested) = true /\
   Client.self requested =
     fst (Client.set_quit true
            (Client.after (Client.self c) [Client.EvLog Client.INFO [Lit "Received quit request"]])) /\
   Client.self (Client.signal requested) =
     Client.after (Client.self requested) [Client.EvLog Client.INFO [Lit "Received quit request"]]) /\
  Client._quit (Client.self c') = true /\
  (Client.cycle c' <= Client.cycle c + Client.enumerations_left (Client.pc c))%nat /\
  (exists evs,
     Client.trace (Client.self c') = Client.trace (Client.self requested) ++ evs /\
     (length (Client.sleeps evs) <= 1)%nat /\
     (length (Client.rpc_calls evs) <= length (Client.in_flight sensors_at c))%nat) /\
  ((Client.steps_left sensors_at c <= Client.count_steps schedule)%nat ->
   Client.terminated c' = true /\
   (forall more,
      Client.rpc_calls (Client.trace (Client.self (Client.exec sensors_at os_sleep more c'))) =
      Client.rpc_calls (Client.trace (Client.self c'))) /\
   (forallb (Client.ends_well (Client.self c)) (Client.in_flight sensors_at c) = true ->
    (Client.not_raised (Client.pc c) = true ->
     (Client.sleeps_left (Client.pc c) = 1%nat -> sleep_outcome = Ok tt) ->
     Client.pc c' = Client.Returned) /\
    (forall e, Client.sleeps_left (Client.pc c) = 1%nat -> sleep_outcome = Raise e ->
               Client.pc c' = Client.Raised e)) /\
   (Client.sleep_length (Client._period (Client.self c)) = false ->
    Client.sleeps_left (Client.pc c) = 1%nat ->
    forallb (Client.ends_well (Client.self c)) (Client.in_flight sensors_at c) = true ->
    Client.pc c' <> Client.Returned)).
Proof.
  intros requested c' sleep_outcome.
  assert (Hq : Client._quit (Client.self requested) = true) by reflexivity.
  split; [repeat split; reflexivity|].
  destruct (exec_after_quit sensors_at os_sleep schedule requested Hq)
    as (Hq' & Hcy & Hst & (evs & Htr & Hsl & Hrp) & _).
  fold c' in Hq', Hcy, Hst, Htr, Hsl, Hrp.
  change (Client.pc requested) with (Client.pc c) in *.
  change (Client.cycle requested) with (Client.cycle c) in *.
  change (Client.in_flight sensors_at requested) with (Client.in_flight sensors_at c) in *.
  change (Client.steps_left sensors_at requested) with (Client.steps_left sensors_at c) in *.
  split; [exact Hq'|]. split; [lia|]. split.
  - exists evs. split; [exact Htr|]. split; [|lia].
    assert (Client.sleeps_left (Client.pc c) <= 1)%nat by (destruct (Client.pc c); simpl; lia).
    lia.
  - intros Hsteps.
    destruct (exec_after_quit_end sensors_at os_sleep schedule requested Hq Hsteps)
      as (Hterm & Hend).
    fold c' in Hterm, Hend.
    change (Client.pc requested) with (Client.pc c) in Hend.
    change (Client.in_flight sensors_at requested) with (Client.in_flight sensors_at c) in Hend.
    change (Client.self requested)
      with (fst (Client.quit (Client.self c))) in Hend.
    change (Client.sleeping_cycle requested) with (Client.sleeping_cycle c) in Hend.
    split; [exact Hterm|]. split; [|split].
    + intros more.
      destruct (exec_after_quit sensors_at os_sleep more c' Hq')
        as (_ & _ & _ & (evs' & -> & _ & Hrp') & _).
      rewrite rpc_calls_app.
      assert (Hin : Client.in_flight sensors_at c' = []).
      { unfold Client.terminated in Hterm. unfold Client.in_flight.
        destruct (Client.pc c'); try discriminate; reflexivity. }
      rewrite Hin in Hrp'. simpl in Hrp'.
      destruct (Client.rpc_calls evs'); [now rewrite app_nil_r | simpl in Hrp'; lia].
    + exact Hend.
    + intros Hlen H1 Hwell Hret.
      destruct (time_sleep_refused (os_sleep (Client.sleeping_cycle c)) _ Hlen) as (e & He).
      destruct (Hend Hwell) as [_ Hd]. rewrite (Hd e H1 He) in Hret. discriminate.
Qed.

(** The request arrives while the last sensor of a cycle is still to be
    processed: three steps later [run_forever] has returned. *)
Lemma run_forever_shutdown_witness :
  Client.pc
    (Client.exec (fun _ => [(Client.reading "A" (float_lit 22 0), Client.answering 0)])
       (fun _ => Ok tt)
       [Client.Step; Client.Signal; Client.Step; Client.Step]
       (Client.signal
          {| Client.pc := Client.InFor [(Client.reading "A" (float_lit 22 0), Client.answering 0)];
             Client.self := Client.__init__ Client.default_args;
             Client.cycle := 1 |})) = Client.Returned.
Proof.
  pose proof (run_forever_shutdown
           (fun _ => [(Client.reading "A" (float_lit 22 0), Client.answering 0)])
           (fun _ => Ok tt)
           {| Client.pc := Client.InFor [(Client.reading "A" (float_lit 22 0), Client.answering 0)];
              Client.self := Client.__init__ Client.default_args;
              Client.cycle := 1 |}
           [Client.Step; Client.Signal; Client.Step; Client.Step]) as H.
  cbv zeta in H. destruct H as (_ & _ & _ & _ & H).
  destruct H as (_ & _ & H & _); [vm_compute; lia|].
  destruct H as [H _]; [reflexivity|].
  apply H; [reflexivity|]. intros _. vm_compute. reflexivity.
Defined.

(** C7 as worded fails for a period that [time.sleep] refuses, and
    nothing checks [--period].  Started with [--period nan], with the
    request arriving while the last sensor of the first cycle is still
    to be processed: the sensor is processed, [time.sleep] raises
    [ValueError], and [run_forever] ends by that exception and does not
    return, whatever steps follow. *)
Lemma nan_period_never_returns :
  let args := {| Client.device_id := "unknown"; Client.period := S754_nan;
                 Client.sanity_check_low := Some (float_lit (-15) 0);
                 Client.sanity_check_high := Some (float_lit 100 0) |} in
  let sensors := [(Client.reading "A" (float_lit 22 0), Client.answering 0)] in
  let c := Client.exec (fun _ => sensors) (fun _ => Ok tt) [Client.Step; Client.Step]
             (Client.start args) in
  Client.pc c = Client.InFor sensors /\
  forall n,
    Client.pc (Client.exec (fun _ => sensors) (fun _ => Ok tt) (repeat Client.Step (2 + n))
                 (Client.signal c)) =
    Client.Raised (raise_msg ValueError [Lit "Invalid value NaN (not a number)"]).
Proof.
  intros args sensors c. split; [reflexivity|].
  intros n. replace (2 + n)%nat with (2 + n)%nat by reflexivity.
  cbn [Nat.add repeat]. rewrite !exec_cons.
  rewrite steps_terminated; reflexivity.
Qed.

(** ** Failures of the RPC call *)

Section Transport.
Import Client.

Variable sensors_at : nat -> list (Sensor * Env).
Variable os_sleep : nat -> result unit.

(** The classes the last three [except] clauses are for, and their
    subclasses, are caught: an XML-RPC fault, a protocol error, and a
    connection that is refused, reset, aborted or broken. *)
Lemma transport_failure_caught (e : exn) :
  In (cls e) [Fault; ProtocolError; ConnectionError; ConnectionRefusedError;
              ConnectionResetError; ConnectionAbortedError; BrokenPipeError] ->
  caught e = true.
Proof.
  unfold caught, isinstance. intros Hin.
  repeat (destruct Hin as [<-|Hin]; [reflexivity|]). destruct Hin.
Qed.

(** A timeout (and likewise a failed name resolution, or any other
    [OSError] that is not a [ConnectionError]) is not. *)
Lemma timeout_not_caught (e : exn) :
  In (cls e) [TimeoutError; gaierror; OSError] -> caught e = false.
Proof.
  unfold caught, isinstance. intros Hin.
  repeat (destruct Hin as [<-|Hin]; [reflexivity|]). destruct Hin.
Qed.

Lemma exec_pc_terminated schedule :
  forall c, terminated c = true -> pc (exec sensors_at os_sleep schedule c) = pc c.
Proof.
  induction schedule as [|a schedule IH]; intros c Hc; [reflexivity|].
  rewrite exec_cons.
  assert (Hpc : pc (act sensors_at os_sleep a c) = pc c).
  { destruct a; [|reflexivity]. cbn [act]. unfold step. unfold terminated in Hc.
    destruct (pc c) as [| |[|[]]| |] eqn:E; try discriminate; exact E. }
  rewrite IH; [exact Hpc|]. unfold terminated in *. now rewrite Hpc.
Qed.

End Transport.

(** C2 fails on the code for timeouts.  When the RPC call of a valid
    reading raises [TimeoutError] (which [socket.timeout] is), no
    [except] clause of [_read_and_record_temperature] matches: the
    exception leaves it, leaves the [for] loop and [run_forever], and
    the loop is never resumed. *)
Theorem timeout_leaves_run_forever
    (sensors_at : nat -> list (Client.Sensor * Client.Env))
    (os_sleep : nat -> result unit) (c : Client.Config)
    (sensor : Client.Sensor) (env : Client.Env) (rest : list (Client.Sensor * Client.Env))
    (t : spec_float) (e : exn) :
  Client.pc c = Client.InFor ((sensor, env) :: rest) ->
  Client.get_temperature sensor = Ok t ->
  Client.not_outside (Client._sanity_check_low (Client.self c))
                     (Client._sanity_check_high (Client.self c)) t = true ->
  Client.record_temperature env (Client.request_for (Client.self c) sensor env t) = Raise e ->
  cls e = TimeoutError ->
  snd (Client._read_and_record_temperature sensor env (Client.self c)) = Raise e /\
  forall schedule,
    Client.pc (Client.exec sensors_at os_sleep (Client.Step :: schedule) c) = Client.Raised e.
Proof.
  intros Hpc Hread Hsane Hrpc Hcls.
  assert (Hout : Client.outcome (Client.self c) sensor env = Raise e).
  { unfold Client.outcome. rewrite Hread, Hsane, Hrpc.
    rewrite timeout_not_caught; [reflexivity | rewrite Hcls; left; reflexivity]. }
  destruct (read_and_record_run sensor env (Client.self c)) as (evs & Hrun & _).
  rewrite Hout in Hrun. split; [now rewrite Hrun|].
  intros schedule. rewrite exec_cons. cbn [Client.act].
  rewrite exec_pc_terminated.
  - unfold Client.step. now rewrite Hpc, Hrun.
  - unfold Client.terminated, Client.step. now rewrite Hpc, Hrun.
Qed.

(** With the default arguments, one sensor reading 22.0 and a server
    that cannot be reached in time: the first cycle ends the process. *)
Lemma timeout_leaves_run_forever_witness :
  Client.pc
    (Client.exec (fun _ => [(Client.reading "A" (float_lit 22 0), Client.unreachable)])
       (fun _ => Ok tt)
       [Client.Step; Client.Step; Client.Step; Client.Step]
       (Client.exec (fun _ => [(Client.reading "A" (float_lit 22 0), Client.unreachable)])
          (fun _ => Ok tt) [Client.Step; Client.Step]
          (Client.start Client.default_args))) = Client.Raised Client.timed_out.
Proof.
  apply (timeout_leaves_run_forever
           (fun _ => [(Client.reading "A" (float_lit 22 0), Client.unreachable)])
           (fun _ => Ok tt)
           (Client.exec (fun _ => [(Client.reading "A" (float_lit 22 0), Client.unreachable)])
              (fun _ => Ok tt) [Client.Step; Client.Step]
              (Client.start Client.default_args))
           (Client.reading "A" (float_lit 22 0)) Client.unreachable [] (float_lit 22 0)
           Client.timed_out); reflexivity.
Defined.

(** ** The database engine *)

Section Engine.
Import Sqlite.

Lemma content_insert (d : Disk) file db : content (<[file := db]> d) file = db.
Proof. unfold content. now rewrite lookup_insert_eq. Qed.

Lemma find_table_app db1 db2 name :
  find_table (db1 ++ db2) name =
  match find_table db1 name with
  | Some t => Some t
  | None => find_table db2 name
  end.
Proof.
  unfold find_table. induction db1 as [|nt db1 IH]; [reflexivity|].
  cbn [app find]. destruct (bool_decide (fst nt = name)); [reflexivity | exact IH].
Qed.

(** Appending a row changes the rows of the table it names, at their
    end, and nothing else. *)
Lemma find_table_append_row n row db name :
  find_table (append_row n row db) name =
  match find_table db name with
  | Some t =>
      Some (if bool_decide (name = n)
            then {| columns := columns t; rows := rows t ++ [row] |}
            else t)
  | None => None
  end.
Proof.
  unfold find_table, append_row. induction db as [|[m t] db IH]; [reflexivity|].
  cbn [map find fst snd].
  destruct (bool_decide_reflect (m = n)) as [->|Hmn]; cbn [fst snd].
  - destruct (bool_decide_reflect (n = name)) as [->|Hn]; cbn [fst snd].
    + now rewrite bool_decide_eq_true_2.
    + exact IH.
  - destruct (bool_decide_reflect (m = name)) as [->|Hm]; cbn [fst snd].
    + rewrite bool_decide_eq_false_2 by congruence. reflexivity.
    + exact IH.
Qed.

(** A committed transaction adds its rows after those there, in order. *)
Lemma find_table_apply_pending p :
  forall db name,
    find_table (apply_pending p db) name =
    match find_table db name with
    | Some t => Some {| columns := columns t; rows := rows t ++ rows_for name p |}
    | None => None
    end.
Proof.
  unfold apply_pending, rows_for.
  induction p as [|[n row] p IH]; intros db name; cbn [fold_left List.filter map fst snd].
  - destruct (find_table db name) as [[cols rws]|]; [|reflexivity].
    cbn. now rewrite app_nil_r.
  - rewrite IH, find_table_append_row.
    destruct (find_table db name) as [t|]; [|reflexivity].
    destruct (bool_decide_reflect (name = n)) as [->|Hn].
    + rewrite bool_decide_eq_true_2 by reflexivity. cbn. now rewrite <- app_assoc.
    + rewrite bool_decide_eq_false_2 by congruence. reflexivity.
Qed.

Lemma count_tables_app db1 db2 name :
  count_tables (db1 ++ db2) name = (count_tables db1 name + count_tables db2 name)%nat.
Proof. unfold count_tables. now rewrite List.filter_app, length_app. Qed.

Lemma count_tables_none db name :
  find_table db name = None -> count_tables db name = 0%nat.
Proof.
  unfold find_table, count_tables. induction db as [|nt db IH]; [reflexivity|].
  cbn [find List.filter]. destruct (bool_decide (fst nt = name)); [discriminate | exact IH].
Qed.

Lemma count_tables_one db name t :
  NoDup (map fst db) -> find_table db name = Some t -> count_tables db name = 1%nat.
Proof.
  unfold find_table, count_tables. induction db as [|nt db IH]; [discriminate|].
  cbn [map find List.filter]. intros Hnd Hfind.
  apply NoDup_cons in Hnd as [Hnotin Hnd].
  destruct (bool_decide_reflect (fst nt = name)) as [Heq|Hne].
  - cbn [length]. f_equal. change (count_tables db name = 0%nat).
    apply count_tables_none. unfold find_table.
    destruct (find _ db) as [nt'|] eqn:Ef; [|reflexivity].
    exfalso. apply Hnotin.
    apply find_some in Ef as [Hin Hname]. apply bool_decide_eq_true in Hname.
    rewrite Heq, <- Hname. apply list_elem_of_In. apply in_map. exact Hin.
  - apply IH; assumption.
Qed.

End Engine.

(** ** The write path of the server *)

Section WritePath.
Import Sqlite Server.

Lemma getitem_fields a b c d (s : State) :
  getitem (fields_of a b c d) "device_id" s = (s, Ok a) /\
  getitem (fields_of a b c d) "sensor_id" s = (s, Ok b) /\
  getitem (fields_of a b c d) "time" s = (s, Ok c) /\
  getitem (fields_of a b c d) "temperature" s = (s, Ok d).
Proof. repeat split; reflexivity. Qed.

Lemma try_sqlite_error {S A} (body : M S A) s :
  try_except body [ ([SqliteError], fun e => raise (raise_msg DBError (msg e))) ] s =
  match body s with
  | (s', Ok a) => (s', Ok a)
  | (s', Raise e) => (s', Raise (Server.wrap e))
  end.
Proof.
  unfold try_except, Server.wrap. destruct (body s) as [s' [a|e]]; [reflexivity|].
  unfold matches. cbn [find existsb fst snd].
  destruct (isinstance e SqliteError); reflexivity.
Qed.

Lemma with_connection_same (s : State) : with_connection s (_connection s) = s.
Proof. now destruct s. Qed.

(** [DBClient.write], case by case. *)
Lemma write_run a b c d f (s : State) :
  let conn := _connection s in
  let row := [a; b; c; d] in
  write (fields_of a b c d) f s =
  match find_table (content (disk s) (database_file conn)) "temperatures" with
  | None =>
      (s, Raise (raise_msg DBError [Lit "no such table: "; FStr "temperatures"]))
  | Some t =>
      if negb (length (columns t) =? 4)%nat
      then (s, Raise (raise_msg DBError
                        [Lit "table "; FStr "temperatures"; Lit " has ";
                         FInt (Z.of_nat (length (columns t)));
                         Lit " columns but "; FInt 4; Lit " values were supplied"]))
      else if negb (forallb binds row)
      then (with_connection s (begun conn), Raise too_large)
      else
        match on_insert f with
        | FailKeep e => (s, Raise (Server.wrap e))
        | FailRollback e => (with_connection s (rollback conn), Raise (Server.wrap e))
        | NoFault =>
            match on_commit f with
            | NoFault => (committed s (inserted conn (map stored row)), Ok tt)
            | FailKeep e =>
                (with_connection s (inserted conn (map stored row)), Raise (Server.wrap e))
            | FailRollback e =>
                (with_connection s (rollback (inserted conn (map stored row))),
                 Raise (Server.wrap e))
            end
        end
  end.
Proof.
  intros conn row. unfold write. rewrite try_sqlite_error. unfold bind.
  destruct (getitem_fields a b c d s) as (-> & -> & -> & ->).
  unfold on_connection at 1. unfold execute. fold conn. fold row.
  destruct (find_table _ "temperatures") as [t|];
    [|rewrite with_connection_same || (destruct s; reflexivity)].
  change (length row) with 4%nat.
  destruct (negb (length (columns t) =? 4)%nat); [destruct s; reflexivity|].
  destruct (negb (forallb binds row)); [reflexivity|].
  destruct (on_insert f) as [|e|e]; [|destruct s; reflexivity|reflexivity].
  unfold on_connection, commit. cbn [disk _connection in_transaction negb].
  destruct (on_commit f) as [|e|e]; reflexivity.
Qed.

(** [record_temperature] on top of it: 0 when [write] returns, 1 when it
    raises [DBError], and any other exception goes on. *)
Lemma record_temperature_run a b c d f (s : State) :
  record_temperature a b c d f s =
  match write (fields_of a b c d) f (logged s DEBUG (received_message a b c d)) with
  | (s', Ok _) => (s', Ok 0)
  | (s', Raise e) =>
      if isinstance e DBError
      then (logged s' ERROR ([Lit "Database write failed: "] ++ msg e), Ok 1)
      else (s', Raise e)
  end.
Proof.
  unfold record_temperature, bind, try_except.
  change (logger DEBUG (received_message a b c d) s)
    with (logged s DEBUG (received_message a b c d), @Ok unit tt).
  cbn iota.
  destruct (write _ f _) as [s' [[]|e]]; [reflexivity|].
  unfold matches. cbn [find existsb fst snd].
  destruct (isinstance e DBError); reflexivity.
Qed.

End WritePath.

(** C3 fails on the code for a value that sqlite3 cannot bind.  Take a
    server whose table is there with its four columns, and a call one
    of whose four values is an int outside 64 bits (XML-RPC delivers
    such ints).  Binding it raises [OverflowError], which is no
    [sqlite3.Error]: [DBClient.write] does not turn it into [DBError],
    [record_temperature] does not catch it, and it leaves the method
    for the transport, whatever the engine does; nothing is stored.
    For values that sqlite3 binds, and an engine that fails with
    [sqlite3.Error]s only, the call returns 0 or 1.  In every case no
    [DBError] leaves the method and a value it returns is 0 or 1. *)
Theorem unbindable_value_leaves_record_temperature
    (device_id sensor_id read_time temperature : Sqlite.Value)
    (f : Server.WriteFaults) (s : Server.State) :
  let row := [device_id; sensor_id; read_time; temperature] in
  let r := Server.record_temperature device_id sensor_id read_time temperature f s in
  (forall t,
     Sqlite.find_table
       (Sqlite.content (Server.disk s) (Sqlite.database_file (Server._connection s)))
       "temperatures" = Some t ->
     length (Sqlite.columns t) = 4%nat ->
     forallb Sqlite.binds row = false ->
     snd r = Raise Sqlite.too_large /\
     cls Sqlite.too_large = OverflowError /\
     isinstance Sqlite.too_large SqliteError = false /\
     Server.table_rows (fst r) = Server.table_rows s) /\
  (forallb Sqlite.binds row = true ->
   Sqlite.raises_only_sqlite_errors (Server.on_insert f) = true ->
   Sqlite.raises_only_sqlite_errors (Server.on_commit f) = true ->
   snd r = Ok 0 \/ snd r = Ok 1) /\
  (forall e, snd r = Raise e -> isinstance e DBError = false) /\
  (forall z, snd r = Ok z -> z = 0 \/ z = 1).
Proof.
  intros row r. subst r.
  rewrite record_temperature_run.
  split; [|split; [|split]].
  - intros t Et Hcols Hbind. rewrite write_run.
    cbn [Server.logged Server.disk Server._connection]. fold row.
    rewrite Et, Hcols, Hbind. cbn [Nat.eqb negb].
    change (isinstance Sqlite.too_large DBError) with false. cbn iota.
    split; [reflexivity|]. split; [reflexivity|]. split; [reflexivity|].
    unfold Server.table_rows. reflexivity.
  - intros Hbind Hins Hcom. rewrite write_run. fold row. rewrite Hbind. cbn [negb].
    assert (Hwrap : forall e, isinstance e SqliteError = true ->
                              isinstance (Server.wrap e) DBError = true).
    { intros e He. unfold Server.wrap. rewrite He. reflexivity. }
    destruct (Sqlite.find_table _ _) as [t|]; [|right; reflexivity].
    destruct (negb _); [right; reflexivity|].
    destruct (Server.on_insert f) as [|e|e]; cbn in Hins.
    + destruct (Server.on_commit f) as [|e|e]; cbn in Hcom.
      * left. reflexivity.
      * right. rewrite (Hwrap e Hcom). reflexivity.
      * right. rewrite (Hwrap e Hcom). reflexivity.
    + right. rewrite (Hwrap e Hins). reflexivity.
    + right. rewrite (Hwrap e Hins). reflexivity.
  - intros e. destruct (Server.write _ f _) as [s' [[]|e']]; cbn [snd]; [discriminate|].
    destruct (isinstance e' DBError) eqn:E; cbn [snd]; [discriminate|].
    now intros [= <-].
  - intros z. destruct (Server.write _ f _) as [s' [[]|e']]; cbn [snd].
    + intros [= <-]. now left.
    + destruct (isinstance e' DBError); cbn [snd]; [|discriminate].
      intros [= <-]. now right.
Qed.

(** On a server just started, the temperature 2^63: the call raises
    [OverflowError]. *)
Lemma unbindable_value_leaves_record_temperature_witness :
  snd (Server.record_temperature (Sqlite.VStr "dev1") (Sqlite.VStr "s1")
         (Sqlite.VFloat (float_lit 1000 0)) (Sqlite.VInt (2 ^ 63))
         Server.no_write_faults Server.new_server) = Raise Sqlite.too_large.
Proof.
  refine (proj1 (proj1 (unbindable_value_leaves_record_temperature
                          (Sqlite.VStr "dev1") (Sqlite.VStr "s1")
                          (Sqlite.VFloat (float_lit 1000 0)) (Sqlite.VInt (2 ^ 63))
                          Server.no_write_faults Server.new_server)
                   {| Sqlite.columns := Server.temperatures_columns; Sqlite.rows := [] |}
                   _ _ _)); reflexivity.
Defined.

Section Rows.
Import Sqlite Server.

Lemma new_server_serving :
  serving "/var/temperatures" no_open_faults ∅ = Some new_server.
Proof. reflexivity. Qed.

Lemma isinstance_DBError (m : fstring) : isinstance (raise_msg DBError m) DBError = true.
Proof. reflexivity. Qed.

Lemma table_rows_committed (s : State) (c : Connection) :
  database_file c = database_file (_connection s) ->
  table_rows (committed s c) =
  match find_table (content (disk s) (database_file c)) "temperatures" with
  | Some t => rows t ++ rows_for "temperatures" (pending c)
  | None => []
  end.
Proof.
  intros Hfile. unfold table_rows, stored_rows, committed. cbn [disk _connection rollback database_file].
  rewrite content_insert, find_table_apply_pending.
  destruct (find_table _ _); reflexivity.
Qed.

(** Whatever a call does, the rows stored before it are still there, in
    place, after it: rows are only ever added at the end. *)
Lemma record_extends (r : Record_) (f : WriteFaults) (s : State) :
  exists more, table_rows (fst (record r f s)) = table_rows s ++ more.
Proof.
  unfold record. rewrite record_temperature_run, write_run.
  cbn [logged disk _connection].
  unfold table_rows at 2. unfold stored_rows.
  destruct (find_table _ _) as [t|] eqn:Et.
  2:{ exists []. rewrite isinstance_DBError. unfold table_rows, stored_rows. cbn. now rewrite Et. }
  assert (Hsame : forall s' : State,
             disk s' = disk s -> database_file (_connection s') = database_file (_connection s) ->
             table_rows s' = rows t ++ []).
  { intros s' Hd Hf. unfold table_rows, stored_rows. rewrite Hd, Hf, Et. cbn. now rewrite app_nil_r. }
  destruct (negb _).
  { exists []. rewrite isinstance_DBError. cbn [fst]. now apply Hsame. }
  destruct (negb _).
  { exists []. change (isinstance too_large DBError) with false. cbn [fst]. now apply Hsame. }
  destruct (on_insert f) as [|e|e].
  - destruct (on_commit f) as [|e|e].
    + eexists. cbn [fst]. rewrite table_rows_committed by reflexivity.
      cbn [logged disk _connection inserted database_file]. rewrite Et. reflexivity.
    + exists []. destruct (isinstance (Server.wrap e) DBError); cbn [fst]; now apply Hsame.
    + exists []. destruct (isinstance (Server.wrap e) DBError); cbn [fst]; now apply Hsame.
  - exists []. destruct (isinstance (Server.wrap e) DBError); cbn [fst]; now apply Hsame.
  - exists []. destruct (isinstance (Server.wrap e) DBError); cbn [fst]; now apply Hsame.
Qed.

(** A call that reports failure has stored nothing yet. *)
Lemma failed_record_stores_nothing (r : Record_) (f : WriteFaults) (s : State) :
  snd (record r f s) = Ok 1 -> table_rows (fst (record r f s)) = table_rows s.
Proof.
  unfold record. rewrite record_temperature_run, write_run.
  cbn [logged disk _connection].
  unfold table_rows, stored_rows.
  destruct (find_table _ _) as [t|] eqn:Et;
    [|rewrite isinstance_DBError; cbn; intros; now rewrite ?Et].
  destruct (negb _); [rewrite isinstance_DBError; cbn; intros; now rewrite ?Et|].
  destruct (negb _); [discriminate|].
  destruct (on_insert f) as [|e|e].
  - destruct (on_commit f) as [|e|e]; [discriminate| |];
      destruct (isinstance (Server.wrap e) DBError); cbn; intros _; now rewrite ?Et.
  - destruct (isinstance (Server.wrap e) DBError); cbn; intros _; now rewrite ?Et.
  - destruct (isinstance (Server.wrap e) DBError); cbn; intros _; now rewrite ?Et.
Qed.

(** A call that reports success in a settled state stores its row, last,
    and leaves the state settled. *)
Lemma record_success (r : Record_) (f : WriteFaults) (s : State) rws :
  settled s rws ->
  snd (record r f s) = Ok 0 ->
  settled (fst (record r f s)) (rws ++ [stored_row r]).
Proof.
  intros (Htx & Hpend & t & Et & Hcols & Hrows).
  unfold record. rewrite record_temperature_run, write_run.
  cbn [logged disk _connection]. rewrite Et, Hcols. cbn [Nat.eqb negb].
  destruct (negb _); [discriminate|].
  destruct (on_insert f) as [|e|e].
  - destruct (on_commit f) as [|e|e].
    + intros _. cbn [fst]. unfold settled, committed.
      cbn [disk _connection rollback database_file in_transaction pending inserted logged].
      repeat split. rewrite content_insert, find_table_apply_pending, Et, Hpend.
      eexists. split; [reflexivity|]. split; [exact Hcols|].
      cbn. rewrite Hrows. reflexivity.
    + destruct (isinstance (Server.wrap e) DBError); discriminate.
    + destruct (isinstance (Server.wrap e) DBError); discriminate.
  - destruct (isinstance (Server.wrap e) DBError); discriminate.
  - destruct (isinstance (Server.wrap e) DBError); discriminate.
Qed.

End Rows.

(** C4 fails on the code.  Take a settled server, a first call whose
    INSERT succeeds and whose COMMIT raises a [sqlite3.Error] that
    leaves the transaction open (the file is locked), and a second call
    that succeeds, both with values that sqlite3 binds.  The first call
    returns 1 and the file then has the rows it had; but [write] does
    not roll back, the row of the first call stays in the open
    transaction, and the COMMIT of the second call stores both: after
    one reported failure and one reported success the table has two
    rows more, the rows of the two calls as SQLite stores them. *)
Theorem failed_commit_is_stored_by_next_write
    (s : Server.State) (r1 r2 : Server.Record_) (e : exn) (rws : list (list Sqlite.Value)) :
  Server.settled s rws ->
  isinstance e SqliteError = true ->
  Server.bindable r1 = true ->
  Server.bindable r2 = true ->
  let busy := {| Server.on_insert := Sqlite.NoFault; Server.on_commit := Sqlite.FailKeep e |} in
  let first := Server.record r1 busy s in
  let second := Server.record r2 Server.no_write_faults (fst first) in
  snd first = Ok 1 /\
  Server.table_rows (fst first) = rws /\
  Sqlite.pending (Server._connection (fst first)) =
    [("temperatures"%string, Server.stored_row r1)] /\
  snd second = Ok 0 /\
  Server.table_rows (fst second) = rws ++ [Server.stored_row r1; Server.stored_row r2].
Proof.
  intros (Htx & Hpend & t & Et & Hcols & Hrows) He Hb1 Hb2 busy first second.
  unfold Server.bindable, Server.row_of in Hb1, Hb2.
  assert (Hfirst : first =
            (Server.logged
               (Server.with_connection
                  (Server.logged s Server.DEBUG
                     (Server.received_message (Server.r_device_id r1) (Server.r_sensor_id r1)
                        (Server.r_time r1) (Server.r_temperature r1)))
                  (Server.inserted (Server._connection s) (Server.stored_row r1)))
               Server.ERROR ([Lit "Database write failed: "] ++ msg e), Ok 1)).
  { subst first busy. unfold Server.record. rewrite record_temperature_run, write_run.
    cbn [Server.logged Server.disk Server._connection Server.on_insert Server.on_commit].
    rewrite Et, Hcols, Hb1. cbn [Nat.eqb negb].
    unfold Server.wrap. rewrite He. rewrite isinstance_DBError. reflexivity. }
  subst second. rewrite Hfirst. cbn [fst snd].
  split; [reflexivity|].
  split.
  { unfold Server.table_rows, Sqlite.stored_rows. cbn. rewrite Et. exact Hrows. }
  split.
  { cbn. now rewrite Hpend. }
  unfold Server.record. rewrite record_temperature_run, write_run.
  cbn [Server.logged Server.with_connection Server.disk Server._connection Server.inserted
       Sqlite.database_file Server.no_write_faults Server.on_insert Server.on_commit].
  rewrite Et, Hcols, Hb2. cbn [Nat.eqb negb fst snd].
  split; [reflexivity|].
  rewrite table_rows_committed by reflexivity.
  cbn [Server.logged Server.with_connection Server.disk Server._connection Server.inserted
       Sqlite.database_file Sqlite.pending].
  rewrite Et, Hpend, Hrows. reflexivity.
Qed.

Lemma failed_commit_is_stored_by_next_write_witness :
  Server.table_rows
    (fst (Server.record (Server.reading_of 23) Server.no_write_faults
            (fst (Server.record (Server.reading_of 22) Server.commit_busy Server.new_server)))) =
  [Server.row_of (Server.reading_of 22); Server.row_of (Server.reading_of 23)].
Proof.
  apply (failed_commit_is_stored_by_next_write
           Server.new_server (Server.reading_of 22) (Server.reading_of 23)
           Server.database_is_locked []).
  - repeat split. eexists. repeat split.
  - reflexivity.
  - reflexivity.
  - reflexivity.
Defined.

(** ** Opening the store *)

Section Open.
Import Sqlite Server.

Opaque uri.

(** [DBClient.__init__], case by case. *)
Lemma init_run database (f : OpenFaults) (d : Disk) :
  let file := uri database in
  let conn := {| database_file := file; in_transaction := false; pending := [] |} in
  let d0 := match d !! file with Some _ => d | None => <[file := []]> d end in
  __init__ database f d =
  match on_connect f with
  | Some e => (d, Raise (Server.wrap e))
  | None =>
      match on_create f with
      | NoFault =>
          match find_table (content d file) "temperatures" with
          | Some _ => (d0, Ok conn)
          | None =>
              (<[file := content d file ++
                          [("temperatures"%string,
                            {| columns := temperatures_columns; rows := [] |})]]> d0,
               Ok conn)
          end
      | FailKeep e | FailRollback e => (d0, Raise (Server.wrap e))
      end
  end.
Proof.
  intros file conn d0. unfold __init__. rewrite try_sqlite_error.
  unfold bind, connect. fold file.
  destruct (on_connect f) as [e|]; [reflexivity|].
  assert (Hc : content d0 file = content d file).
  { unfold d0, content. destruct (d !! file) eqn:E; [now rewrite E|].
    now rewrite lookup_insert_eq. }
  clearbody file.
  cbv beta iota zeta delta [bind modify ret execute commit database_file in_transaction negb].
  fold d0. rewrite Hc.
  destruct (find_table (content d file) "temperatures") as [t|];
    destruct (on_create f) as [|e|e]; reflexivity.
Qed.

(** Opening a store whose file has no [temperatures] table gives a
    settled server with an empty table. *)
Lemma serving_fresh database f d s0 :
  find_table (content d (uri database)) "temperatures" = None ->
  serving database f d = Some s0 ->
  settled s0 [].
Proof.
  intros Hnone. unfold serving. rewrite init_run, Hnone.
  destruct (on_connect f); [discriminate|].
  destruct (on_create f); [|discriminate|discriminate].
  intros [= <-]. unfold settled. cbn [disk _connection database_file in_transaction pending].
  repeat split. rewrite content_insert, find_table_app, Hnone.
  eexists. split; [reflexivity|]. split; reflexivity.
Qed.

(** Opening never touches the rows of [temperatures]. *)
Lemma init_keeps_rows database f d :
  stored_rows (fst (__init__ database f d)) (uri database) "temperatures" =
  stored_rows d (uri database) "temperatures".
Proof.
  rewrite init_run. unfold stored_rows.
  assert (Hc : content (match d !! uri database with
                        | Some _ => d
                        | None => <[uri database := []]> d
                        end) (uri database) = content d (uri database)).
  { unfold content. destruct (d !! uri database) eqn:E; [now rewrite E|].
    now rewrite lookup_insert_eq. }
  destruct (on_connect f); [reflexivity|].
  destruct (on_create f); cbn [fst]; try now rewrite Hc.
  destruct (find_table (content d (uri database)) "temperatures") eqn:Et; cbn [fst].
  - now rewrite Hc, Et.
  - rewrite content_insert, find_table_app, Et. reflexivity.
Qed.

(** A run of calls that all report success, from a settled state. *)
Lemma serve_success calls :
  forall s rws,
    settled s rws ->
    Forall (fun o => o = Some 0) (fst (serve calls s)) ->
    settled (snd (serve calls s)) (rws ++ map (fun c => stored_row (fst c)) calls).
Proof.
  induction calls as [|[r f] calls IH]; intros s rws Hs Hall.
  - cbn. now rewrite app_nil_r.
  - cbn [serve] in *.
    destruct (record r f s) as [s' [status|e]] eqn:Erec;
      destruct (serve calls s') as [out s''] eqn:Eserve; cbn [fst snd] in *;
      apply Forall_cons in Hall as [Hhd Hall]; [|discriminate].
    injection Hhd as ->.
    pose proof (record_success r f s rws Hs) as Hstep. rewrite Erec in Hstep.
    specialize (Hstep eq_refl). cbn [fst] in Hstep.
    specialize (IH s' _ Hstep). rewrite Eserve in IH. cbn [fst snd] in IH.
    specialize (IH Hall). cbn [map fst]. now rewrite <- app_assoc in IH.
Qed.

Transparent uri.

End Open.

(** A float that is a number is stored as it is, and so is every str,
    int and [None]. *)
Lemma stored_number (v : Sqlite.Value) :
  (forall x, v = Sqlite.VFloat x -> is_nan x = false) -> Sqlite.stored v = v.
Proof.
  intros H. destruct v as [s|x|z|]; try reflexivity.
  cbn. now rewrite (H x eq_refl).
Qed.

(** C5, as the code has it.  Open a store whose file has no
    [temperatures] table yet and make any number of calls: if all of
    them report success, the table holds exactly one row for each, in
    the order of the calls, so as many rows as calls; each row is its
    record as SQLite stores it, which is the record field for field
    except that a float that is NaN is stored as NULL.  And no
    operation changes or removes a stored row: after any call, whatever
    the engine does, and after any opening of the store, the rows
    stored before are still there, in place, with new rows only after
    them. *)
Theorem appends_are_kept_in_order
    (database : string) (d : Sqlite.Disk) (f : Server.OpenFaults) (s0 : Server.State)
    (calls : list (Server.Record_ * Server.WriteFaults)) :
  Sqlite.find_table (Sqlite.content d (Server.uri database)) "temperatures" = None ->
  Server.serving database f d = Some s0 ->
  (Forall (fun o => o = Some 0) (fst (Server.serve calls s0)) ->
   Server.table_rows (snd (Server.serve calls s0)) =
     map (fun c => Server.stored_row (fst c)) calls /\
   length (Server.table_rows (snd (Server.serve calls s0))) = length calls /\
   (Forall (fun c => forall x, In (Sqlite.VFloat x) (Server.row_of (fst c)) -> is_nan x = false)
           calls ->
    Server.table_rows (snd (Server.serve calls s0)) = map (fun c => Server.row_of (fst c)) calls)) /\
  (forall s r w, exists more,
     Server.table_rows (fst (Server.record r w s)) = Server.table_rows s ++ more) /\
  (forall d' f',
     Sqlite.stored_rows (fst (Server.__init__ database f' d')) (Server.uri database) "temperatures" =
     Sqlite.stored_rows d' (Server.uri database) "temperatures").
Proof.
  intros Hnone Hs0. split; [|split].
  - intros Hall.
    pose proof (serve_success calls s0 [] (serving_fresh database f d s0 Hnone Hs0) Hall)
      as (_ & _ & t & Et & _ & Hrows).
    assert (Hrws : Server.table_rows (snd (Server.serve calls s0)) =
                   map (fun c => Server.stored_row (fst c)) calls).
    { unfold Server.table_rows, Sqlite.stored_rows. rewrite Et. exact Hrows. }
    split; [exact Hrws|]. split; [now rewrite Hrws, length_map|].
    intros Hnum. rewrite Hrws. clear -Hnum.
    induction Hnum as [|c calls Hc _ IH]; [reflexivity|].
    cbn [map]. rewrite IH. f_equal.
    unfold Server.stored_row.
    assert (Hmap : forall l : list Sqlite.Value,
               (forall x, In (Sqlite.VFloat x) l -> is_nan x = false) ->
               map Sqlite.stored l = l).
    { induction l as [|v l IHl]; intros Hl; [reflexivity|].
      cbn [map]. rewrite IHl by (intros x Hx; apply Hl; now right).
      rewrite stored_number; [reflexivity|]. intros x ->. apply Hl. now left. }
    apply Hmap. exact Hc.
  - intros s r w. apply record_extends.
  - intros d' f'. apply init_keeps_rows.
Qed.

Lemma appends_are_kept_in_order_witness :
  Server.table_rows
    (snd (Server.serve [(Server.reading_of 22, Server.no_write_faults);
                        (Server.reading_of 23, Server.no_write_faults)] Server.new_server)) =
  [Server.row_of (Server.reading_of 22); Server.row_of (Server.reading_of 23)].
Proof.
  refine (proj1 (proj1 (appends_are_kept_in_order
                          "/var/temperatures" ∅ Server.no_open_faults Server.new_server
                          [(Server.reading_of 22, Server.no_write_faults);
                           (Server.reading_of 23, Server.no_write_faults)]
                          eq_refl eq_refl) _)).
  vm_compute. repeat constructor.
Defined.

(** C5 as worded fails on NaN: a call whose temperature is NaN reports
    success, and the row stored for it has NULL for the temperature,
    not the value appended. *)
Lemma nan_is_stored_as_null :
  let r := {| Server.r_device_id := Sqlite.VStr "dev1"; Server.r_sensor_id := Sqlite.VStr "s1";
              Server.r_time := Sqlite.VFloat (float_lit 1000 0);
              Server.r_temperature := Sqlite.VFloat S754_nan |} in
  let run := Server.serve [(r, Server.no_write_faults)] Server.new_server in
  fst run = [Some 0] /\
  Server.table_rows (snd run) =
    [[Sqlite.VStr "dev1"; Sqlite.VStr "s1"; Sqlite.VFloat (float_lit 1000 0); Sqlite.VNone]] /\
  Server.table_rows (snd run) <> [Server.row_of r].
Proof. vm_compute. repeat split; discriminate. Qed.

Section OpenTwice.
Import Sqlite Server.

Opaque uri.

(** After a successful opening the file is there and has the table. *)
Lemma init_success database f d d1 c1 :
  __init__ database f d = (d1, Ok c1) ->
  exists db t,
    d1 !! uri database = Some db /\
    find_table db "temperatures" = Some t /\
    match find_table (content d (uri database)) "temperatures" with
    | Some t0 => t = t0 /\ db = content d (uri database)
    | None => t = {| columns := temperatures_columns; rows := [] |} /\
              db = content d (uri database) ++ [("temperatures"%string, t)]
    end.
Proof.
  rewrite init_run.
  destruct (on_connect f); [discriminate|].
  destruct (on_create f); [|discriminate|discriminate].
  destruct (find_table (content d (uri database)) "temperatures") as [t0|] eqn:Et.
  - intros [= <- _]. unfold content in Et |- *.
    destruct (d !! uri database) as [db|] eqn:Ed; [|discriminate].
    exists db, t0. rewrite Ed. repeat split. exact Et.
  - intros [= <- _]. eexists. eexists. rewrite lookup_insert_eq.
    split; [reflexivity|]. rewrite find_table_app, Et. cbn. repeat split.
Qed.

(** Without IF NOT EXISTS the statement would fail on an existing table. *)
Lemma create_table_again_fails (d : Disk) (c : Connection) (t : Table) fault :
  find_table (content d (database_file c)) "temperatures" = Some t ->
  snd (execute (CreateTable false "temperatures" temperatures_columns) fault (d, c)) =
  Raise (operational_error [Lit "table "; FStr "temperatures"; Lit " already exists"]).
Proof. intros Et. unfold execute. now rewrite Et. Qed.

Transparent uri.

End OpenTwice.

(** C6.  Take a database file in which no two tables have the same name
    (as in every SQLite file) and open the store on it; if that
    succeeds, opening it again, the engine itself not failing, succeeds
    too and changes nothing in any file.  After either opening the file
    has exactly one table [temperatures]: the one that was there, with
    its columns and rows, or else a new one with the four columns
    device_id, sensor_id, time, temperature and no rows. *)
Theorem open_twice
    (database : string) (d d1 : Sqlite.Disk) (f1 f2 : Server.OpenFaults)
    (c1 : Sqlite.Connection) :
  NoDup (map fst (Sqlite.content d (Server.uri database))) ->
  Server.__init__ database f1 d = (d1, Ok c1) ->
  Server.on_connect f2 = None ->
  Server.on_create f2 = Sqlite.NoFault ->
  Server.__init__ database f2 d1 = (d1, Ok c1) /\
  Sqlite.count_tables (Sqlite.content d1 (Server.uri database)) "temperatures" = 1%nat /\
  exists t,
    Sqlite.find_table (Sqlite.content d1 (Server.uri database)) "temperatures" = Some t /\
    match Sqlite.find_table (Sqlite.content d (Server.uri database)) "temperatures" with
    | Some t0 => t = t0
    | None => t = {| Sqlite.columns := Server.temperatures_columns; Sqlite.rows := [] |}
    end.
Proof.
  intros Hnd H1 Hconn Hcreate.
  destruct (init_success database f1 d d1 c1 H1) as (db & t & Hd1 & Ht & Hcase).
  assert (Hc1 : c1 = {| Sqlite.database_file := Server.uri database;
                        Sqlite.in_transaction := false; Sqlite.pending := [] |}).
  { revert H1. rewrite init_run.
    destruct (Server.on_connect f1); [discriminate|].
    destruct (Server.on_create f1); [|discriminate|discriminate].
    destruct (Sqlite.find_table (Sqlite.content d (Server.uri database)) "temperatures");
      intros [= _ <-]; reflexivity. }
  assert (Hcontent : Sqlite.content d1 (Server.uri database) = db).
  { unfold Sqlite.content. now rewrite Hd1. }
  split; [|split].
  - rewrite init_run, Hconn, Hcreate, Hcontent, Ht, Hd1, Hc1. reflexivity.
  - rewrite Hcontent.
    destruct (Sqlite.find_table (Sqlite.content d (Server.uri database)) "temperatures")
      as [t0|] eqn:Et.
    + destruct Hcase as [-> ->]. now apply (count_tables_one _ _ t0).
    + destruct Hcase as [-> ->]. rewrite count_tables_app, (count_tables_none _ _ Et).
      reflexivity.
  - exists t. rewrite Hcontent. split; [exact Ht|].
    destruct (Sqlite.find_table (Sqlite.content d (Server.uri database)) "temperatures");
      now destruct Hcase.
Qed.

Lemma open_twice_witness :
  Server.__init__ "/var/temperatures" Server.no_open_faults (Server.disk Server.new_server) =
  (Server.disk Server.new_server, Ok (Server._connection Server.new_server)).
Proof.
  refine (proj1 (open_twice "/var/temperatures" ∅ (Server.disk Server.new_server)
                   Server.no_open_faults Server.no_open_faults
                   (Server._connection Server.new_server) _ eq_refl eq_refl eq_refl)).
  vm_compute. constructor.
Defined.

(* ===================================================================== *)
(** * Further properties of the client                                    *)
(* ===================================================================== *)

Section MoreFloatOrder.

Lemma flt_irrefl x : flt x x = false.
Proof.
  destruct x as [[]|[]| |[] m e]; try reflexivity;
    unfold flt, SFltb, SFcompare;
    change (Pos.compare_cont Eq) with Pos.compare;
    rewrite Z.compare_refl, Pos.compare_refl; reflexivity.
Qed.

End MoreFloatOrder.

(** X1.  The bounds are inclusive and an absent bound tests nothing: a
    temperature passes the check when each bound is either absent or
    equal to it. *)
Theorem bounds_are_inclusive
    (self : Client.Self) (sensor_id : string) (t : spec_float) :
  Client._sanity_check_low self = None \/ Client._sanity_check_low self = Some t ->
  Client._sanity_check_high self = None \/ Client._sanity_check_high self = Some t ->
  Client._check_temperature_sanity sensor_id t self = (self, Ok tt).
Proof.
  intros Hl Hh. rewrite check_temperature_sanity_eq.
  destruct Hl as [-> | ->], Hh as [-> | ->]; cbn [Client.is_not_None_and];
    unfold fgt; fold (flt t t); rewrite ?flt_irrefl; reflexivity.
Qed.

Lemma bounds_are_inclusive_witness :
  Client._check_temperature_sanity "28-01" (float_lit 100 0)
    (Client.__init__ (Client.with_bounds None (Some (float_lit 100 0)))) =
  (Client.__init__ (Client.with_bounds None (Some (float_lit 100 0))), Ok tt).
Proof.
  apply (bounds_are_inclusive
           (Client.__init__ (Client.with_bounds None (Some (float_lit 100 0))))
           "28-01" (float_lit 100 0)).
  - left. reflexivity.
  - right. reflexivity.
Defined.

Section MoreReadAndRecord.
Import Client.

Lemma error_lines_app a b :
  Observe.error_lines (a ++ b) = Observe.error_lines a ++ Observe.error_lines b.
Proof. apply omap_app. Qed.

(** The [try] block up to the exception that ends it logs no error. *)
Lemma body_error_lines sensor env self s' e :
  read_and_record_body sensor env self = (s', Raise e) ->
  exists evs, s' = after self evs /\ Observe.error_lines evs = [].
Proof.
  destruct (read_and_record_body_eq sensor env self) as (m & evs & _ & ->).
  destruct (get_temperature sensor) as [t|e0].
  - destruct (is_not_None_and _ _); [intros [= <- _]; eexists; split; reflexivity|].
    destruct (is_not_None_and _ _); [intros [= <- _]; eexists; split; reflexivity|].
    destruct (record_temperature env _); [discriminate|].
    intros [= <- _]. eexists; split; reflexivity.
  - intros [= <- _]. eexists; split; reflexivity.
Qed.

End MoreReadAndRecord.

(** X2.  What [_read_and_record_temperature] does with an exception of
    the sensor read or of the RPC call.  It is swallowed exactly when
    it is an instance of [W1ThermSensorError], [SanityCheckError],
    [Fault], [ProtocolError] or [ConnectionError]: then one line is
    logged at level ERROR and the call returns.  Any other exception
    leaves the call as it is, with no error logged. *)
Theorem exception_policy
    (sensor : Client.Sensor) (env : Client.Env) (self : Client.Self) (e : exn) :
  Client.get_temperature sensor = Raise e \/
  (exists t, Client.get_temperature sensor = Ok t /\
             Client.not_outside (Client._sanity_check_low self)
                                (Client._sanity_check_high self) t = true /\
             Client.record_temperature env (Client.request_for self sensor env t) = Raise e) ->
  let r := Client._read_and_record_temperature sensor env self in
  let swallowed :=
    isinstance e W1ThermSensorError || isinstance e SanityCheckError ||
    isinstance e Fault || isinstance e ProtocolError || isinstance e ConnectionError in
  exists evs,
    fst r = Client.after self evs /\
    if swallowed
    then snd r = Ok tt /\ length (Observe.error_lines evs) = 1%nat
    else snd r = Raise e /\ Observe.error_lines evs = [].
Proof.
  intros Hraise r swallowed.
  assert (Hsw : swallowed = Client.caught e).
  { unfold swallowed, Client.caught. cbn [existsb].
    destruct (isinstance e W1ThermSensorError), (isinstance e SanityCheckError),
      (isinstance e Fault), (isinstance e ProtocolError), (isinstance e ConnectionError);
      reflexivity. }
  rewrite Hsw. clear Hsw swallowed. subst r.
  assert (Hbody : exists s', Client.read_and_record_body sensor env self = (s', Raise e)).
  { destruct (read_and_record_body_eq sensor env self) as (m & evs & _ & ->).
    destruct Hraise as [-> | (t & -> & Hsane & Hrpc)]; [eexists; reflexivity|].
    unfold Client.not_outside in Hsane. apply andb_prop in Hsane as [H1 H2].
    apply negb_true_iff in H1, H2. rewrite H1, H2. cbn zeta. rewrite Hrpc.
    eexists; reflexivity. }
  destruct Hbody as (s' & Hbody).
  destruct (body_error_lines sensor env self s' e Hbody) as (evs & -> & Herr).
  unfold Client._read_and_record_temperature. rewrite try_except_clauses, Hbody.
  destruct (handle_eq sensor e (Client.after self evs)) as (m & ->).
  destruct (Client.caught e).
  - rewrite after_after. eexists. split; [reflexivity|].
    split; [reflexivity|]. rewrite error_lines_app, Herr. reflexivity.
  - exists evs. repeat split. exact Herr.
Qed.

(** A refused connection is swallowed; the reading is lost. *)
Lemma exception_policy_witness :
  exists evs,
    fst (Client._read_and_record_temperature
           (Client.reading "A" (float_lit 22 0))
           {| Client.now := float_lit 1000 0;
              Client.record_temperature :=
                fun _ => Raise (raise_msg ConnectionRefusedError [Lit "Connection refused"]) |}
           (Client.__init__ Client.default_args)) =
    Client.after (Client.__init__ Client.default_args) evs /\
    snd (Client._read_and_record_temperature
           (Client.reading "A" (float_lit 22 0))
           {| Client.now := float_lit 1000 0;
              Client.record_temperature :=
                fun _ => Raise (raise_msg ConnectionRefusedError [Lit "Connection refused"]) |}
           (Client.__init__ Client.default_args)) = Ok tt /\
    length (Observe.error_lines evs) = 1%nat.
Proof.
  destruct (exception_policy
              (Client.reading "A" (float_lit 22 0))
              {| Client.now := float_lit 1000 0;
                 Client.record_temperature :=
                   fun _ => Raise (raise_msg ConnectionRefusedError [Lit "Connection refused"]) |}
              (Client.__init__ Client.default_args)
              (raise_msg ConnectionRefusedError [Lit "Connection refused"]))
    as (evs & Hst & Hres).
  - right. exists (float_lit 22 0). repeat split; reflexivity.
  - exists evs. split; [exact Hst | exact Hres].
Defined.

(** X3.  A valid reading is sent once, whatever status the server
    answers: the sensor is read, the reading is logged at DEBUG, one
    request goes out with the device id, the sensor id, the time of the
    read and the temperature read; a status other than 0 is logged at
    ERROR with the status, and that is all -- the call returns, and the
    reading is not sent again. *)
Theorem status_is_logged_not_retried
    (sensor : Client.Sensor) (env : Client.Env) (self : Client.Self)
    (t : spec_float) (status : Z) :
  Client.get_temperature sensor = Ok t ->
  Client.not_outside (Client._sanity_check_low self) (Client._sanity_check_high self) t = true ->
  Client.record_temperature env (Client.request_for self sensor env t) = Ok status ->
  exists m,
    Client._read_and_record_temperature sensor env self =
    (Client.after self
       ([Client.EvRead (Client.id sensor);
         Client.EvLog Client.DEBUG m;
         Client.EvRpc {| Client.req_device_id := Client._device_id self;
                         Client.req_sensor_id := Client.id sensor;
                         Client.req_timestamp := Client.now env;
                         Client.req_temperature := t |}] ++
        if status =? 0 then []
        else [Client.EvLog Client.ERROR
                [Lit "Received error status "; FInt status; Lit " from remote server"]]),
     Ok tt).
Proof.
  intros Hread Hsane Hrpc.
  unfold Client.not_outside in Hsane. apply andb_prop in Hsane as [H1 H2].
  apply negb_true_iff in H1, H2.
  unfold Client._read_and_record_temperature. rewrite try_except_clauses.
  unfold Client.read_and_record_body. unfold bind at 1 2. rewrite emit_after.
  unfold lift at 1. rewrite Hread.
  unfold bind at 1. rewrite check_temperature_sanity_eq.
  cbn [Client._sanity_check_low Client._sanity_check_high Client.after]. rewrite H1, H2.
  unfold bind, gets, Client.logger, lift. rewrite !emit_after, !after_after.
  cbn [app Client._device_id Client.after].
  change {| Client.req_device_id := Client._device_id self;
            Client.req_sensor_id := Client.id sensor;
            Client.req_timestamp := Client.now env;
            Client.req_temperature := t |}
    with (Client.request_for self sensor env t).
  rewrite Hrpc. eexists.
  destruct (status =? 0); cbn [negb].
  - reflexivity.
  - rewrite emit_after, after_after. reflexivity.
Qed.

Lemma status_is_logged_not_retried_witness :
  Client.rpc_calls
    (Client.trace (fst (Client._read_and_record_temperature
                          (Client.reading "A" (float_lit 22 0)) (Client.answering 1)
                          (Client.__init__ Client.default_args)))) =
  [Client.request_for (Client.__init__ Client.default_args)
     (Client.reading "A" (float_lit 22 0)) (Client.answering 1) (float_lit 22 0)].
Proof.
  destruct (status_is_logged_not_retried
              (Client.reading "A" (float_lit 22 0)) (Client.answering 1)
              (Client.__init__ Client.default_args) (float_lit 22 0) 1
              eq_refl eq_refl eq_refl) as (m & ->).
  reflexivity.
Defined.

Section MoreMachine.
Import Client.

Variable sensors_at : nat -> list (Sensor * Env).
Variable os_sleep : nat -> result unit.

(** A step never touches [_quit], and reaches the end of [run_forever]
    only through the loop test with [_quit] set. *)
Lemma step_quit_flag c :
  _quit (self (step sensors_at os_sleep c)) = _quit (self c) /\
  (pc (step sensors_at os_sleep c) = Returned -> pc c = Returned \/ _quit (self c) = true).
Proof.
  destruct (step_sane sensors_at os_sleep c) as (evs & Hself & _).
  split; [now rewrite Hself|].
  unfold step. destruct (pc c) as [| |[|[sensor env] rest]| |] eqn:Hpc.
  - destruct (_quit (self c)); [now right | discriminate].
  - discriminate.
  - rewrite sleep_eq. destruct (time_sleep _ _) as [[]|e]; discriminate.
  - cbn. destruct (_read_and_record_temperature sensor env (self c)) as [s' [[]|e]];
      discriminate.
  - now left.
  - rewrite Hpc. discriminate.
Qed.

Lemma exec_returned schedule :
  forall c,
    pc (exec sensors_at os_sleep schedule c) = Returned ->
    pc c = Returned \/ (_quit (self c) = true \/ In Signal schedule).
Proof.
  induction schedule as [|a schedule IH]; intros c Hret; [now left|].
  rewrite exec_cons in Hret.
  destruct (IH _ Hret) as [Hpc | [Hq | Hin]].
  - destruct a; cbn [act] in Hpc.
    + destruct (step_quit_flag c) as [_ H]. destruct (H Hpc); auto.
    + now left.
  - destruct a; cbn [act] in Hq.
    + destruct (step_quit_flag c) as [H _]. rewrite H in Hq. auto.
    + right. right. now left.
  - right. right. now right.
Qed.

Lemma exec_returned_flag schedule :
  forall c,
    (pc c = Returned -> _quit (self c) = true) ->
    pc (exec sensors_at os_sleep schedule c) = Returned ->
    _quit (self (exec sensors_at os_sleep schedule c)) = true.
Proof.
  induction schedule as [|a schedule IH] using rev_ind; intros c Hc Hret; [auto|].
  rewrite exec_app in *. cbn [exec fold_left] in *.
  destruct a; cbn [act] in *.
  - destruct (step_quit_flag (exec sensors_at os_sleep schedule c)) as [Hflag Hstep].
    rewrite Hflag. destruct (Hstep Hret) as [Hprev | Hq]; [now apply IH | exact Hq].
  - reflexivity.
Qed.

(** One whole cycle, when no exception leaves the processing of its
    sensors: it ends as its sleep does. *)
Lemma cycle_steps c :
  pc c = AtWhile ->
  _quit (self c) = false ->
  forallb (ends_well (self c)) (sensors_at (cycle c)) = true ->
  exists evs,
    exec sensors_at os_sleep (repeat Step (length (sensors_at (cycle c)) + 3)) c =
    {| pc := match time_sleep (os_sleep (cycle c)) (_period (self c)) with
             | Ok _ => AtWhile
             | Raise e => Raised e
             end;
       self := after (self c) (EvEnumerate :: evs ++ [EvSleep (_period (self c))]);
       cycle := S (cycle c) |} /\
    reads evs = map (fun se => id (fst se)) (sensors_at (cycle c)) /\
    rpc_calls evs =
      flat_map (fun se => transmitted (self c) (fst se) (snd se)) (sensors_at (cycle c)) /\
    sleeps evs = [].
Proof.
  intros Hpc Hq Hwell.
  replace (length (sensors_at (cycle c)) + 3)%nat
    with (2 + (length (sensors_at (cycle c)) + 1))%nat by lia.
  rewrite !repeat_app. cbn [repeat app]. rewrite !exec_cons, exec_app. cbn [act].
  unfold step at 2. rewrite Hpc, Hq. cbn [negb].
  unfold step at 1. cbn [pc self cycle].
  rewrite steps_for_sensors by reflexivity. cbn [self cycle].
  rewrite emit_after. cbn [fst].
  destruct (for_sensors_well (sensors_at (cycle c)) (after (self c) [EvEnumerate]) Hwell)
    as (evs & -> & Hrpc & Hreads & Hsl).
  exists evs. split; [|repeat split; assumption].
  cbn [following exec fold_left act]. unfold step. cbn [pc self cycle following pred].
  rewrite sleep_eq. cbn [after _period]. rewrite !after_after.
  destruct (time_sleep _ _) as [[]|e]; reflexivity.
Qed.

End MoreMachine.

(** X4.  [run_forever] returns only on request: under any schedule,
    if it has returned then a signal was delivered and [_quit] is set.
    So without a signal it never returns. *)
Theorem run_forever_returns_only_on_quit
    (sensors_at : nat -> list (Client.Sensor * Client.Env))
    (os_sleep : nat -> result unit)
    (args : Client.Args) (schedule : list Client.Action) :
  let c := Client.exec sensors_at os_sleep schedule (Client.start args) in
  (Client.pc c = Client.Returned ->
   In Client.Signal schedule /\ Client._quit (Client.self c) = true) /\
  (~ In Client.Signal schedule -> Client.pc c <> Client.Returned).
Proof.
  intros c.
  assert (Hsig : Client.pc c = Client.Returned -> In Client.Signal schedule).
  { intros Hret. destruct (exec_returned sensors_at os_sleep schedule _ Hret) as [H | [H | H]];
      [cbn in H; discriminate | cbn in H; discriminate | exact H]. }
  split.
  - intros Hret. split; [auto|].
    apply (exec_returned_flag sensors_at os_sleep schedule (Client.start args)); [discriminate | exact Hret].
  - intros Hno Hret. apply Hno. now apply Hsig.
Qed.

Lemma run_forever_returns_only_on_quit_witness :
  Client.pc
    (Client.exec (fun _ => [(Client.reading "A" (float_lit 22 0), Client.answering 0)])
       (fun _ => Ok tt)
       (repeat Client.Step 30) (Client.start Client.default_args)) <> Client.Returned.
Proof.
  apply (run_forever_returns_only_on_quit
           (fun _ => [(Client.reading "A" (float_lit 22 0), Client.answering 0)])
           (fun _ => Ok tt)
           Client.default_args (repeat Client.Step 30)).
  vm_compute. intuition discriminate.
Defined.

(** X5.  One poll cycle.  From the loop test with [_quit] unset, when
    no exception leaves the processing of the sensors enumerated, the
    loop has, after one step per sensor and three more, enumerated the
    sensors once, read each one once in the order given, sent the
    requests of the valid readings in that order, and called
    [time.sleep] once, last, with the configured period.  It is then
    back at its test if the sleep returned; if [time.sleep] raised,
    which it does for every period that is NaN, negative or too large,
    that exception has ended [run_forever].  With no sensor at all the
    cycle is the enumeration and the sleep. *)
Theorem poll_cycle
    (sensors_at : nat -> list (Client.Sensor * Client.Env))
    (os_sleep : nat -> result unit) (c : Client.Config) :
  Client.pc c = Client.AtWhile ->
  Client._quit (Client.self c) = false ->
  forallb (Client.ends_well (Client.self c)) (sensors_at (Client.cycle c)) = true ->
  let l := sensors_at (Client.cycle c) in
  let period := Client._period (Client.self c) in
  let slept := Client.time_sleep (os_sleep (Client.cycle c)) period in
  let after_sleep := match slept with
                     | Ok _ => Client.AtWhile
                     | Raise e => Client.Raised e
                     end in
  (exists evs,
     Client.exec sensors_at os_sleep (repeat Client.Step (length l + 3)) c =
     {| Client.pc := after_sleep;
        Client.self :=
          Client.after (Client.self c) (Client.EvEnumerate :: evs ++ [Client.EvSleep period]);
        Client.cycle := S (Client.cycle c) |} /\
     Client.reads evs = map (fun se => Client.id (fst se)) l /\
     Client.rpc_calls evs =
       flat_map (fun se => Client.transmitted (Client.self c) (fst se) (snd se)) l /\
     Client.sleeps evs = []) /\
  (l = [] ->
   Client.exec sensors_at os_sleep [Client.Step; Client.Step; Client.Step] c =
   {| Client.pc := after_sleep;
      Client.self :=
        Client.after (Client.self c) [Client.EvEnumerate; Client.EvSleep period];
      Client.cycle := S (Client.cycle c) |}) /\
  (Client.sleep_length period = true -> slept = os_sleep (Client.cycle c)) /\
  (Client.sleep_length period = false -> exists e, slept = Raise e).
Proof.
  intros Hpc Hq Hwell l period slept after_sleep.
  split; [now apply cycle_steps|]. split; [|split].
  - intros Hl. subst l after_sleep slept period. cbn [Client.exec fold_left Client.act].
    unfold Client.step at 3. rewrite Hpc, Hq. cbn [negb].
    unfold Client.step at 2. cbn [Client.pc Client.self Client.cycle]. rewrite Hl.
    unfold Client.step. cbn [Client.pc Client.self Client.cycle pred].
    rewrite sleep_eq, !emit_after. cbn [fst Client.after Client._period].
    rewrite after_after.
    destruct (Client.time_sleep _ _) as [[]|e]; reflexivity.
  - apply time_sleep_length.
  - apply time_sleep_refused.
Qed.

(** No sensor, the default period of 60.0 and a platform that sleeps:
    the cycle is the enumeration and the sleep. *)
Lemma poll_cycle_witness :
  Client.exec (fun _ => []) (fun _ => Ok tt) [Client.Step; Client.Step; Client.Step]
    (Client.start Client.default_args) =
  {| Client.pc := Client.AtWhile;
     Client.self :=
       Client.after (Client.self (Client.start Client.default_args))
         [Client.EvEnumerate; Client.EvSleep (float_lit 60 0)];
     Client.cycle := 1 |}.
Proof.
  refine (proj1 (proj2 (poll_cycle (fun _ => []) (fun _ => Ok tt)
                          (Client.start Client.default_args)
                          eq_refl eq_refl eq_refl)) eq_refl).
Defined.

(* ===================================================================== *)
(** * Further properties of the server's write path                       *)
(* ===================================================================== *)

(** X6.  [DBClient.write] reads the keys device_id, sensor_id, time and
    temperature of its dictionary, in that order, and nothing else.  A
    dictionary that lacks one makes it raise [KeyError] for the first
    one missing, before the database is touched; [KeyError] is not a
    [sqlite3.Error], so it is not turned into [DBError].  Two
    dictionaries that agree on the four keys are written alike. *)
Theorem write_reads_four_keys
    (fields : gmap string Sqlite.Value) (f : Server.WriteFaults) (s : Server.State) :
  (forall k, Fields.first_missing fields = Some k ->
             Server.write fields f s = (s, Raise (raise_msg KeyError [FStr k]))) /\
  (Fields.first_missing fields = None ->
   exists a b c d,
     Server.write fields f s = Server.write (Server.fields_of a b c d) f s /\
     fields !! "device_id" = Some a /\ fields !! "sensor_id" = Some b /\
     fields !! "time" = Some c /\ fields !! "temperature" = Some d) /\
  (forall fields' : gmap string Sqlite.Value,
     (forall k, In k Fields.keys -> fields' !! k = fields !! k) ->
     Server.write fields' f s = Server.write fields f s).
Proof.
  assert (Hcore : forall g : gmap string Sqlite.Value,
             Server.write g f s =
             match g !! "device_id", g !! "sensor_id", g !! "time", g !! "temperature" with
             | Some a, Some b, Some c, Some d => Server.write (Server.fields_of a b c d) f s
             | None, _, _, _ => (s, Raise (raise_msg KeyError [FStr "device_id"]))
             | _, None, _, _ => (s, Raise (raise_msg KeyError [FStr "sensor_id"]))
             | _, _, None, _ => (s, Raise (raise_msg KeyError [FStr "time"]))
             | _, _, _, None => (s, Raise (raise_msg KeyError [FStr "temperature"]))
             end).
  { intros g. unfold Server.write at 1. rewrite try_sqlite_error. unfold bind, Server.getitem.
    destruct (g !! "device_id") as [a|]; [|reflexivity].
    destruct (g !! "sensor_id") as [b|]; [|reflexivity].
    destruct (g !! "time") as [c|]; [|reflexivity].
    destruct (g !! "temperature") as [d|]; [|reflexivity].
    unfold ret. cbn iota beta.
    unfold Server.write. rewrite try_sqlite_error. unfold bind.
    destruct (getitem_fields a b c d s) as (-> & -> & -> & ->). reflexivity. }
  split; [|split].
  - intros k. rewrite Hcore. unfold Fields.first_missing, Fields.keys. cbn [find].
    destruct (fields !! "device_id"); cbn; [|now intros [= <-]].
    destruct (fields !! "sensor_id"); cbn; [|now intros [= <-]].
    destruct (fields !! "time"); cbn; [|now intros [= <-]].
    destruct (fields !! "temperature"); cbn; [discriminate | now intros [= <-]].
  - rewrite Hcore. unfold Fields.first_missing, Fields.keys. cbn [find].
    destruct (fields !! "device_id") as [a|]; cbn; [|discriminate].
    destruct (fields !! "sensor_id") as [b|]; cbn; [|discriminate].
    destruct (fields !! "time") as [c|]; cbn; [|discriminate].
    destruct (fields !! "temperature") as [d|]; cbn; [|discriminate].
    intros _. exists a, b, c, d. repeat split.
  - intros fields' Hagree. rewrite (Hcore fields'), (Hcore fields).
    rewrite !Hagree by (unfold Fields.keys; simpl; auto). reflexivity.
Qed.

Lemma write_reads_four_keys_witness :
  Server.write (<["device_id" := Sqlite.VStr "dev1"]> (<["time" := Sqlite.VInt 0]> ∅))
    Server.no_write_faults Server.new_server =
  (Server.new_server, Raise (raise_msg KeyError [FStr "sensor_id"])).
Proof.
  apply (write_reads_four_keys
           (<["device_id" := Sqlite.VStr "dev1"]> (<["time" := Sqlite.VInt 0]> ∅))
           Server.no_write_faults Server.new_server).
  reflexivity.
Defined.

Section MoreRows.
Import Sqlite Server.

(** Without a failure of the engine a call on a settled store returns 0
    and stores its row. *)
Lemma record_no_faults (r : Record_) (s : State) rws :
  settled s rws ->
  bindable r = true ->
  snd (record r no_write_faults s) = Ok 0 /\
  settled (fst (record r no_write_faults s)) (rws ++ [stored_row r]).
Proof.
  intros Hs Hb.
  assert (H0 : snd (record r no_write_faults s) = Ok 0).
  { destruct Hs as (Htx & Hpend & t & Et & Hcols & Hrows).
    unfold bindable, row_of in Hb.
    unfold record. rewrite record_temperature_run, write_run.
    cbn [logged disk _connection no_write_faults on_insert on_commit].
    rewrite Et, Hcols, Hb. reflexivity. }
  split; [exact H0 | now apply record_success].
Qed.

(** A store whose [temperatures] table has not four columns takes no
    row: the call returns 1 and leaves files and connection alone. *)
Lemma record_wrong_arity (r : Record_) (f : WriteFaults) (s : State) t :
  find_table (content (disk s) (database_file (_connection s))) "temperatures" = Some t ->
  length (columns t) <> 4%nat ->
  exists m,
    record r f s =
    (logged (logged s DEBUG
               (received_message (r_device_id r) (r_sensor_id r) (r_time r) (r_temperature r)))
            ERROR m, Ok 1).
Proof.
  intros Et Hcols. unfold record. rewrite record_temperature_run, write_run.
  cbn [logged disk _connection]. rewrite Et.
  apply Nat.eqb_neq in Hcols. rewrite Hcols. cbn [negb].
  rewrite isinstance_DBError. eexists. reflexivity.
Qed.

End MoreRows.

(** X7.  [DBClient.__init__] does not look at the columns of a
    [temperatures] table that is already there.  On a file whose table
    has another number of columns than four the server starts, and
    then every call returns 1 and stores nothing, whatever the engine
    does. *)
Theorem foreign_table_rejects_every_record
    (database : string) (d : Sqlite.Disk) (f : Server.OpenFaults) (s0 : Server.State)
    (t : Sqlite.Table) (calls : list (Server.Record_ * Server.WriteFaults)) :
  Sqlite.find_table (Sqlite.content d (Server.uri database)) "temperatures" = Some t ->
  length (Sqlite.columns t) <> 4%nat ->
  Server.serving database f d = Some s0 ->
  fst (Server.serve calls s0) = map (fun _ => Some 1) calls /\
  Server.table_rows (snd (Server.serve calls s0)) = Sqlite.rows t /\
  Server.disk (snd (Server.serve calls s0)) = d.
Proof.
  intros Et Hcols Hs0.
  assert (Hinit : Server.disk s0 = d /\
                  Sqlite.database_file (Server._connection s0) = Server.uri database).
  { revert Hs0. unfold Server.serving. rewrite init_run, Et.
    destruct (Server.on_connect f); [discriminate|].
    destruct (Server.on_create f); [|discriminate|discriminate].
    intros [= <-]. cbn. split; [|reflexivity].
    unfold Sqlite.content in Et.
    destruct (d !! Server.uri database); [reflexivity | discriminate]. }
  destruct Hinit as [Hd Hfile].
  assert (Hgen : forall s,
             Server.disk s = d ->
             Sqlite.database_file (Server._connection s) = Server.uri database ->
             fst (Server.serve calls s) = map (fun _ => Some 1) calls /\
             Server.disk (snd (Server.serve calls s)) = d /\
             Sqlite.database_file (Server._connection (snd (Server.serve calls s))) =
               Server.uri database).
  { induction calls as [|[r w] calls IH]; intros s Hds Hfs; [repeat split; assumption|].
    cbn [Server.serve].
    destruct (record_wrong_arity r w s t) as (m & ->);
      [now rewrite Hds, Hfs | exact Hcols |].
    match goal with |- context [Server.serve calls ?s1] => specialize (IH s1 Hds Hfs) end.
    destruct (Server.serve calls _) as [out s'']. cbn [fst snd map] in *.
    destruct IH as (-> & Hd' & Hf'). repeat split; assumption. }
  destruct (Hgen s0 Hd Hfile) as (Hout & Hdisk & Hfile').
  split; [exact Hout|]. split; [|exact Hdisk].
  unfold Server.table_rows, Sqlite.stored_rows. now rewrite Hdisk, Hfile', Et.
Qed.

Lemma foreign_table_rejects_every_record_witness :
  fst (Server.serve [(Server.reading_of 22, Server.no_write_faults)]
         {| Server.disk :=
              {[ Server.uri "/var/temperatures" :=
                   [("temperatures"%string,
                     {| Sqlite.columns := ["time"; "temperature"]%string; Sqlite.rows := [] |})] ]};
            Server._connection :=
              {| Sqlite.database_file := Server.uri "/var/temperatures";
                 Sqlite.in_transaction := false; Sqlite.pending := [] |};
            Server.log := [(Server.INFO, [Lit "remote-temperature-server starting"])] |}) =
  [Some 1].
Proof.
  refine (proj1 (foreign_table_rejects_every_record
                   "/var/temperatures"
                   {[ Server.uri "/var/temperatures" :=
                        [("temperatures"%string,
                          {| Sqlite.columns := ["time"; "temperature"]%string;
                             Sqlite.rows := [] |})] ]}
                   Server.no_open_faults _
                   {| Sqlite.columns := ["time"; "temperature"]%string; Sqlite.rows := [] |}
                   [(Server.reading_of 22, Server.no_write_faults)]
                   eq_refl _ eq_refl)).
  vm_compute. discriminate.
Defined.

Section Integrity.
Import Sqlite Server.

Variable rws : list (list Value).

(** The table holds [rws] and then [kept]; the open transaction, if
    any, holds [pend]. *)
Let holding (s : State) (kept pend : list (list Value)) : Prop :=
  pending (_connection s) = Fields.for_temperatures pend /\
  exists t,
    find_table (content (disk s) (database_file (_connection s))) "temperatures" = Some t /\
    length (columns t) = 4%nat /\
    rows t = rws ++ kept.

Lemma rows_for_temperatures pend :
  rows_for "temperatures" (Fields.for_temperatures pend) = pend.
Proof.
  unfold rows_for, Fields.for_temperatures.
  induction pend as [|row pend IH]; [reflexivity|].
  cbn [map List.filter fst].
  rewrite bool_decide_eq_true_2 by reflexivity.
  cbn [map snd]. f_equal. exact IH.
Qed.

Lemma rows_for_snoc pend row :
  rows_for "temperatures" (Fields.for_temperatures pend ++ [("temperatures"%string, row)]) =
  pend ++ [row].
Proof.
  change [("temperatures"%string, row)] with (Fields.for_temperatures [row]).
  unfold Fields.for_temperatures. rewrite <- map_app.
  apply rows_for_temperatures.
Qed.

Lemma for_temperatures_app a b :
  Fields.for_temperatures (a ++ b) = Fields.for_temperatures a ++ Fields.for_temperatures b.
Proof. apply map_app. Qed.

(** One call: its row joins the transaction or the table, or the
    transaction is lost, or nothing happens; and it answers 0 only
    when the transaction and its own row have reached the table. *)
Lemma record_holding (r : Record_) (f : WriteFaults) (s : State) kept pend :
  holding s kept pend ->
  exists kept' pend',
    holding (fst (record r f s)) kept' pend' /\
    ((kept' = kept /\ (pend' = pend \/ pend' = [] \/ pend' = pend ++ [stored_row r]) /\
      snd (record r f s) <> Ok 0) \/
     (kept' = kept ++ pend ++ [stored_row r] /\ pend' = [])).
Proof.
  intros (Hpend & t & Et & Hcols & Hrows).
  unfold record. rewrite record_temperature_run, write_run.
  cbn [logged disk _connection]. rewrite Et, Hcols. cbn [Nat.eqb negb].
  assert (Hkeep : forall (s' : State) p,
             disk s' = disk s ->
             database_file (_connection s') = database_file (_connection s) ->
             pending (_connection s') = Fields.for_temperatures p ->
             holding s' kept p).
  { intros s' p Hd Hf Hp. split; [exact Hp|]. exists t. rewrite Hd, Hf. auto. }
  assert (Hcases : forall e (c : Connection) p,
             database_file c = database_file (_connection s) ->
             pending c = Fields.for_temperatures p ->
             p = pend \/ p = [] \/ p = pend ++ [stored_row r] ->
             let res := if isinstance (Server.wrap e) DBError
                        then (logged (with_connection
                                        (logged s DEBUG
                                           (received_message (r_device_id r) (r_sensor_id r)
                                              (r_time r) (r_temperature r))) c)
                                ERROR ([Lit "Database write failed: "] ++ msg (Server.wrap e)),
                              Ok 1)
                        else (with_connection
                                (logged s DEBUG
                                   (received_message (r_device_id r) (r_sensor_id r)
                                      (r_time r) (r_temperature r))) c,
                              Raise (Server.wrap e)) in
             exists kept' pend',
               holding (fst res) kept' pend' /\
               ((kept' = kept /\ (pend' = pend \/ pend' = [] \/ pend' = pend ++ [stored_row r]) /\
                 snd res <> Ok 0) \/
                (kept' = kept ++ pend ++ [stored_row r] /\ pend' = []))).
  { intros e c p Hf Hp Hor res. exists kept, p. subst res.
    destruct (isinstance (Server.wrap e) DBError); cbn [fst snd];
      (split; [apply Hkeep; [reflexivity | exact Hf | exact Hp]
              | left; repeat split; [exact Hor | discriminate]]). }
  destruct (negb (forallb binds _)).
  { exists kept, pend. change (isinstance too_large DBError) with false. cbn [fst snd].
    split; [apply Hkeep; [reflexivity | reflexivity | exact Hpend]|].
    left. repeat split; [now left | discriminate]. }
  destruct (on_insert f) as [|e|e].
  - destruct (on_commit f) as [|e|e].
    + exists (kept ++ pend ++ [stored_row r]), []. cbn [fst]. split; [|right; split; reflexivity].
      split; [reflexivity|].
      unfold committed. cbn [disk _connection rollback database_file inserted logged pending].
      rewrite content_insert, find_table_apply_pending, Et, Hpend.
      eexists. split; [reflexivity|]. split; [exact Hcols|]. cbn [rows].
      change (map stored [r_device_id r; r_sensor_id r; r_time r; r_temperature r])
        with (stored_row r).
      rewrite (rows_for_snoc pend (stored_row r)), Hrows, <- app_assoc.
      reflexivity.
    + apply (Hcases e (inserted (_connection s) (stored_row r)) (pend ++ [stored_row r]));
        [reflexivity | cbn; now rewrite Hpend, for_temperatures_app | auto].
    + apply (Hcases e (rollback (inserted (_connection s) (stored_row r))) []);
        [reflexivity | reflexivity | auto].
  - rewrite <- (with_connection_same (logged s DEBUG _)).
    apply (Hcases e (_connection s) pend); [reflexivity | exact Hpend | auto].
  - apply (Hcases e (rollback (_connection s)) []); [reflexivity | reflexivity | auto].
Qed.

Lemma successes_cons o out :
  Fields.successes (o :: out) =
  ((if bool_decide (o = Some 0%Z) then 1 else 0) + Fields.successes out)%nat.
Proof. unfold Fields.successes. cbn [List.filter]. now destruct (bool_decide _). Qed.

Lemma serve_cons r f calls s :
  serve ((r, f) :: calls) s =
  (match snd (record r f s) with Ok z => Some z | Raise _ => None end
     :: fst (serve calls (fst (record r f s))),
   snd (serve calls (fst (record r f s)))).
Proof.
  cbn [serve]. destruct (record r f s) as [s1 [z|e]]; cbn [fst snd];
    destruct (serve calls s1); reflexivity.
Qed.

(** A run of calls. *)
Lemma serve_holding calls :
  forall s kept pend,
    holding s kept pend ->
    exists new pend',
      holding (snd (serve calls s)) (kept ++ new) pend' /\
      (new ++ pend') `sublist_of` (pend ++ map (fun c => stored_row (fst c)) calls) /\
      (Fields.successes (fst (serve calls s)) <= length new)%nat.
Proof.
  induction calls as [|[r f] calls IH]; intros s kept pend Hs.
  - exists [], pend. cbn. rewrite !app_nil_r. split; [exact Hs|]. split; [reflexivity | lia].
  - destruct (record_holding r f s kept pend Hs) as (kept1 & pend1 & Hs1 & Hcase).
    destruct (IH _ _ _ Hs1) as (new & pend' & Hs' & Hsub & Hcount).
    rewrite serve_cons. cbn [fst snd map]. rewrite successes_cons.
    destruct Hcase as [(-> & Hp1 & Hnot0) | (-> & ->)].
    + exists new, pend'. split; [exact Hs'|].
      assert (Hz : bool_decide (match snd (record r f s) with
                                | Ok z => Some z
                                | Raise _ => None
                                end = Some 0) = false).
      { apply bool_decide_eq_false. destruct (snd (record r f s)); congruence. }
      rewrite Hz. split; [|exact Hcount].
      destruct Hp1 as [-> | [-> | ->]].
      * etransitivity; [exact Hsub|]. apply sublist_app; [reflexivity|].
        apply sublist_cons. reflexivity.
      * etransitivity; [exact Hsub|]. cbn [app]. apply sublist_inserts_l.
        apply sublist_cons. reflexivity.
      * now rewrite <- app_assoc in Hsub.
    + exists ((pend ++ [stored_row r]) ++ new), pend'.
      split; [now rewrite <- !app_assoc in *|]. split.
      * cbn [app] in Hsub. rewrite <- !app_assoc. cbn [app].
        apply sublist_app; [reflexivity|]. apply sublist_skip. exact Hsub.
      * rewrite !length_app. cbn [length]. destruct (bool_decide _); lia.
Qed.

End Integrity.

(** X8.  What the table can hold after any run of calls, whatever the
    engine does, starting from a settled store: the rows it had, then
    rows of the records received, as SQLite stores them (NaN as NULL),
    each at most once and in the order received -- no row is made up,
    repeated or moved.  And there are at least as many new rows as
    calls that answered 0. *)
Theorem store_holds_only_received_records
    (s : Server.State) (rws : list (list Sqlite.Value))
    (calls : list (Server.Record_ * Server.WriteFaults)) :
  Server.settled s rws ->
  exists new,
    Server.table_rows (snd (Server.serve calls s)) = rws ++ new /\
    new `sublist_of` map (fun c => Server.stored_row (fst c)) calls /\
    (Fields.successes (fst (Server.serve calls s)) <= length new)%nat.
Proof.
  intros (_ & Hpend & t & Et & Hcols & Hrows).
  destruct (serve_holding rws calls s [] []) as (new & pend' & (_ & t' & Et' & _ & Hrows') & Hsub & Hn).
  { split; [now rewrite Hpend|]. exists t. rewrite app_nil_r. auto. }
  exists new. split; [|split; [|exact Hn]].
  - unfold Server.table_rows, Sqlite.stored_rows. rewrite Et'. exact Hrows'.
  - cbn [app] in Hsub. etransitivity; [|exact Hsub].
    apply sublist_inserts_r. reflexivity.
Qed.

Lemma store_holds_only_received_records_witness :
  exists new,
    Server.table_rows
      (snd (Server.serve [(Server.reading_of 22, Server.commit_busy);
                          (Server.reading_of 23, Server.no_write_faults)] Server.new_server)) =
    [] ++ new /\
    new `sublist_of` [Server.stored_row (Server.reading_of 22);
                      Server.stored_row (Server.reading_of 23)] /\
    (1 <= length new)%nat.
Proof.
  apply (store_holds_only_received_records Server.new_server []
           [(Server.reading_of 22, Server.commit_busy);
            (Server.reading_of 23, Server.no_write_faults)]).
  repeat split. eexists. repeat split.
Defined.

Section NoFaults.
Import Sqlite Server.

(** Nothing is waiting in a transaction, and [temperatures] is there
    with four columns and the rows [rws]. *)
Let ready (s : State) (rws : list (list Value)) : Prop :=
  pending (_connection s) = [] /\
  exists t,
    find_table (content (disk s) (database_file (_connection s))) "temperatures" = Some t /\
    length (columns t) = 4%nat /\
    rows t = rws.

(** One call, the engine not failing. *)
Lemma record_ready (r : Record_) (s : State) rws :
  ready s rws ->
  if bindable r
  then snd (record r no_write_faults s) = Ok 0 /\
       ready (fst (record r no_write_faults s)) (rws ++ [stored_row r]) /\
       in_transaction (_connection (fst (record r no_write_faults s))) = false
  else snd (record r no_write_faults s) = Raise too_large /\
       ready (fst (record r no_write_faults s)) rws.
Proof.
  intros (Hpend & t & Et & Hcols & Hrows).
  unfold record. rewrite record_temperature_run, write_run.
  cbn [logged disk _connection no_write_faults on_insert on_commit].
  rewrite Et, Hcols. cbn [Nat.eqb negb].
  unfold bindable, row_of.
  destruct (forallb binds _); cbn [negb].
  - cbn [fst snd]. split; [reflexivity|]. split; [|reflexivity].
    unfold ready, committed.
    cbn [disk _connection rollback database_file pending inserted logged].
    split; [reflexivity|].
    rewrite content_insert, find_table_apply_pending, Et, Hpend.
    eexists. split; [reflexivity|]. split; [exact Hcols|].
    cbn. rewrite Hrows. reflexivity.
  - change (isinstance too_large DBError) with false. cbn [fst snd].
    split; [reflexivity|]. split; [exact Hpend|]. exists t. auto.
Qed.

Lemma serve_ready (records : list Record_) :
  forall s rws,
    ready s rws ->
    let run := serve (map (fun r => (r, no_write_faults)) records) s in
    fst run = map (fun r => if bindable r then Some 0 else None) records /\
    ready (snd run) (rws ++ map stored_row (List.filter bindable records)) /\
    (Forall (fun r => bindable r = true) records ->
     in_transaction (_connection s) = false ->
     in_transaction (_connection (snd run)) = false).
Proof.
  induction records as [|r records IH]; intros s rws Hs run; subst run.
  - cbn. rewrite app_nil_r. split; [reflexivity|]. split; [exact Hs | auto].
  - cbn [map List.filter]. rewrite serve_cons. cbn [fst snd].
    pose proof (record_ready r s rws Hs) as Hr.
    destruct (bindable r) eqn:Hb.
    + destruct Hr as (-> & Hs1 & Htx). destruct (IH _ _ Hs1) as (-> & Hs2 & Htx2).
      cbn [map]. rewrite <- app_assoc in Hs2. split; [reflexivity|]. split; [exact Hs2|].
      intros Hall _. apply Htx2; [|exact Htx]. now apply Forall_cons in Hall as [_ Hall].
    + destruct Hr as (-> & Hs1). destruct (IH _ _ Hs1) as (-> & Hs2 & _).
      split; [reflexivity|]. split; [exact Hs2|].
      intros Hall. apply Forall_cons in Hall as [Hr _]. congruence.
Qed.

End NoFaults.

(** X9.  Without a failure of the engine, a call on a settled store
    answers 0 and has its row stored at once exactly when sqlite3 can
    bind its four values; a call with an int outside 64 bits raises
    [OverflowError] instead and stores nothing.  After the calls the
    table holds the rows it had and then one row for each call that
    answered 0, in the order of the calls, as SQLite stores them (NaN
    as NULL), and nothing is waiting in a transaction; when every call
    could be bound the store is settled again. *)
Theorem serve_without_failures
    (s : Server.State) (rws : list (list Sqlite.Value)) (records : list Server.Record_) :
  Server.settled s rws ->
  let run := Server.serve (map (fun r => (r, Server.no_write_faults)) records) s in
  let stored := map Server.stored_row (List.filter Server.bindable records) in
  fst run = map (fun r => if Server.bindable r then Some 0 else None) records /\
  Server.table_rows (snd run) = rws ++ stored /\
  Sqlite.pending (Server._connection (snd run)) = [] /\
  (Forall (fun r => Server.bindable r = true) records ->
   fst run = map (fun _ => Some 0) records /\
   Server.table_rows (snd run) = rws ++ map Server.stored_row records /\
   Server.settled (snd run) (rws ++ map Server.stored_row records)).
Proof.
  intros (Htx & Hpend & t & Et & Hcols & Hrows) run stored.
  destruct (serve_ready records s rws) as (Hout & (Hpend' & t' & Et' & Hcols' & Hrows') & Htx').
  { split; [exact Hpend|]. exists t. auto. }
  fold run in Hout, Hpend', Et', Htx'. fold stored in Hrows'.
  assert (Htable : Server.table_rows (snd run) = rws ++ stored).
  { unfold Server.table_rows, Sqlite.stored_rows. rewrite Et'. exact Hrows'. }
  split; [exact Hout|]. split; [exact Htable|]. split; [exact Hpend'|].
  intros Hall.
  assert (Hfilter : List.filter Server.bindable records = records).
  { clear -Hall. induction Hall as [|r records Hr _ IH]; [reflexivity|].
    cbn [List.filter]. now rewrite Hr, IH. }
  assert (Hstatus : map (fun r => if Server.bindable r then Some 0 else None) records =
                    map (fun _ => Some 0) records).
  { clear -Hall. induction Hall as [|r records Hr _ IH]; [reflexivity|].
    cbn [map]. now rewrite Hr, IH. }
  subst stored. rewrite Hfilter in *. rewrite Hstatus in Hout.
  split; [exact Hout|]. split; [exact Htable|].
  split; [now apply Htx'|]. split; [exact Hpend'|]. exists t'. auto.
Qed.

Lemma serve_without_failures_witness :
  Server.table_rows
    (snd (Server.serve (map (fun r => (r, Server.no_write_faults))
                          [Server.reading_of 22; Server.reading_of 23]) Server.new_server)) =
  [] ++ map Server.stored_row
          (List.filter Server.bindable [Server.reading_of 22; Server.reading_of 23]).
Proof.
  refine (proj1 (proj2 (serve_without_failures Server.new_server []
                          [Server.reading_of 22; Server.reading_of 23] _))).
  repeat split. eexists. repeat split.
Defined.

(* ===================================================================== *)
(** * The sensor of the test suite                                        *)
(* ===================================================================== *)

Section Fake.
Import FakeW1.

Lemma get_temperature_eq (w : World) :
  get_temperature w =
  match _temps (_sensor w) !! _current (_sensor w) with
  | Some temp =>
      ({| _sensor := {| id := id (_sensor w); _temps := _temps (_sensor w);
                        _current := _current (_sensor w) + 1 |};
          temps_file := temps_file w |}, Ok temp)
  | None =>
      ({| _sensor := _sensor w; temps_file := false |},
       Raise (raise_msg W1ThermSensorError [Lit "Error reading temperature"]))
  end.
Proof.
  unfold get_temperature. cbv zeta.
  destruct (bool_decide_reflect (_current (_sensor w) < length (_temps (_sensor w)))%nat) as [Hlt|Hge].
  - destruct (lookup_lt_is_Some_2 _ _ Hlt) as [temp ->]. reflexivity.
  - rewrite lookup_ge_None_2 by lia. reflexivity.
Qed.

(** The world after [n] reads of a freshly loaded sensor. *)
Lemma after_reads_loaded (temps : list Z) (n : nat) :
  after_reads n (loaded temps) =
  {| _sensor := {| id := "fakesensor"; _temps := temps;
                   _current := Nat.min n (length temps) |};
     temps_file := bool_decide (n <= length temps)%nat |}.
Proof.
  assert (Hgen : forall m cur file,
             (cur <= length temps)%nat ->
             after_reads m {| _sensor := {| id := "fakesensor"; _temps := temps; _current := cur |};
                              temps_file := file |} =
             {| _sensor := {| id := "fakesensor"; _temps := temps;
                              _current := Nat.min (cur + m) (length temps) |};
                temps_file := file && bool_decide (cur + m <= length temps)%nat |}).
  { induction m as [|m IH]; intros cur file Hcur.
    - cbn [after_reads]. rewrite Nat.add_0_r, Nat.min_l by lia.
      rewrite bool_decide_eq_true_2 by lia. now rewrite andb_true_r.
    - cbn [after_reads]. rewrite get_temperature_eq. cbn [_sensor _temps _current temps_file id].
      destruct (temps !! cur) as [temp|] eqn:E.
      + cbn [fst]. apply lookup_lt_Some in E. rewrite IH by lia.
        replace (cur + 1 + m)%nat with (cur + S m)%nat by lia. reflexivity.
      + cbn [fst]. apply lookup_ge_None in E. rewrite IH by lia.
        rewrite !Nat.min_r by lia.
        rewrite (bool_decide_eq_false_2 (cur + S m <= length temps)%nat) by lia.
        now rewrite andb_false_r. }
  unfold loaded. rewrite (Hgen n 0%nat true) by lia. reflexivity.
Qed.

Lemma read_after_reads (temps : list Z) (n : nat) :
  snd (get_temperature (after_reads n (loaded temps))) =
  match temps !! n with
  | Some temp => Ok temp
  | None => Raise (raise_msg W1ThermSensorError [Lit "Error reading temperature"])
  end.
Proof.
  rewrite after_reads_loaded, get_temperature_eq. cbn [_sensor _temps _current].
  destruct (temps !! n) as [temp|] eqn:E.
  - pose proof (lookup_lt_Some _ _ _ E). rewrite Nat.min_l by lia. now rewrite E.
  - pose proof (lookup_ge_None_1 _ _ E). rewrite Nat.min_r by lia.
    now rewrite lookup_ge_None_2 by lia.
Qed.

End Fake.

(** X10.  The fake sensor gives the temperatures of its file one per
    call, in order, and after the last one every call raises
    [W1ThermSensorError].  The file is removed by the first call that
    finds nothing left and by no call before: after [n] calls it is
    there exactly when [n] is at most the number of temperatures, so
    its removal tells that all of them have been read. *)
Theorem fake_sensor_reads
    (temps : list Z) (n : nat) :
  let w := FakeW1.after_reads n (FakeW1.loaded temps) in
  snd (FakeW1.get_temperature w) =
    match temps !! n with
    | Some temp => Ok temp
    | None => Raise (raise_msg W1ThermSensorError [Lit "Error reading temperature"])
    end /\
  FakeW1.temps_file w = bool_decide (n <= length temps)%nat /\
  FakeW1.get_available_sensors w =
    [{| FakeW1.id := "fakesensor"; FakeW1._temps := temps;
        FakeW1._current := Nat.min n (length temps) |}].
Proof.
  intros w. subst w. split; [apply read_after_reads|].
  rewrite after_reads_loaded. split; reflexivity.
Qed.

(* ===================================================================== *)
(** * Client, fake sensor and server together                             *)
(* ===================================================================== *)

Section Together.
Import EndToEnd.

Variable temps : list Z.
Variable clock : nat -> spec_float.
Variable args : Client.Args.
Variable s0 : Server.State.
Variable faults_at : nat -> Server.WriteFaults.
Variable os_sleep : nat -> result unit.
Variable fault_string : exn -> string.
Variable repr : string -> string.
Variable rws : list (list Sqlite.Value).

Hypothesis small_temps : Forall (fun temp => xmlrpc_int temp = true) temps.
Hypothesis sane_temps :
  Forall (fun temp =>
            Client.not_outside (Client.sanity_check_low args) (Client.sanity_check_high args)
              (float_of_int temp) = true) temps.
Hypothesis plain_device : plain (Client.device_id args) = true.
Hypothesis sleeps : forall n, Client.time_sleep (os_sleep n) (Client.period args) = Ok tt.
Hypothesis settled_s0 : Server.settled s0 rws.
Hypothesis no_faults : forall n, faults_at n = Server.no_write_faults.

Let self0 := Client.__init__ args.
Let requests (k : nat) := imap (request_of clock args) (take k temps).
Let stored (k : nat) := imap (row_for clock args) (take k temps).
Let server k := server_at temps clock args s0 faults_at fault_string repr k.
Let proxy k := proxy_at temps clock faults_at fault_string repr k (server k).

Lemma plain_well_formed s : plain s = true -> well_formed s = true /\ parsed s = s.
Proof.
  induction s as [|c s IH]; [split; reflexivity|].
  cbn [plain well_formed]. intros H.
  apply andb_prop in H as [H Hs]. apply andb_prop in H as [Hc Hcr].
  destruct (IH Hs) as [Hw Hp]. rewrite Hc, Hw. split; [reflexivity|].
  apply negb_true_iff in Hcr. cbn [parsed]. rewrite Hcr, Hp. reflexivity.
Qed.

Lemma xmlrpc_int_binds z : xmlrpc_int z = true -> Sqlite.sqlite_int z = true.
Proof.
  unfold xmlrpc_int, Sqlite.sqlite_int, MININT, MAXINT. intros H.
  apply andb_prop in H as [H1 H2]. apply Z.leb_le in H1, H2.
  apply andb_true_intro. split; [apply Z.leb_le | apply Z.ltb_lt]; lia.
Qed.

Lemma sensor_at_eq n :
  sensor_at temps n =
  {| Client.id := "fakesensor";
     Client.get_temperature :=
       match temps !! n with
       | Some temp => Ok (float_of_int temp)
       | None => Raise (raise_msg W1ThermSensorError [Lit "Error reading temperature"])
       end |}.
Proof.
  unfold sensor_at. rewrite read_after_reads, after_reads_loaded. cbn [FakeW1._sensor FakeW1.id].
  destruct (temps !! n); reflexivity.
Qed.

Lemma imap_take_S {B} (g : nat -> Z -> B) k :
  imap g (take (S k) temps) =
  imap g (take k temps) ++ match temps !! k with
                           | Some temp => [g k temp]
                           | None => []
                           end.
Proof.
  destruct (temps !! k) as [temp|] eqn:E.
  - rewrite (take_S_r _ _ _ E), imap_app. cbn [imap].
    rewrite length_take_le by (apply lookup_lt_Some in E; lia).
    unfold compose. now rewrite Nat.add_0_r.
  - apply lookup_ge_None_1 in E. rewrite !take_ge by lia. now rewrite app_nil_r.
Qed.

(** The request of the [k]-th cycle arrives as it was sent, and is a
    record that sqlite3 binds and stores as [row_for]. *)
Lemma wire_at k temp :
  temps !! k = Some temp ->
  exists received,
    wire temps fault_string repr k (request_of clock args k temp) = Ok received /\
    Server.bindable received = true /\
    Server.stored_row received = row_for clock args k temp.
Proof.
  intros E. unfold wire. rewrite E.
  pose proof (proj1 (Forall_lookup _ _) small_temps k temp E) as Hsmall. cbn beta in Hsmall.
  rewrite Hsmall. cbn [negb request_of Client.req_device_id Client.req_sensor_id].
  destruct (plain_well_formed _ plain_device) as [Hw Hp]. rewrite Hw.
  change (well_formed "fakesensor") with true. cbn [andb negb].
  eexists. split; [reflexivity|]. split.
  - unfold Server.bindable, Server.row_of, marshal.
    cbn [Server.r_device_id Server.r_sensor_id Server.r_time Server.r_temperature
         forallb Sqlite.binds andb].
    now rewrite (xmlrpc_int_binds _ Hsmall).
  - unfold Server.stored_row, Server.row_of, marshal, row_for, request_of.
    cbn [Server.r_device_id Server.r_sensor_id Server.r_time Server.r_temperature map
         Client.req_device_id Client.req_sensor_id Client.req_timestamp].
    rewrite Hp. reflexivity.
Qed.

(** What the client sends in the [k]-th cycle. *)
Lemma transmitted_at k evs :
  Server.settled (server k) (rws ++ stored k) ->
  Client.transmitted (Client.after self0 evs) (sensor_at temps k) (proxy k) =
    match temps !! k with
    | Some temp => [request_of clock args k temp]
    | None => []
    end /\
  Client.ends_well (Client.after self0 evs) (sensor_at temps k, proxy k) = true /\
  Server.settled (server (S k)) (rws ++ stored (S k)).
Proof.
  intros Hset.
  change (stored (S k)) with (imap (row_for clock args) (take (S k) temps)).
  rewrite imap_take_S. fold (stored k).
  assert (Htx : Client.transmitted self0 (sensor_at temps k) (proxy k) =
                match temps !! k with
                | Some temp => [request_of clock args k temp]
                | None => []
                end).
  { unfold Client.transmitted. rewrite sensor_at_eq. cbn [Client.get_temperature].
    destruct (temps !! k) as [temp|] eqn:E; [|reflexivity].
    pose proof (proj1 (Forall_lookup _ _) sane_temps k temp E) as Hsane.
    cbn beta in Hsane. subst self0.
    cbn [Client.__init__ Client._sanity_check_low Client._sanity_check_high].
    rewrite Hsane. reflexivity. }
  assert (Hnext : server (S k) =
                  match Client.transmitted self0 (sensor_at temps k) (proxy k) with
                  | request :: _ =>
                      match wire temps fault_string repr k request with
                      | Ok received => fst (Server.record received (faults_at k) (server k))
                      | Raise _ => server k
                      end
                  | [] => server k
                  end) by reflexivity.
  rewrite Hnext, transmitted_after, Htx. clear Hnext.
  split; [reflexivity|].
  unfold Client.ends_well, Client.outcome. cbn [fst snd].
  rewrite sensor_at_eq.
  cbn [Client.get_temperature Client.after Client._sanity_check_low Client._sanity_check_high].
  destruct (temps !! k) as [temp|] eqn:E.
  - pose proof (proj1 (Forall_lookup _ _) sane_temps k temp E) as Hsane.
    cbn beta in Hsane. subst self0.
    cbn [Client.__init__ Client._sanity_check_low Client._sanity_check_high].
    rewrite Hsane.
    destruct (wire_at k temp E) as (received & Hwire & Hbind & Hrow).
    rewrite Hwire.
    destruct (record_no_faults received (server k) _ Hset Hbind) as [H0 Hset'].
    split.
    + unfold proxy at 1. cbn [proxy_at Client.record_temperature].
      change (Client.request_for _ _ _ (float_of_int temp)) with (request_of clock args k temp).
      rewrite Hwire, no_faults, H0. reflexivity.
    + rewrite no_faults, app_assoc, <- Hrow. exact Hset'.
  - split; [reflexivity|]. rewrite (List.app_nil_r (stored k)). exact Hset.
Qed.

(** The client and the server after [k] cycles. *)
Lemma after_cycles k :
  exists evs,
    client_after temps clock args s0 faults_at os_sleep fault_string repr k =
      {| Client.pc := Client.AtWhile; Client.self := Client.after self0 evs; Client.cycle := k |} /\
    Client.rpc_calls evs = requests k /\
    Server.settled (server k) (rws ++ stored k).
Proof.
  induction k as [|k (evs & Hc & Hrpc & Hset)].
  - exists []. unfold client_after. cbn [Nat.mul repeat Client.exec fold_left].
    unfold self0. rewrite after_nil. split; [reflexivity|]. split; [reflexivity|].
    unfold stored. cbn. rewrite app_nil_r. exact settled_s0.
  - destruct (transmitted_at k evs Hset) as (Htx & Hwell & Hset').
    unfold client_after in *.
    replace (4 * S k)%nat with (4 * k + (1 + 3))%nat by lia.
    rewrite repeat_app, exec_app, Hc.
    destruct (cycle_steps (sensors_at temps clock args s0 faults_at fault_string repr) os_sleep
                {| Client.pc := Client.AtWhile; Client.self := Client.after self0 evs;
                   Client.cycle := k |} eq_refl eq_refl) as (evs' & Hrun & _ & Hrpc' & _).
    { cbn [Client.cycle Client.self sensors_at forallb]. fold (server k). fold (proxy k).
      now rewrite Hwell. }
    cbn [Client.cycle Client.self sensors_at length flat_map fst snd] in Hrun, Hrpc'.
    fold (server k) in Hrpc'. fold (proxy k) in Hrpc'.
    change (Client._period (Client.after self0 evs)) with (Client.period args) in Hrun.
    rewrite sleeps in Hrun.
    rewrite Hrun, after_after.
    eexists. split; [reflexivity|]. split; [|exact Hset'].
    rewrite rpc_calls_app, Hrpc. change (Client.EvEnumerate :: evs' ++ ?x) with
      ([Client.EvEnumerate] ++ evs' ++ x).
    change (requests (S k)) with (imap (request_of clock args) (take (S k) temps)).
    rewrite !rpc_calls_app, Hrpc', Htx, imap_take_S. fold (requests k).
    cbn. now rewrite !app_nil_r.
Qed.

Lemma select_temperature_stored (l : list Z) :
  forall g : nat -> nat,
    select_temperature (imap (fun i => row_for clock args (g i)) l) =
    map (fun temp => Some (Sqlite.VInt temp)) l.
Proof.
  induction l as [|temp l IH]; intros g; [reflexivity|].
  cbn [imap]. unfold select_temperature in *. cbn [map]. f_equal.
  apply (IH (g ∘ S)).
Qed.

End Together.

(** X11.  The scenario of the test suite.  The client polls the fake
    sensor, whose temperatures are ints that XML-RPC can carry and all
    pass the sanity check; its device id is a str that arrives as it
    is sent (no control character but tab and line feed); its sleeps
    return (the period is a length [time.sleep] accepts and the
    platform sleeps); and it calls a server that is settled and whose
    engine does not fail.  After [k] cycles the client is back at its
    loop test, it has sent one request for each of the first [k]
    temperatures and none else, in order, each with the device id, the
    id "fakesensor", the time of its cycle and the temperature; and
    the server's table holds the rows it had and then one row for each
    of these requests, in order, the temperature stored as the int
    that was read and the time as sent (NULL for a NaN).  Once the
    temperatures are used up, further cycles add nothing: on a table
    that was empty, the temperature column then holds, in the order of
    insertion, the temperatures of the file, which is what the test
    looks for. *)
Theorem end_to_end
    (temps : list Z) (clock : nat -> spec_float) (args : Client.Args)
    (s0 : Server.State) (faults_at : nat -> Server.WriteFaults)
    (os_sleep : nat -> result unit) (fault_string : exn -> string) (repr : string -> string)
    (rws : list (list Sqlite.Value)) (k : nat) :
  Forall (fun temp => EndToEnd.xmlrpc_int temp = true) temps ->
  Forall (fun temp =>
            Client.not_outside (Client.sanity_check_low args) (Client.sanity_check_high args)
              (EndToEnd.float_of_int temp) = true) temps ->
  EndToEnd.plain (Client.device_id args) = true ->
  (forall n, Client.time_sleep (os_sleep n) (Client.period args) = Ok tt) ->
  Server.settled s0 rws ->
  (forall n, faults_at n = Server.no_write_faults) ->
  let c := EndToEnd.client_after temps clock args s0 faults_at os_sleep fault_string repr k in
  let sent := Client.rpc_calls (Client.trace (Client.self c)) in
  let table :=
    Server.table_rows (EndToEnd.server_at temps clock args s0 faults_at fault_string repr k) in
  Client.pc c = Client.AtWhile /\
  Client.cycle c = k /\
  sent = imap (EndToEnd.request_of clock args) (take k temps) /\
  table = rws ++ imap (EndToEnd.row_for clock args) (take k temps) /\
  ((length temps <= k)%nat -> rws = [] ->
   EndToEnd.select_temperature table = map (fun temp => Some (Sqlite.VInt temp)) temps).
Proof.
  intros Hsmall Hsane Hplain Hsleeps Hset Hnf c sent table.
  destruct (after_cycles temps clock args s0 faults_at os_sleep fault_string repr rws
              Hsmall Hsane Hplain Hsleeps Hset Hnf k)
    as (evs & Hc & Hrpc & (_ & _ & t & Et & _ & Hrows)).
  assert (Htable : table = rws ++ imap (EndToEnd.row_for clock args) (take k temps)).
  { subst table. unfold Server.table_rows, Sqlite.stored_rows. rewrite Et. exact Hrows. }
  subst sent c. rewrite Hc. cbn [Client.pc Client.cycle Client.self Client.after Client.trace].
  split; [reflexivity|]. split; [reflexivity|].
  split; [rewrite rpc_calls_app, Hrpc; reflexivity|].
  split; [exact Htable|].
  intros Hk ->. rewrite Htable, take_ge by lia. cbn [app].
  apply (select_temperature_stored clock args temps (fun i => i)).
Qed.

(** The five temperatures of the test, a server on no files yet, the
    period 0.1 of the test, six cycles: the table holds 22, 23, 24,
    25, 26. *)
Lemma end_to_end_witness :
  let args := {| Client.device_id := "unknown"; Client.period := TestSupport.tenth;
                 Client.sanity_check_low := Some (float_lit (-15) 0);
                 Client.sanity_check_high := Some (float_lit 100 0) |} in
  EndToEnd.select_temperature
    (Server.table_rows
       (EndToEnd.server_at [22; 23; 24; 25; 26] (fun n => float_lit (Z.of_nat n) 0)
          args Server.new_server (fun _ => Server.no_write_faults)
          (fun _ => EmptyString) (fun s => s) 6)) =
  map (fun temp => Some (Sqlite.VInt temp)) [22; 23; 24; 25; 26].
Proof.
  intros args.
  refine (proj2 (proj2 (proj2 (proj2
            (end_to_end [22; 23; 24; 25; 26] (fun n => float_lit (Z.of_nat n) 0)
               args Server.new_server (fun _ => Server.no_write_faults)
               (fun _ => Ok tt) (fun _ => EmptyString) (fun s => s)
               [] 6 _ _ _ _ _ _)))) _ _).
  - repeat constructor.
  - repeat constructor.
  - reflexivity.
  - intros n. vm_compute. reflexivity.
  - repeat split. eexists. repeat split.
  - reflexivity.
  - vm_compute. lia.
  - reflexivity.
Defined.

(* ===================================================================== *)
(** * The file of temperatures                                            *)
(* ===================================================================== *)

Section Text.
Import PyStr.

Variable sep : ascii.

Lemma split_nonempty s : split sep s <> [].
Proof.
  destruct s as [|c rest]; cbn [split]; [discriminate|].
  destruct (Ascii.eqb c sep); [discriminate|].
  destruct (split sep rest); discriminate.
Qed.

Lemma join_split s : join sep (split sep s) = s.
Proof.
  induction s as [|c rest IH]; [reflexivity|].
  cbn [split]. destruct (Ascii.eqb_spec c sep) as [->|Hne].
  - pose proof (split_nonempty rest).
    cbn [join]. destruct (split sep rest) as [|p ps]; [contradiction|].
    change (String sep (join sep (p :: ps)) = String sep rest). now rewrite IH.
  - pose proof (split_nonempty rest).
    destruct (split sep rest) as [|p ps]; [contradiction|].
    destruct ps as [|q qs].
    + cbn [join] in *. now rewrite IH.
    + change (String c (p +:+ String sep (join sep (q :: qs))) = String c rest).
      f_equal. exact IH.
Qed.

Lemma split_piece p s :
  contains sep p = false ->
  split sep (p +:+ String sep s) = p :: split sep s.
Proof.
  induction p as [|c p IH]; intros Hp.
  - change (split sep (String sep s) = EmptyString :: split sep s).
    cbn [split]. now rewrite Ascii.eqb_refl.
  - cbn [contains] in Hp. apply orb_false_elim in Hp as [Hc Hp].
    change (split sep (String c (p +:+ String sep s)) = String c p :: split sep s).
    cbn [split]. rewrite Hc, (IH Hp). reflexivity.
Qed.

Lemma split_last p :
  contains sep p = false -> split sep p = [p].
Proof.
  induction p as [|c p IH]; intros Hp; [reflexivity|].
  cbn [contains] in Hp. apply orb_false_elim in Hp as [Hc Hp].
  cbn [split]. rewrite Hc, (IH Hp). reflexivity.
Qed.

Lemma split_join parts :
  parts <> [] ->
  Forall (fun p => contains sep p = false) parts ->
  split sep (join sep parts) = parts.
Proof.
  induction parts as [|p parts IH]; intros Hne Hall; [contradiction|].
  apply Forall_cons in Hall as [Hp Hall].
  destruct parts as [|q parts].
  - cbn [join]. now apply split_last.
  - change (split sep (p +:+ String sep (join sep (q :: parts))) = p :: q :: parts).
    rewrite split_piece by exact Hp. f_equal. apply IH; [discriminate | exact Hall].
Qed.

End Text.

Section Numerals.
Import PyStr.

Lemma uint_no_semicolon (d : Decimal.uint) :
  contains ";" (DecimalString.NilEmpty.string_of_uint d) = false.
Proof. induction d; cbn; assumption || reflexivity. Qed.

Lemma str_no_semicolon (z : Z) : contains ";" (str z) = false.
Proof.
  unfold str. destruct (Z.to_int z) as [d|d]; cbn [DecimalString.NilZero.string_of_int].
  - destruct d; try reflexivity; apply (uint_no_semicolon (_ d)).
  - cbn [contains]. destruct d; try reflexivity; apply (uint_no_semicolon (_ d)).
Qed.

Lemma int_of_decimal_str (z : Z) : int_of_decimal (str z) = Ok z.
Proof.
  unfold int_of_decimal, str. rewrite DecimalString.NilZero.isi.
  - now rewrite DecimalZ.of_to.
  - destruct z; cbn; try discriminate.
    intros [= H]. now apply DecimalPos.Unsigned.to_uint_nonnil in H.
  - destruct z; cbn; try discriminate.
    intros [= H]. now apply DecimalPos.Unsigned.to_uint_nonnil in H.
Qed.

Lemma list_map_inverse {A B} (f : A -> result B) (g : B -> A) (P : B -> Prop) (ys : list B) :
  (forall y, P y -> f (g y) = Ok y) -> Forall P ys -> list_map f (map g ys) = Ok ys.
Proof.
  intros Hfg. induction 1 as [|y ys Hy _ IH]; [reflexivity|].
  cbn [map list_map]. now rewrite (Hfg y Hy), IH.
Qed.

End Numerals.

(** X12.  The file the test writes is read back by the fake sensor as
    the list it was written from: for a non-empty list of ints (each
    within the limit of int/str conversion), and any [int] that reads
    back what [str] writes, loading the module on
    [";".join(map(str, fake_temps))] gives a sensor holding
    [fake_temps], none read yet.  The empty list does not come back:
    its text is empty, [split] gives one empty piece, and loading
    fails with whatever [int] raises on the empty string. *)
Theorem temperatures_file_round_trip (int : string -> result Z) :
  (forall z, PyStr.within_str_limit z = true -> int (PyStr.str z) = Ok z) ->
  (forall fake_temps,
     fake_temps <> [] ->
     Forall (fun z => PyStr.within_str_limit z = true) fake_temps ->
     FakeFile.load int (FakeFile.written fake_temps) = Ok (FakeW1.loaded fake_temps)) /\
  (forall e,
     int EmptyString = Raise e ->
     FakeFile.load int (FakeFile.written []) = Raise e).
Proof.
  intros Hint. split.
  - intros fake_temps Hne Hlim. unfold FakeFile.load, FakeFile.read_temps, FakeFile.written.
    rewrite split_join.
    + now rewrite (list_map_inverse int PyStr.str _ fake_temps Hint Hlim).
    + destruct fake_temps; [contradiction | discriminate].
    + apply Forall_map, Forall_forall. intros z _. apply str_no_semicolon.
  - intros e He. unfold FakeFile.load, FakeFile.read_temps, FakeFile.written.
    cbn [map PyStr.join PyStr.split PyStr.list_map]. now rewrite He.
Qed.

Lemma temperatures_file_round_trip_witness :
  FakeFile.load PyStr.int_of_decimal (FakeFile.written [22; 23; 24; 25; 26]%Z) =
  Ok (FakeW1.loaded [22; 23; 24; 25; 26]%Z).
Proof.
  refine (proj1 (temperatures_file_round_trip PyStr.int_of_decimal
                   (fun z _ => int_of_decimal_str z)) _ _ _).
  - discriminate.
  - repeat constructor.
Defined.

(* ===================================================================== *)
(** * The server's start-up                                               *)
(* ===================================================================== *)

Section StartingUp.
Import Sqlite Startup.

Lemma startup_run (args : Args) (f : Faults) (d : Disk) :
  let starting := (Server.INFO, [Lit "remote-temperature-server starting"]) in
  let failed e := (Server.ERROR, [Lit "Failed to initialize server: "] ++ msg e) in
  let let_out (s : Self) e :=
    if isinstance e Exception
    then ({| files := files s; log := log s ++ [failed e]; _database := _database s;
             _rpc_server := _rpc_server s; registered := registered s |}, Raise e)
    else (s, Raise e) in
  __init__ args f (before d) =
  match Server.__init__ (database args) (on_open f) d with
  | (d', Raise e) =>
      let_out {| files := d'; log := [starting]; _database := None;
                 _rpc_server := None; registered := false |} e
  | (d', Ok c) =>
      match on_bind f with
      | Some e =>
          let_out {| files := d'; log := [starting]; _database := Some c;
                     _rpc_server := None; registered := false |} e
      | None =>
          ({| files := d'; log := [starting]; _database := Some c;
              _rpc_server := Some (address args, port args); registered := true |}, Ok tt)
      end
  end.
Proof.
  intros starting failed let_out.
  unfold __init__, bind, logger, modify, try_except, DBClient, before.
  cbn [files log _database _rpc_server registered app].
  destruct (Server.__init__ (database args) (on_open f) d) as [d' [c|e]].
  - unfold set_database, SimpleXMLRPCServer, modify.
    cbn [files log _database _rpc_server registered].
    destruct (on_bind f) as [e|].
    + unfold raise, matches. cbn [find existsb fst snd]. unfold let_out.
      rewrite orb_false_r. destruct (isinstance e Exception); reflexivity.
    + reflexivity.
  - unfold matches. cbn [find existsb fst snd]. unfold let_out.
    rewrite orb_false_r. destruct (isinstance e Exception); reflexivity.
Qed.

End StartingUp.

(** X13.  [RemoteTemperatureServer.__init__] opens the database before
    it binds the socket, and lets every failure out after logging it.
    Whatever happens, the files are left as [DBClient(...)] left them.
    If the database cannot be opened, that exception leaves and no
    socket is bound.  If the database opens and the bind fails, the
    bind's exception leaves, nothing is registered, and the database
    file stays behind with its [temperatures] table.  If both succeed
    the server is bound to [(args.address, args.port)], the recorder is
    registered on the new connection, and no error is logged.  An
    exception that leaves is logged once, as "Failed to initialize
    server: ...", when it is an [Exception], and not at all
    otherwise. *)
Theorem startup_opens_database_first
    (args : Startup.Args) (f : Startup.Faults) (d : Sqlite.Disk) :
  let out := Startup.__init__ args f (Startup.before d) in
  let opened := Server.__init__ (Startup.database args) (Startup.on_open f) d in
  let s := fst out in
  Startup.files s = fst opened /\
  (forall e, snd opened = Raise e ->
     snd out = Raise e /\
     Startup._database s = None /\ Startup._rpc_server s = None /\
     Startup.registered s = false) /\
  (forall c e, snd opened = Ok c -> Startup.on_bind f = Some e ->
     snd out = Raise e /\
     Startup._rpc_server s = None /\ Startup.registered s = false /\
     exists t,
       Sqlite.find_table
         (Sqlite.content (Startup.files s) (Server.uri (Startup.database args)))
         "temperatures" = Some t) /\
  (forall c, snd opened = Ok c -> Startup.on_bind f = None ->
     snd out = Ok tt /\
     Startup._database s = Some c /\
     Startup._rpc_server s = Some (Startup.address args, Startup.port args) /\
     Startup.registered s = true /\
     Startup.errors (Startup.log s) = [] /\
     Server.serving (Startup.database args) (Startup.on_open f) d =
       Some {| Server.disk := Startup.files s; Server._connection := c;
               Server.log := Startup.log s |}) /\
  (forall e, snd out = Raise e ->
     Startup.errors (Startup.log s) =
       if isinstance e Exception
       then [[Lit "Failed to initialize server: "] ++ msg e]
       else []).
Proof.
  intros out opened s. subst s out opened.
  rewrite startup_run. unfold Server.serving.
  destruct (Server.__init__ (Startup.database args) (Startup.on_open f) d) as [d' [c|e]] eqn:Hopen.
  - destruct (Startup.on_bind f) as [e|] eqn:Hbind.
    + split; [destruct (isinstance e Exception); reflexivity|].
      split; [intros e' [=]|].
      split.
      { intros c' e' _ [= <-].
        destruct (init_success _ _ _ _ _ Hopen) as (db & t & Hdb & Ht & _).
        destruct (isinstance e Exception); cbn [fst snd Startup.files Startup._rpc_server Startup.registered];
          (split; [reflexivity|]; split; [reflexivity|]; split; [reflexivity|]);
          exists t; unfold Sqlite.content; now rewrite Hdb. }
      split; [intros c' _ [=]|].
      intros e'. destruct (isinstance e Exception) eqn:He; cbn [fst snd]; intros [= <-];
        rewrite He; reflexivity.
    + split; [reflexivity|].
      split; [intros e' [=]|].
      split; [intros c' e' _ [=]|].
      split; [|intros e' [=]].
      intros c' [= <-] _. cbn [fst snd]. repeat (split; [reflexivity|]). reflexivity.
  - split; [destruct (isinstance e Exception); reflexivity|].
    split.
    { intros e' [= <-]. destruct (isinstance e Exception); cbn [fst snd];
        repeat (split; [reflexivity|]); reflexivity. }
    split; [intros c' e' [=]|].
    split; [intros c' [=]|].
    intros e'. destruct (isinstance e Exception) eqn:He; cbn [fst snd]; intros [= <-];
      rewrite He; reflexivity.
Qed.

Lemma startup_opens_database_first_witness :
  let args := {| Startup.address := "localhost"; Startup.port := 8080;
                 Startup.database := "/var/temperatures" |} in
  let in_use := raise_msg OSError [Lit "[Errno 98] Address already in use"] in
  let f := {| Startup.on_open := Server.no_open_faults; Startup.on_bind := Some in_use |} in
  let s := fst (Startup.__init__ args f (Startup.before ∅)) in
  snd (Startup.__init__ args f (Startup.before ∅)) = Raise in_use /\
  Startup._rpc_server s = None /\ Startup.registered s = false /\
  exists t,
    Sqlite.find_table (Sqlite.content (Startup.files s) (Server.uri "/var/temperatures"))
      "temperatures" = Some t.
Proof.
  intros args in_use f s.
  destruct (startup_opens_database_first args f ∅) as (_ & _ & H & _).
  refine (H {| Sqlite.database_file := Server.uri "/var/temperatures";
               Sqlite.in_transaction := false; Sqlite.pending := [] |} in_use _ _).
  - vm_compute. reflexivity.
  - reflexivity.
Defined.

(* ===================================================================== *)
(** * Waiting for the daemons                                             *)
(* ===================================================================== *)

Section Waiting.
Import TestSupport.

Lemma removal_loop_run (path_exists : nat -> bool) (n k m : nat) (sl : list spec_float) :
  (k <= n)%nat ->
  (forall i, (i < k)%nat -> path_exists (m + i)%nat = true) ->
  ((k < n)%nat -> path_exists (m + k)%nat = false) ->
  removal_loop path_exists n {| looks := m; slept := sl |} =
  ({| looks := m + Nat.min (S k) n; slept := sl ++ repeat tenth k |}, Ok tt).
Proof.
  revert k m sl. induction n as [|n IH]; intros k m sl Hk Hthere Hgone.
  - assert (k = 0)%nat as -> by lia. cbn [removal_loop repeat]. unfold ret.
    rewrite app_nil_r. do 3 f_equal. lia.
  - cbn [removal_loop]. unfold bind at 1. unfold look at 1. cbn [looks slept].
    destruct k as [|k].
    + pose proof (Hgone ltac:(lia)) as H0. rewrite Nat.add_0_r in H0.
      rewrite H0. cbn [negb repeat]. unfold ret.
      rewrite app_nil_r. do 3 f_equal.
    + pose proof (Hthere 0%nat ltac:(lia)) as H0. rewrite Nat.add_0_r in H0.
      rewrite H0. cbn [negb]. unfold bind, sleep, modify. cbn [looks slept].
      rewrite (IH k (m + 1)%nat (sl ++ [tenth])).
      * rewrite <- app_assoc. cbn [app repeat]. do 2 f_equal. lia.
      * lia.
      * intros i Hi. replace (m + 1 + i)%nat with (m + S i)%nat by lia. apply Hthere. lia.
      * intros Hlt. replace (m + 1 + k)%nat with (m + S k)%nat by lia. apply Hgone. lia.
Qed.

Lemma pid_loop_run (int : string -> result Z) (read_text : nat -> Read)
    (n k m : nat) (sl : list spec_float) :
  (k <= n)%nat ->
  (forall i, (i < k)%nat -> read_text (m + i)%nat = NotFound) ->
  ((k < n)%nat -> read_text (m + k)%nat <> NotFound) ->
  pid_loop int read_text n {| looks := m; slept := sl |} =
  ({| looks := m + Nat.min (S k) n; slept := sl ++ repeat tenth k |},
   if (k <? n)%nat
   then match read_text (m + k)%nat with
        | Text s => match int s with Ok pid => Ok (Some pid) | Raise e => Raise e end
        | Failed e => Raise e
        | NotFound => Ok None
        end
   else Ok None).
Proof.
  revert k m sl. induction n as [|n IH]; intros k m sl Hk Hmissing Hfound.
  - assert (k = 0)%nat as -> by lia. cbn [pid_loop repeat Nat.ltb Nat.leb]. unfold ret.
    rewrite app_nil_r. do 3 f_equal. lia.
  - cbn [pid_loop]. unfold bind at 1. unfold look at 1. cbn [looks slept].
    destruct k as [|k].
    + specialize (Hfound ltac:(lia)). rewrite Nat.add_0_r in *.
      change (0 <? S n)%nat with true. cbn [repeat]. rewrite app_nil_r.
      replace (m + Nat.min 1 (S n))%nat with (m + 1)%nat by lia.
      destruct (read_text m) as [|s|e]; [contradiction| |reflexivity].
      destruct (int s); reflexivity.
    + pose proof (Hmissing 0%nat ltac:(lia)) as H0. rewrite Nat.add_0_r in H0.
      rewrite H0. unfold bind, sleep, modify. cbn [looks slept].
      rewrite (IH k (m + 1)%nat (sl ++ [tenth])).
      * replace (m + 1 + k)%nat with (m + S k)%nat by lia.
        change (S k <? S n)%nat with (k <? n)%nat.
        rewrite <- app_assoc. cbn [app repeat].
        replace (m + 1 + Nat.min (S k) n)%nat with (m + Nat.min (S (S k)) (S n))%nat by lia.
        reflexivity.
      * lia.
      * intros i Hi. replace (m + 1 + i)%nat with (m + S i)%nat by lia. apply Hmissing. lia.
      * intros Hlt. replace (m + 1 + k)%nat with (m + S k)%nat by lia. apply Hfound. lia.
Qed.

End Waiting.

(** X14.  [wait_for_file_removal] looks at the file up to a hundred
    times, sleeping 0.1 s after each look that finds it, and then looks
    once more; only this last look decides.  If the first [k] looks
    find the file and the next one, when [k] is below a hundred, does
    not: the helper sleeps [k] times, and returns exactly when the last
    look (the one after, or the hundred-and-first) does not find the
    file, raising [RuntimeError] otherwise.  So a file that is never
    removed costs a hundred sleeps and raises; a file that stays away
    once it is gone makes the helper return; a file that is back at the
    last look makes it raise although it was seen gone. *)
Theorem wait_for_file_removal_looks_again
    (path : string) (path_exists : nat -> bool) (k : nat) :
  (k <= TestSupport.attempts)%nat ->
  (forall i, (i < k)%nat -> path_exists i = true) ->
  ((k < TestSupport.attempts)%nat -> path_exists k = false) ->
  let out := TestSupport.wait_for_file_removal path path_exists TestSupport.nothing_yet in
  let last := Nat.min (S k) TestSupport.attempts in
  TestSupport.slept (fst out) = repeat TestSupport.tenth k /\
  TestSupport.looks (fst out) = S last /\
  snd out =
    (if path_exists last
     then Raise (raise_msg RuntimeError
                   [Lit "Timeout waiting for file "; FStr path; Lit " to be removed"])
     else Ok tt) /\
  ((forall i j, (i <= j)%nat -> path_exists i = false -> path_exists j = false) ->
   (snd out = Ok tt <-> path_exists TestSupport.attempts = false)).
Proof.
  intros Hk Hthere Hgone out last. subst out.
  unfold TestSupport.wait_for_file_removal, TestSupport.nothing_yet, bind.
  rewrite (removal_loop_run path_exists TestSupport.attempts k 0 []) by assumption.
  unfold TestSupport.look. cbn [TestSupport.looks TestSupport.slept app Nat.add].
  fold last.
  destruct (path_exists last) eqn:Hlast; unfold raise, ret;
    cbn [fst snd TestSupport.looks TestSupport.slept];
    (split; [reflexivity|]; split; [lia|]; split; [reflexivity|]); intros Hstays.
  - split; [discriminate|]. intros Hend. exfalso.
    destruct (Nat.eq_dec k TestSupport.attempts) as [->|Hne].
    + subst last. rewrite Nat.min_r in Hlast by lia. congruence.
    + assert (Hkgone : path_exists k = false) by (apply Hgone; lia).
      rewrite (Hstays k last) in Hlast; [discriminate | subst last; lia | exact Hkgone].
  - split; [|reflexivity]. intros _.
    apply (Hstays last); [subst last; lia | exact Hlast].
Qed.

Lemma wait_for_file_removal_looks_again_witness :
  let out := TestSupport.wait_for_file_removal "fake-sensor" (fun i => (i <? 7)%nat)
               TestSupport.nothing_yet in
  TestSupport.slept (fst out) = repeat TestSupport.tenth 7 /\
  snd out = Ok tt.
Proof.
  destruct (wait_for_file_removal_looks_again "fake-sensor" (fun i => (i <? 7)%nat) 7)
    as (Hs & _ & Hr & _).
  - unfold TestSupport.attempts. lia.
  - intros i Hi. apply Nat.ltb_lt. exact Hi.
  - intros _. reflexivity.
  - split; [exact Hs | exact Hr].
Defined.

(** X15.  [get_daemon_pid] reads the PID file up to a hundred times
    and sleeps 0.1 s after each read that finds no file.  If the first
    [k] reads find no file: when [k] is a hundred it raises
    [RuntimeError] after a hundred sleeps; otherwise the next read
    decides after [k] sleeps, and there is no further attempt: the
    text read goes to [int], whose value is returned and whose
    exception (the file still empty or half written) leaves the
    helper, as does every exception of the read other than
    [FileNotFoundError]. *)
Theorem get_daemon_pid_first_read_decides
    (int : string -> result Z) (pid_file_path : string)
    (read_text : nat -> TestSupport.Read) (k : nat) :
  (k <= TestSupport.attempts)%nat ->
  (forall i, (i < k)%nat -> read_text i = TestSupport.NotFound) ->
  ((k < TestSupport.attempts)%nat -> read_text k <> TestSupport.NotFound) ->
  let out := TestSupport.get_daemon_pid int pid_file_path read_text TestSupport.nothing_yet in
  TestSupport.slept (fst out) = repeat TestSupport.tenth k /\
  TestSupport.looks (fst out) = Nat.min (S k) TestSupport.attempts /\
  (k = TestSupport.attempts ->
   snd out = Raise (raise_msg RuntimeError
                      [Lit "Timeout waiting for PID file "; FStr pid_file_path;
                       Lit " to be created"])) /\
  (forall s, (k < TestSupport.attempts)%nat -> read_text k = TestSupport.Text s ->
             snd out = int s) /\
  (forall e, (k < TestSupport.attempts)%nat -> read_text k = TestSupport.Failed e ->
             snd out = Raise e).
Proof.
  intros Hk Hmissing Hfound out. subst out.
  unfold TestSupport.get_daemon_pid, TestSupport.nothing_yet, bind.
  rewrite (pid_loop_run int read_text TestSupport.attempts k 0 []) by assumption.
  cbn [Nat.add app].
  destruct (k <? TestSupport.attempts)%nat eqn:Hlt.
  - apply Nat.ltb_lt in Hlt. specialize (Hfound Hlt).
    destruct (read_text k) as [|s|e]; [contradiction| |].
    + destruct (int s) eqn:Hs; cbn [fst snd TestSupport.slept TestSupport.looks];
        (split; [reflexivity|]; split; [reflexivity|]; split; [intros ->; lia|];
         split; [intros s' _ [= <-]; now rewrite Hs | intros e' _ [=]]).
    + cbn [fst snd TestSupport.slept TestSupport.looks].
      split; [reflexivity|]. split; [reflexivity|]. split; [intros ->; lia|].
      split; [intros s' _ [=] | intros e' _ [= <-]; reflexivity].
  - apply Nat.ltb_ge in Hlt. cbn [fst snd TestSupport.slept TestSupport.looks].
    split; [reflexivity|]. split; [reflexivity|]. split; [reflexivity|].
    split; [intros s' Hs'; lia | intros e' He'; lia].
Qed.

Lemma get_daemon_pid_first_read_decides_witness :
  let read_text := fun i => if (i <? 3)%nat then TestSupport.NotFound
                            else TestSupport.Text "4711" in
  let out := TestSupport.get_daemon_pid PyStr.int_of_decimal "server.pid" read_text
               TestSupport.nothing_yet in
  TestSupport.slept (fst out) = repeat TestSupport.tenth 3 /\
  snd out = Ok 4711%Z.
Proof.
  intros read_text.
  destruct (get_daemon_pid_first_read_decides PyStr.int_of_decimal "server.pid" read_text 3)
    as (Hs & _ & _ & Hr & _).
  - unfold TestSupport.attempts. lia.
  - intros i Hi. unfold read_text. apply Nat.ltb_lt in Hi. now rewrite Hi.
  - intros _. discriminate.
  - split; [exact Hs|]. apply (Hr "4711"%string); [unfold TestSupport.attempts; lia | reflexivity].
Defined.
